(** * Crowd-density video pipeline: a shallow embedding of
    [detection_service.py] (class [DetectionService]) and the properties
    of its frame loop, codec negotiation, density metric, transcoding
    pass and aggregation; then the part of [api.py] that calls it
    ([allowed_file], the upload endpoints, [get_file]) and the level and
    status rules of the dashboard.

    Conventions of the embedding.
    - Python [int] is [Z]; [len(..)] is [Z.of_nat (length ..)].
    - Python [float] is idealised as an exact rational ([Q]): [/] is exact
      division and [round(x, 2)] rounds the exact value to the nearest
      hundredth, ties to even.  Results are compared with [Qeq] ([==]).
      The interpreter computes with binary doubles, whose error is far
      below the distance of an exact value from a rounding tie for inputs
      of any realistic size (an image that fits in memory, a video of some
      hours); where the exact value is halfway between two hundredths it
      returns one of the two neighbours, chosen by the last bit of the
      double, and a product such as [0.55 * 100] can differ from the exact
      one in the last bit.  What is proved about a rounded value is
      therefore stated up to the choice on a tie
      ([rounded_to_hundredths]), and nothing is proved from the last bit
      of a product.
    - [str] is [string]; the file system is a [gmap string string] from
      paths to file contents.
    - An exception is a value of [exn]; code inside [try] returns either a
      value or the exception raised, and every [except] clause of the
      source is written out. *)

From Stdlib Require Import ZArith QArith Qround Lqa Ascii List Lia.
From Stdlib Require String.
From stdpp Require Import base option list gmap strings.

Local Open Scope Z_scope.

(** ** Python numerics *)

Module Py.

(** [min(a, b)]: the first argument unless the second is smaller. *)
Definition min (a b : Q) : Q :=
  match (b ?= a)%Q with Lt => b | _ => a end.

(** Rounding of an exact value to the nearest integer, ties to even. *)
Definition round_half_even (q : Q) : Z :=
  let f := Qfloor q in
  match ((q - inject_Z f) ?= (1 # 2))%Q with
  | Lt => f
  | Gt => f + 1
  | Eq => if Z.even f then f else f + 1
  end.

(** [round(x, 2)]. *)
Definition round2 (q : Q) : Q :=
  (inject_Z (round_half_even (q * 100)) / 100)%Q.

(** [int(x)] of a float: truncation toward zero. *)
Definition int (q : Q) : Z := Z.quot (Qnum q) (Zpos (Qden q)).

(** [a / b] on two ints (true division); the caller checks [b <> 0]. *)
Definition truediv (a b : Z) : Q := (inject_Z a / inject_Z b)%Q.

(** [s.endswith(suffix)]. *)
Definition endswith (s suffix : string) : bool :=
  let n := String.length s in
  let m := String.length suffix in
  (m <=? n)%nat && String.eqb (String.substring (n - m) m s) suffix.

(** [strip_prefix p s] is [Some rest] when [s = p ++ rest]. *)
Fixpoint strip_prefix (p s : string) : option string :=
  match p, s with
  | EmptyString, _ => Some s
  | String a p', String b s' =>
      if Ascii.eqb a b then strip_prefix p' s' else None
  | String _ _, EmptyString => None
  end.

(** [s.replace(old, new)] for a non-empty [old]: the occurrences of [old]
    are replaced from left to right, without overlap.  Each round consumes
    at least one character, so [String.length s] rounds are enough
    ([replace_fuel_enough]). *)
Fixpoint replace_go (fuel : nat) (old new s : string) : string :=
  match fuel with
  | O => s
  | S fuel' =>
      match strip_prefix old s with
      | Some rest => new +:+ replace_go fuel' old new rest
      | None =>
          match s with
          | EmptyString => EmptyString
          | String c s' => String c (replace_go fuel' old new s')
          end
      end
  end.

Definition replace (s old new : string) : string :=
  replace_go (S (String.length s)) old new s.

End Py.

(** ** Frames and drawing (the part of OpenCV the service uses) *)

(** The text of a label, [f'Person {confidence:.2f}'], kept symbolic. *)
Inductive LabelText := PersonLabel (confidence : Q).

Inductive DrawOp :=
| Rectangle (pt1 pt2 : Z * Z)            (* cv2.rectangle, green, thickness 2 *)
| PutText (text : LabelText) (org : Z * Z).  (* cv2.putText *)

(** An image ([np.ndarray]): its shape, its pixel content as decoded, and
    the shapes drawn on top of it so far, oldest first. *)
Record Frame := mkFrame {
  shape0 : N;                (* rows *)
  shape1 : N;                (* columns *)
  pixels : nat;
  overlay : list DrawOp
}.

Definition draw (op : DrawOp) (img : Frame) : Frame :=
  mkFrame (shape0 img) (shape1 img) (pixels img) (overlay img ++ [op]).

(** One box of a YOLO result: [box.xyxy[0]], [box.conf[0]], [box.cls[0]]. *)
Record Box := mkBox {
  x1 : Q; y1 : Q; x2 : Q; y2 : Q;
  conf : Q;
  cls : Q
}.

(** An entry of the ['detections'] list. *)
Record Detection := mkDetection {
  bbox : list Q;
  confidence : Q;
  class_id : option Z
}.

(** What [self.model(image, conf=.., classes=[0])] does: it raises, or it
    returns a list of results, each with its boxes. *)
Inductive ModelOutcome :=
| ModelRaises
| ModelResults (results : list (list Box)).

(** The detector capability: a function of the image and the threshold. *)
Definition Model := Frame -> Q -> ModelOutcome.

(** The dict returned by [detect_persons] and [process_video_frame]. *)
Record FrameDict := mkFrameDict {
  person_count : Z;
  density_percentage : Q;
  detections : list Detection;
  annotated_frame : option Frame;      (* 'annotated_frame' / 'annotated_image' *)
  has_error : bool                     (* the 'error' key is present *)
}.

(** The dict of the [except] clause of both functions. *)
Definition error_dict : FrameDict :=
  mkFrameDict 0 0%Q [] None true.

(** [frame.shape[0] * frame.shape[1]]. *)
Definition frame_area (frame : Frame) : Z :=
  Z.of_N (shape0 frame) * Z.of_N (shape1 frame).

(** Lines 144-146 (and 82-86): the density estimate before rounding.
    The division raises [ZeroDivisionError] when the area is 0, which the
    callers below check first. *)
Definition density_estimate (person_count area : Z) : Q :=
  let estimated_person_area := person_count * 7500 in
  Py.min 100 (Py.truediv estimated_person_area area * 100)%Q.

(** [person_count = len(boxes)] is assigned once per result: the last
    result decides. *)
Definition count_persons (results : list (list Box)) : Z :=
  fold_left (fun _ boxes => Z.of_nat (length boxes)) results 0.

Definition video_detection (b : Box) : Detection :=
  mkDetection [x1 b; y1 b; x2 b; y2 b] (conf b) None.

Definition image_detection (b : Box) : Detection :=
  mkDetection [x1 b; y1 b; x2 b; y2 b] (conf b) (Some (Py.int (cls b))).

Definition box_rectangle (b : Box) : DrawOp :=
  Rectangle (Py.int (x1 b), Py.int (y1 b)) (Py.int (x2 b), Py.int (y2 b)).

Definition box_label (b : Box) : DrawOp :=
  PutText (PersonLabel (conf b)) (Py.int (x1 b), Py.int (y1 b) - 10).

(** [process_video_frame(frame, conf_threshold)]. *)
Definition process_video_frame (model : Model) (frame : Frame)
    (conf_threshold : Q) : FrameDict :=
  match model frame conf_threshold with
  | ModelRaises => error_dict
  | ModelResults results =>
      let person_count := count_persons results in
      let boxes := concat results in
      let detections := map video_detection boxes in
      let annotated_frame :=
        fold_left (fun img b => draw (box_rectangle b) img) boxes frame in
      let area := frame_area frame in
      if area =? 0 then error_dict
      else
        mkFrameDict person_count
          (Py.round2 (density_estimate person_count area))
          detections (Some annotated_frame) false
  end.

(** [detect_persons(image_path, conf_threshold)]; [imread] is
    [cv2.imread], which gives [None] for an unreadable file. *)
Definition detect_persons (imread : string -> option Frame) (model : Model)
    (image_path : string) (conf_threshold : Q) : FrameDict :=
  match imread image_path with
  | None => error_dict
  | Some image =>
      match model image conf_threshold with
      | ModelRaises => error_dict
      | ModelResults results =>
          let person_count := count_persons results in
          let boxes := concat results in
          let detections := map image_detection boxes in
          let annotated_image :=
            fold_left
              (fun img b => draw (box_label b) (draw (box_rectangle b) img))
              boxes image in
          let image_area := frame_area image in
          if image_area =? 0 then error_dict
          else
            mkFrameDict person_count
              (Py.round2 (density_estimate person_count image_area))
              detections (Some annotated_image) false
      end
  end.

(** ** Exceptions *)

Inductive exn :=
| ValueError (msg : string)
| ZeroDivisionError
| ImportError
| TimeoutExpired
| OtherException (msg : string).      (* cv2.error, OSError, RuntimeError, ... *)

(** The outcome of a block that may raise. *)
Inductive outcome (A : Type) :=
| Returns (a : A)
| Raises (e : exn).
Arguments Returns {A} a.
Arguments Raises {A} e.

(** ** The world around one job *)

(** [cv2.VideoCapture(video_path)]: whether it opened, the properties
    [cap.get(..)] reports, and the frames [cap.read()] yields, in order. *)
Record Capture := mkCapture {
  cap_isOpened : bool;
  CAP_PROP_FPS : Q;
  CAP_PROP_FRAME_WIDTH : Q;
  CAP_PROP_FRAME_HEIGHT : Q;
  CAP_PROP_FRAME_COUNT : Q;
  cap_frames : list Frame
}.

(** [cv2.VideoWriter(path, fourcc, fps, (width, height))]: the constructor
    raises, or it returns a handle that reports itself open or not. *)
Inductive WriterOpen :=
| WriterRaises
| WriterHandle (isOpened : bool).

(** The file system: path to content. *)
Abbreviation Disk := (gmap string string).

(** [import imageio_ffmpeg] and [imageio_ffmpeg.get_ffmpeg_exe()]. *)
Inductive FfmpegLookup :=
| ImportFails                         (* ImportError *)
| LookupRaises (msg : string)         (* get_ffmpeg_exe raises *)
| FfmpegExe (path : string).

(** [subprocess.run(cmd, .., timeout=300)]: it raises [TimeoutExpired],
    raises another exception (the process could not be started), or
    completes with a return code and its stderr.  [residue] is the file
    the process left at its output path ([None]: it did not write there). *)
Inductive RunOutcome :=
| RunTimeout (residue : option string)
| RunFails (msg : string) (residue : option string)
| RunCompleted (returncode : Z) (stderr : string) (residue : option string).

Record World := mkWorld {
  VideoCapture : string -> Capture;
  VideoWriter : string -> Z -> Z -> Z * Z -> WriterOpen;
  (** whether the call of [out.write] raises, given how many frames were
      written before it *)
  write_raises : nat -> bool;
  model : Model;
  (** the file system at the moment the writer has been released *)
  disk_after_release : Disk;
  ffmpeg_lookup : FfmpegLookup;
  subprocess_run : list string -> RunOutcome
}.

(** ** [_reencode_to_h264] *)

Definition h264_temp_path (input_path : string) : string :=
  Py.replace input_path ".mp4" "_h264.mp4".

Definition ffmpeg_cmd (ffmpeg_exe input_path temp_path : string) : list string :=
  [ffmpeg_exe; "-i"; input_path; "-c:v"; "libx264"; "-preset"; "medium";
   "-crf"; "23"; "-pix_fmt"; "yuv420p"; "-movflags"; "+faststart"; "-y";
   temp_path].

(** What the external process leaves on disk at its output path. *)
Definition leave (temp_path : string) (residue : option string) (d : Disk) : Disk :=
  match residue with
  | Some content => <[temp_path := content]> d
  | None => d
  end.

(** [os.path.exists], [os.path.getsize], [os.remove], [os.replace]. *)
Definition exists_ (d : Disk) (path : string) : bool :=
  bool_decide (is_Some (d !! path)).

Definition getsize (d : Disk) (path : string) : Z :=
  match d !! path with
  | Some content => Z.of_nat (String.length content)
  | None => 0
  end.

Definition remove (path : string) (d : Disk) : Disk := delete path d.

Definition os_replace (src dst : string) (d : Disk) : Disk :=
  match d !! src with
  | Some content => <[dst := content]> (delete src d)
  | None => d
  end.

(** [if os.path.exists(temp_path): os.remove(temp_path)]. *)
Definition remove_if_exists (path : string) (d : Disk) : Disk :=
  if exists_ d path then remove path d else d.

(** The [try] block (lines 337-378): the returned path or the exception
    raised, and the file system it leaves. *)
Definition reencode_try (w : World) (d : Disk) (input_path : string)
    : outcome string * Disk :=
  match ffmpeg_lookup w with
  | ImportFails => (Raises ImportError, d)
  | LookupRaises msg => (Raises (OtherException msg), d)
  | FfmpegExe ffmpeg_exe =>
      let temp_path := h264_temp_path input_path in
      let cmd := ffmpeg_cmd ffmpeg_exe input_path temp_path in
      match subprocess_run w cmd with
      | RunTimeout residue => (Raises TimeoutExpired, leave temp_path residue d)
      | RunFails msg residue =>
          (Raises (OtherException msg), leave temp_path residue d)
      | RunCompleted returncode stderr residue =>
          let d1 := leave temp_path residue d in
          if (returncode =? 0) && exists_ d1 temp_path
             && (0 <? getsize d1 temp_path)
          then (Returns input_path, os_replace temp_path input_path d1)
          else (Returns input_path, remove_if_exists temp_path d1)
      end
  end.

(** [_reencode_to_h264(input_path, fps, width, height)] with its three
    [except] clauses. *)
Definition _reencode_to_h264 (w : World) (d : Disk) (input_path : string)
    (fps width height : Z) : outcome string * Disk :=
  match reencode_try w d input_path with
  | (Returns p, d') => (Returns p, d')
  | (Raises ImportError, d') => (Returns input_path, d')
  | (Raises TimeoutExpired, d') =>
      let temp_path := h264_temp_path input_path in
      (Returns input_path, remove_if_exists temp_path d')
  | (Raises _, d') =>
      let temp_path := h264_temp_path input_path in
      (Returns input_path, remove_if_exists temp_path d')
  end.

(** ** [process_video]: codec negotiation (lines 192-234) *)

(** [cv2.VideoWriter_fourcc(c1, c2, c3, c4)]. *)
Definition VideoWriter_fourcc (c1 c2 c3 c4 : ascii) : Z :=
  let code c := Z.of_nat (nat_of_ascii c) in
  Z.lor (Z.lor (Z.lor (code c1) (Z.shiftl (code c2) 8))
               (Z.shiftl (code c3) 16))
        (Z.shiftl (code c4) 24).

Definition fourcc_options : list (string * Z) :=
  [("mp4v", VideoWriter_fourcc "m" "p" "4" "v");
   ("XVID", VideoWriter_fourcc "X" "V" "I" "D");
   ("MJPG", VideoWriter_fourcc "M" "J" "P" "G");
   ("avc1", VideoWriter_fourcc "a" "v" "c" "1");
   ("H264", VideoWriter_fourcc "H" "2" "6" "4")].

(** Lines 210-212: the path a candidate is opened at. *)
Definition candidate_path (codec_name output_path : string) : string :=
  if String.eqb codec_name "MJPG" && negb (Py.endswith output_path ".avi")
  then Py.replace output_path ".mp4" ".avi"
  else output_path.

(** The [for codec_name, fourcc in fourcc_options] loop.  The result is
    the candidate the loop broke at (its name and the path it was opened
    at), if any, and the candidates attempted, in order.  A handle that
    did not open is released and dropped before the next candidate. *)
Fixpoint negotiate (w : World) (options : list (string * Z))
    (output_path : string) (fps width height : Z)
    : option (string * string) * list (string * string) :=
  match options with
  | [] => (None, [])
  | (codec_name, fourcc) :: rest =>
      let temp_path := candidate_path codec_name output_path in
      match VideoWriter w temp_path fourcc fps (width, height) with
      | WriterHandle true =>
          (Some (codec_name, temp_path), [(codec_name, temp_path)])
      | WriterHandle false =>
          let '(chosen, tried) := negotiate w rest output_path fps width height in
          (chosen, (codec_name, temp_path) :: tried)
      | WriterRaises =>
          let '(chosen, tried) := negotiate w rest output_path fps width height in
          (chosen, (codec_name, temp_path) :: tried)
      end
  end.

(** ** [process_video]: the frame loop (lines 236-285) *)

(** An entry of [frame_detections]: the dict of [process_video_frame]
    with the two keys added at lines 250-251. *)
Record FrameResult := mkFrameResult {
  result : FrameDict;
  frame_number : Z;
  timestamp : Q
}.

(** The variables the loop updates; [written] is what [out.write] has
    accepted so far. *)
Record LoopState := mkLoopState {
  frame_count : Z;
  frame_detections : list FrameResult;
  total_persons : Z;
  last_detections : option (list Detection);
  written : list Frame
}.

Definition loop_start : LoopState := mkLoopState 0 [] 0 None [].

(** Lines 268-281: one propagated detection drawn on a frame. *)
Definition draw_detection (img : Frame) (detection : Detection) : Frame :=
  match bbox detection with
  | [a; b; c; d] =>
      let x1 := Py.int a in
      let y1 := Py.int b in
      let x2 := Py.int c in
      let y2 := Py.int d in
      draw (PutText (PersonLabel (confidence detection)) (x1, y1 - 10))
           (draw (Rectangle (x1, y1) (x2, y2)) img)
  | _ => img
  end.

Definition draw_last (last : list Detection) (frame : Frame) : Frame :=
  fold_left draw_detection last frame.

Section FrameLoop.

Variable w : World.
Variable out : bool.                (* a writer was opened *)
Variable fps : Z.
Variable frame_interval : Z.
Variable conf_threshold : Q.

(** [out.write(img)]: the state after it, and the exception if it raised. *)
Definition write (st : LoopState) (img : Frame) : LoopState * option exn :=
  if write_raises w (length (written st))
  then (st, Some (OtherException "write"))
  else (mkLoopState (frame_count st) (frame_detections st) (total_persons st)
                    (last_detections st) (written st ++ [img]), None).

(** The body of [while cap.isOpened()] for one frame that was read. *)
Definition loop_body (st : LoopState) (frame : Frame) : LoopState * option exn :=
  let frame_count := frame_count st + 1 in
  let st := mkLoopState frame_count (frame_detections st) (total_persons st)
                        (last_detections st) (written st) in
  if frame_interval =? 0 then (st, Some ZeroDivisionError)
  else if frame_count mod frame_interval =? 0 then
    let result := process_video_frame (model w) frame conf_threshold in
    if fps =? 0 then (st, Some ZeroDivisionError)
    else
      let entry := mkFrameResult result frame_count (Py.truediv frame_count fps) in
      let st := mkLoopState frame_count (frame_detections st ++ [entry])
                            (total_persons st + person_count result)
                            (Some (detections result)) (written st) in
      let last_annotated_frame := default frame (annotated_frame result) in
      if out then write st last_annotated_frame else (st, None)
  else
    match out, last_detections st with
    | true, Some (d :: ds) => write st (draw_last (d :: ds) frame)
    | true, _ => write st frame
    | false, _ => (st, None)
    end.

(** The loop over the frames [cap.read()] yields; it stops at the first
    exception. *)
Fixpoint run_loop (st : LoopState) (frames : list Frame) : LoopState * option exn :=
  match frames with
  | [] => (st, None)
  | frame :: rest =>
      match loop_body st frame with
      | (st', None) => run_loop st' rest
      | (st', Some e) => (st', Some e)
      end
  end.

End FrameLoop.

(** ** [process_video]: the whole job *)

(** The dict returned at lines 304-312. *)
Record JobDict := mkJobDict {
  total_frames : Z;
  processed_frames : Z;
  average_person_count : Q;
  average_density : Q;
  returned_detections : list FrameResult;     (* 'frame_detections' *)
  output_video : option string;
  output_exists : bool
}.

(** What [process_video] returns: the dict above, or the dict of the
    [except] clause, [{'error': str(e), 'total_frames': 0,
    'processed_frames': 0}]. *)
Inductive JobResult :=
| JobOk (r : JobDict)
| JobError (e : exn).

Definition result_total_frames (r : JobResult) : Z :=
  match r with JobOk d => total_frames d | JobError _ => 0 end.

Definition result_processed_frames (r : JobResult) : Z :=
  match r with JobOk d => processed_frames d | JobError _ => 0 end.

(** What the job did to the world. *)
Record Trace := mkTrace {
  frames_written : list Frame;             (* accepted by [out.write] *)
  cap_released : bool;                     (* [cap.release()] was called *)
  out_opened : bool;                       (* the negotiation left a writer open *)
  out_released : bool;                     (* [out.release()] was called on it *)
  codecs_tried : list (string * string);   (* candidates attempted, with their paths *)
  reencoded : list string;                 (* arguments of [_reencode_to_h264] *)
  disk : Disk                              (* the file system at the end *)
}.

(** [if output_path:] *)
Definition truthy (output_path : option string) : bool :=
  match output_path with
  | Some p => negb (String.eqb p "")
  | None => false
  end.

Definition sum_Q (l : list Q) : Q := fold_left Qplus l 0%Q.

(** Lines 301-312. *)
Definition summarize (cap : Capture) (st : LoopState)
    (output_path : option string) (d : Disk) : JobDict :=
  let n := Z.of_nat (length (frame_detections st)) in
  let avg_person_count :=
    if n =? 0 then 0%Q else Py.truediv (total_persons st) n in
  let avg_density :=
    if n =? 0 then 0%Q
    else (sum_Q (map (fun r => density_percentage (result r)) (frame_detections st))
          / inject_Z n)%Q in
  mkJobDict (Py.int (CAP_PROP_FRAME_COUNT cap)) n
    (Py.round2 avg_person_count) (Py.round2 avg_density)
    (firstn 100 (frame_detections st))
    output_path
    (match output_path with
     | Some p => truthy output_path && exists_ d p
     | None => false
     end).

(** Lines 290-299, once [out] has been released: the output path after
    the transcoding pass, the calls of [_reencode_to_h264], and the file
    system they leave. *)
Definition finish (w : World) (p : string) (fps width height : Z)
    : outcome string * list string * Disk :=
  let d := disk_after_release w in
  if exists_ d p then
    if Py.endswith p ".mp4" then
      let '(r, d') := _reencode_to_h264 w d p fps width height in
      (r, [p], d')
    else (Returns p, [], d)
  else (Returns p, [], d).

Definition could_not_open : exn := ValueError "Could not open video".
Definition no_usable_codec : exn :=
  ValueError "Could not initialize video writer with any codec. Please ensure OpenCV is properly installed.".

(** Lines 287-312: the loop has ended without an exception in state
    [st]; [out] tells whether a writer is open, [path] is [output_path]
    after the negotiation, [tried] the candidates attempted. *)
Definition after_loop (w : World) (cap : Capture) (fps width height : Z)
    (out : bool) (path : option string) (tried : list (string * string))
    (st : LoopState) : JobResult * Trace :=
  (* cap.release(); if out: out.release() ... *)
  match out, path with
  | true, Some p =>
      match finish w p fps width height with
      | (Returns p', calls, d) =>
          (JobOk (summarize cap st (Some p') d),
           mkTrace (written st) true true true tried calls d)
      | (Raises e, calls, d) =>
          (JobError e, mkTrace (written st) true true true tried calls d)
      end
  | _, _ =>
      (JobOk (summarize cap st path (disk_after_release w)),
       mkTrace (written st) true out out tried [] (disk_after_release w))
  end.

(** Lines 236-320: the frame loop and what follows it, or the [except]
    clause when the loop raised. *)
Definition frame_pass (w : World) (cap : Capture) (fps width height : Z)
    (frame_interval : Z) (conf_threshold : Q)
    (out : bool) (path : option string) (tried : list (string * string))
    : JobResult * Trace :=
  match run_loop w out fps frame_interval conf_threshold loop_start (cap_frames cap) with
  | (st, Some e) =>
      (JobError e,
       mkTrace (written st) false out false tried [] (disk_after_release w))
  | (st, None) => after_loop w cap fps width height out path tried st
  end.

(** Lines 192-234: the writer set-up.  It returns whether a writer is
    open and [output_path] as the negotiation leaves it, or raises when no
    candidate opened; in both cases also the candidates attempted. *)
Definition open_writer (w : World) (fps width height : Z)
    (output_path : option string)
    : outcome (bool * option string) * list (string * string) :=
  match output_path with
  | Some p =>
      if truthy output_path then
        match negotiate w fourcc_options p fps width height with
        | (Some (used_codec, temp_path), tried) =>
            (Returns (true, Some temp_path), tried)
        | (None, tried) => (Raises no_usable_codec, tried)
        end
      else (Returns (false, output_path), [])
  | None => (Returns (false, output_path), [])
  end.

(** [process_video(video_path, output_path, frame_interval,
    conf_threshold)]: the returned dict and what the job did. *)
Definition process_video (w : World) (video_path : string)
    (output_path : option string) (frame_interval : Z) (conf_threshold : Q)
    : JobResult * Trace :=
  let cap := VideoCapture w video_path in
  if negb (cap_isOpened cap) then
    (JobError could_not_open,
     mkTrace [] false false false [] [] (disk_after_release w))
  else
    let fps := Py.int (CAP_PROP_FPS cap) in
    let width := Py.int (CAP_PROP_FRAME_WIDTH cap) in
    let height := Py.int (CAP_PROP_FRAME_HEIGHT cap) in
    match open_writer w fps width height output_path with
    | (Returns (out, path), tried) =>
        frame_pass w cap fps width height frame_interval conf_threshold
                   out path tried
    | (Raises e, tried) =>
        (JobError e, mkTrace [] false false false tried [] (disk_after_release w))
    end.

(** ** Values rounded to two decimals *)

(** [v] is [x] rounded to two decimals: a multiple of 0.01 at most 0.005
    away from [x].  This fixes [v], except when [x] is halfway between two
    multiples of 0.01, where it allows both. *)
Definition rounded_to_hundredths (x v : Q) : Prop :=
  (exists k : Z, v == k # 100)%Q
  /\ (x - (1 # 200) <= v <= x + (1 # 200))%Q.

(** ** The density metric as a function of the count and the area *)

(** What both functions report as ['density_percentage'] for a person
    count and an image area: 0 for an empty image (the division raises and
    the [except] clause answers), else the rounded, clamped estimate. *)
Definition reported_density (person_count area : Z) : Q :=
  if area =? 0 then 0%Q else Py.round2 (density_estimate person_count area).

(** The clamped estimate [min(100, person_count * 7500 / area * 100)]
    before it is rounded; 0 for an empty image. *)
Definition clamped_estimate (person_count area : Z) : Q :=
  if area =? 0 then 0%Q else density_estimate person_count area.

(** The contract of a result dict [r] computed from an image of [area]
    pixels: its density is the clamped estimate of its own count rounded to
    two decimals, lies in [0, 100], is 0 for a count of 0, and is 100 once
    the estimated person area covers the image ([r] then has no ['error']
    key). *)
Definition density_contract (r : FrameDict) (area : Z) : Prop :=
  rounded_to_hundredths (clamped_estimate (person_count r) area)
                        (density_percentage r)
  /\ (0 <= density_percentage r <= 100)%Q
  /\ (person_count r = 0 -> (density_percentage r == 0)%Q)
  /\ (has_error r = false -> area <= person_count r * 7500 ->
      (density_percentage r == 100)%Q).

(** ** What counts as a successful transcoding pass *)

(** The file the transcoder produced, when the pass succeeds: the tool was
    found, the process exited with status 0 and a non-empty file is at the
    temporary path.  [None] covers every failure mode: import error, lookup
    error, timeout, the process not starting, a non-zero exit status, a
    missing or empty output. *)
Definition transcoded (w : World) (d : Disk) (input_path : string)
    : option string :=
  match ffmpeg_lookup w with
  | FfmpegExe ffmpeg_exe =>
      let temp_path := h264_temp_path input_path in
      match subprocess_run w (ffmpeg_cmd ffmpeg_exe input_path temp_path) with
      | RunCompleted 0 _ residue =>
          match leave temp_path residue d !! temp_path with
          | Some (String c rest) => Some (String c rest)
          | _ => None
          end
      | _ => None
      end
  | _ => None
  end.

(** ** Codec candidates *)

(** A candidate opens when the writer constructed for it at its path
    reports itself open; it fails when the constructor raises or the handle
    is not open. *)
Definition opens (w : World) (output_path : string) (fps width height : Z)
    (candidate : string * Z) : Prop :=
  VideoWriter w (candidate_path candidate.1 output_path) candidate.2 fps
              (width, height) = WriterHandle true.

(** The record of an attempt: the candidate's name and the path tried. *)
Definition attempt (output_path : string) (candidate : string * Z)
    : string * string :=
  (candidate.1, candidate_path candidate.1 output_path).

(** ** The frame loop, frame by frame *)

Section Expected.

Variable model : Model.
Variables fps frame_interval : Z.
Variable conf_threshold : Q.

(** The frame index ([frame_count]) of the frame at position [i] of the
    stream: indices start at 1. *)
Definition index_of (i : nat) : Z := Z.of_nat (S i).

(** An anchor frame: its index is divisible by the interval. *)
Definition is_anchor (n : Z) : bool := n mod frame_interval =? 0.

(** The greatest multiple of the interval that is at most [n]; 0 when no
    anchor has occurred yet. *)
Definition last_anchor (n : Z) : Z := frame_interval * (n / frame_interval).

(** The FrameResult of the anchor frame [frame] with index [n]. *)
Definition anchor_result (n : Z) (frame : Frame) : FrameResult :=
  mkFrameResult (process_video_frame model frame conf_threshold) n
                (Py.truediv n fps).

(** The FrameResults of a stream: one per anchor frame, in frame order. *)
Definition anchor_results (frames : list Frame) : list FrameResult :=
  concat (imap (fun i frame =>
                  if is_anchor (index_of i)
                  then [anchor_result (index_of i) frame] else [])
               frames).

(** The detection set computed at the anchor with index [a]; empty for
    [a = 0], that is when there is no anchor. *)
Definition detections_at (frames : list Frame) (a : Z) : list Detection :=
  if a <=? 0 then []
  else match frames !! Z.to_nat (a - 1) with
       | Some frame => detections (process_video_frame model frame conf_threshold)
       | None => []
       end.

(** What the writer receives for the frame at position [i]: the annotated
    frame of the detector at an anchor (the frame itself when the detector
    failed), else the frame with the detections of the last anchor drawn
    on it. *)
Definition expected_frame (frames : list Frame) (i : nat) (frame : Frame) : Frame :=
  if is_anchor (index_of i)
  then default frame (annotated_frame (process_video_frame model frame conf_threshold))
  else draw_last (detections_at frames (last_anchor (index_of i))) frame.

Definition sum_persons (l : list FrameResult) : Z :=
  foldr (fun r acc => person_count (result r) + acc) 0 l.

(** [last_detections] after the frames of a stream. *)
Definition last_seen (frames : list Frame) : option (list Detection) :=
  let a := last_anchor (Z.of_nat (length frames)) in
  if a <=? 0 then None else Some (detections_at frames a).

(** The loop variables after a stream that was processed without an
    exception; [out] tells whether a writer is open. *)
Definition final_state (out : bool) (frames : list Frame) : LoopState :=
  mkLoopState (Z.of_nat (length frames))
              (anchor_results frames)
              (sum_persons (anchor_results frames))
              (last_seen frames)
              (if out then imap (expected_frame frames) frames else []).

End Expected.

(** No call of [out.write] among the first [n] raises. *)
Definition quiet (w : World) (n : nat) : Prop :=
  forall k, (k < n)%nat -> write_raises w k = false.

(** ** Means over FrameResults *)

(** The mean of the person counts and of the densities of a list of
    FrameResults, as lines 301-302 compute them; 0 for the empty list. *)
Definition mean_person_count (l : list FrameResult) : Q :=
  let n := Z.of_nat (length l) in
  if n =? 0 then 0%Q else Py.truediv (sum_persons l) n.

Definition mean_density (l : list FrameResult) : Q :=
  let n := Z.of_nat (length l) in
  if n =? 0 then 0%Q
  else (sum_Q (map (fun r => density_percentage (result r)) l) / inject_Z n)%Q.

(** ** Concrete inputs used by the examples *)

Definition hd_frame (n : nat) : Frame := mkFrame 1080 1920 n [].

Definition one_box : Box := mkBox 10 20 30 40 (9 # 10) 0.

(** A detector that finds the same single person in every frame. *)
Definition one_person_model : Model := fun _ _ => ModelResults [[one_box]].

(** A detector that finds [n] persons in every frame. *)
Definition crowd_model (n : nat) : Model :=
  fun _ _ => ModelResults [repeat one_box n].

(** A detector that returns two results, with two boxes and with one. *)
Definition two_results_model : Model :=
  fun _ _ => ModelResults [[one_box; one_box]; [one_box]].

(** A clip of [n] full-HD frames at 10 fps that opens. *)
Definition clip (n : nat) : Capture :=
  mkCapture true 10 1920 1080 (inject_Z (Z.of_nat n)) (map hd_frame (seq 1 n)).

Definition raw_disk : Disk := {[ "out.mp4" := "raw" ]}.

(** ffmpeg is found, exits with status 1 and leaves a partial file. *)
Definition ffmpeg_exits_1 : World :=
  mkWorld (fun _ => clip 3) (fun _ _ _ _ => WriterHandle true) (fun _ => false)
          one_person_model raw_disk (FfmpegExe "ffmpeg")
          (fun _ => RunCompleted 1 "error" (Some "part")).

(** Only Motion JPEG into an [.avi] file can be opened; the disk holds the
    [.avi] file afterwards. *)
Definition only_mjpg : World :=
  mkWorld (fun _ => clip 7)
          (fun path _ _ _ => WriterHandle (String.eqb path "out.avi"))
          (fun _ => false) one_person_model
          {[ "out.avi" := "frames" ]} ImportFails
          (fun _ => RunCompleted 1 "" None).

(** No encoder at all. *)
Definition no_encoder : World :=
  mkWorld (fun _ => clip 7) (fun _ _ _ _ => WriterRaises)
          (fun _ => false) one_person_model ∅ ImportFails
          (fun _ => RunCompleted 1 "" None).

(** Every encoder opens, no write raises, the transcoder is missing; the
    clip has [n] frames and the output file is on disk afterwards. *)
Definition studio (n : nat) : World :=
  mkWorld (fun _ => clip n) (fun _ _ _ _ => WriterHandle true) (fun _ => false)
          one_person_model raw_disk ImportFails
          (fun _ => RunCompleted 1 "" None).

(** As [studio 3], but the call of [out.write] after [k] written frames
    raises. *)
Definition breaks_at (k : nat) : World :=
  mkWorld (fun _ => clip 3) (fun _ _ _ _ => WriterHandle true)
          (fun n => Nat.eqb n k)
          one_person_model raw_disk ImportFails
          (fun _ => RunCompleted 1 "" None).

(** One person is seen in the first frame only. *)
Definition lone_visitor : World :=
  mkWorld (fun _ => clip 3) (fun _ _ _ _ => WriterHandle true) (fun _ => false)
          (fun frame _ => ModelResults [if Nat.eqb (pixels frame) 1 then [one_box] else []])
          raw_disk ImportFails
          (fun _ => RunCompleted 1 "" None).

(** The fifth frame of [clip 7] with the box of [one_box] and its label. *)
Definition boxed_fifth_frame : Frame :=
  draw_last [video_detection one_box] (hd_frame 5).

(** ** What is drawn for a detection *)

(** The rectangle and the label lines 270-281 draw for one entry of
    ['detections']; nothing for a ['bbox'] that has not four numbers. *)
Definition rectangle_of (detection : Detection) : option DrawOp :=
  match bbox detection with
  | [a; b; c; d] => Some (Rectangle (Py.int a, Py.int b) (Py.int c, Py.int d))
  | _ => None
  end.

Definition label_of (detection : Detection) : option DrawOp :=
  match bbox detection with
  | [a; b; c; d] =>
      Some (PutText (PersonLabel (confidence detection)) (Py.int a, Py.int b - 10))
  | _ => None
  end.

Definition is_rectangle (op : DrawOp) : bool :=
  match op with Rectangle _ _ => true | PutText _ _ => false end.

(** The rectangles on an image, oldest first. *)
Definition rectangles (img : Frame) : list DrawOp :=
  filter (fun op => is_rectangle op = true) (overlay img).

(** Two images with the same shape and the same decoded pixels. *)
Definition same_picture (a b : Frame) : Prop :=
  shape0 a = shape0 b /\ shape1 a = shape1 b /\ pixels a = pixels b.

(** What lines 270-281 draw for one detection: its rectangle, then its
    label. *)
Definition drawn_for (detection : Detection) : list DrawOp :=
  match rectangle_of detection, label_of detection with
  | Some r, Some l => [r; l]
  | _, _ => []
  end.

(** As [studio n], but the detector raises on every frame. *)
Definition blind_studio (n : nat) : World :=
  mkWorld (fun _ => clip n) (fun _ _ _ _ => WriterHandle true) (fun _ => false)
          (fun _ _ => ModelRaises) raw_disk ImportFails
          (fun _ => RunCompleted 1 "" None).

(** As [studio 3], but the container reports half a frame per second, so
    that [int(cap.get(cv2.CAP_PROP_FPS))] is 0. *)
Definition slow_studio : World :=
  mkWorld (fun _ => mkCapture true (1 # 2) 1920 1080 3 (map hd_frame (seq 1 3)))
          (fun _ _ _ _ => WriterHandle true) (fun _ => false)
          one_person_model raw_disk ImportFails
          (fun _ => RunCompleted 1 "" None).

(** * The HTTP layer ([api.py]): the part that calls the detection service *)

(** ** More of Python's [str] and [os.path] *)

(** Characters are code points below 256. *)
Module Str.

(** [c.lower()] for one character: the ASCII capitals and the capitals of
    Latin-1 (U+00C0 to U+00DE, but not the multiplication sign U+00D7). *)
Definition lower_char (c : ascii) : ascii :=
  let n := nat_of_ascii c in
  if ((65 <=? n)%nat && (n <=? 90)%nat)
     || ((192 <=? n)%nat && (n <=? 222)%nat && negb (n =? 215)%nat)
  then ascii_of_nat (n + 32) else c.

(** [s.lower()]. *)
Fixpoint lower (s : string) : string :=
  match s with
  | EmptyString => EmptyString
  | String c s' => String (lower_char c) (lower s')
  end.

(** [c in s] for a character [c]. *)
Fixpoint contains (c : ascii) (s : string) : bool :=
  match s with
  | EmptyString => false
  | String a s' => Ascii.eqb a c || contains c s'
  end.

(** [s.rsplit(c, 1)]: [[s]] when [c] does not occur, else what is before
    and what is after the last [c]. *)
Fixpoint rsplit1 (c : ascii) (s : string) : list string :=
  match s with
  | EmptyString => [EmptyString]
  | String a s' =>
      match rsplit1 c s' with
      | [before; after] => [String a before; after]
      | _ => if Ascii.eqb a c then [EmptyString; s'] else [String a s']
      end
  end.

End Str.

(** [posixpath]. *)
Module OsPath.

(** [os.path.join(a, b)]. *)
Definition join (a b : string) : string :=
  match Py.strip_prefix "/" b with
  | Some _ => b
  | None =>
      if String.eqb a "" || Py.endswith a "/" then a +:+ b
      else a +:+ "/" +:+ b
  end.

(** [os.path.join(a, b, c)]. *)
Definition join3 (a b c : string) : string := join (join a b) c.

(** [os.path.basename(p)]: what follows the last slash. *)
Definition basename (p : string) : string :=
  match Str.rsplit1 "/" p with
  | [_; tail] => tail
  | _ => p
  end.

End OsPath.

(** ** [allowed_file] *)

Definition ALLOWED_EXTENSIONS : gset string :=
  {[ "png"; "jpg"; "jpeg"; "gif"; "mp4"; "avi"; "mov"; "mkv" ]}.

(** ['.' in filename and filename.rsplit('.', 1)[1].lower() in
    ALLOWED_EXTENSIONS]; the index 1 exists whenever the first conjunct
    holds. *)
Definition allowed_file (filename : string) : bool :=
  Str.contains "." filename
  && match Str.rsplit1 "." filename !! 1%nat with
     | Some extension => bool_decide (Str.lower extension ∈ ALLOWED_EXTENSIONS)
     | None => false
     end.

(** ** Zones: heat level, status and the alert rule *)

(** The columns of [models.Zone] the endpoints read. *)
Record Zone := mkZone {
  zone_name : string;
  threshold_warning : Q;
  threshold_critical : Q
}.

Inductive HeatLevel := Empty | Low | Med | High | Crit.

(** Lines 98-108 of [get_heatmap_data].  The products
    [zone.threshold_critical * 100] and [zone.threshold_warning * 100] are
    exact here, as everywhere in this file; the same two products are
    compared with the density in [zone_status] and in the alert rule of
    [upload_image]. *)
Definition heat_level (zone : Zone) (density : Q) : HeatLevel :=
  if Qle_bool (threshold_critical zone * 100) density then Crit
  else if Qle_bool (threshold_warning zone * 100) density then High
  else if Qle_bool 30 density then Med
  else if negb (Qle_bool density 0) then Low
  else Empty.

Inductive ZoneStatus := Normal | Warning | Critical.

(** Lines 232-238 of [get_zone_stats]. *)
Definition zone_status (zone : Zone) (avg_density : Q) : ZoneStatus :=
  if Qle_bool (threshold_critical zone * 100) avg_density then Critical
  else if Qle_bool (threshold_warning zone * 100) avg_density then Warning
  else Normal.

(** The order of the levels, from empty to critical. *)
Definition heat_rank (l : HeatLevel) : Z :=
  match l with Empty => 0 | Low => 1 | Med => 2 | High => 3 | Crit => 4 end.

(** ** The upload endpoints *)

(** [save_annotated_image(annotated_image, output_path)]: whether it
    reports success, and the image files written. *)
Definition save_annotated_image (imwrite_raises : bool) (annotated_image : Frame)
    (output_path : string) : bool * list (string * Frame) :=
  if imwrite_raises then (false, []) else (true, [(output_path, annotated_image)]).

(** What a request carries: the name of the uploaded file ([None]: there
    is no ['file'] part) and the two optional form fields, as
    [request.form.get(.., type=int)] reads them. *)
Record Upload := mkUpload {
  upload_filename : option string;
  form_zone_id : option Z;
  form_camera_id : option Z
}.

(** What surrounds a request: the world of the detection service, and the
    calls of the endpoint that leave the program. *)
Record Server := mkServer {
  world : World;
  imread : string -> option Frame;             (* cv2.imread *)
  imwrite_raises : bool;                       (* cv2.imwrite raises *)
  secure_filename : string -> string;          (* werkzeug.utils.secure_filename *)
  upload_timestamp : string;                   (* utcnow().strftime('%Y%m%d_%H%M%S') *)
  save_raises : bool;                          (* file.save(filepath) raises *)
  Zone_query_get : Z -> option Zone;           (* Zone.query.get *)
  commit_raises : bool                         (* db.session.commit() raises *)
}.

(** What [json.dumps] stores in [detection_metadata]. *)
Inductive Metadata :=
| ImageMetadata (detections : list Detection)
| VideoMetadata (total_frames processed_frames : Z).

(** A row of [models.Detection], without the columns the database fills
    in ([id], [timestamp]). *)
Record DetectionRow := mkDetectionRow {
  row_camera_id : option Z;
  row_zone_id : option Z;
  row_person_count : Z;
  row_density_percentage : Q;
  row_image_path : option string;
  row_video_path : option string;
  row_processed_image_path : option string;
  row_detection_metadata : Metadata
}.

(** A row of [models.Alert] as [upload_image] builds it: [alert_type] is
    ['density'], [severity] is ['critical'], and the message is formatted
    from the zone's name and the density. *)
Record AlertRow := mkAlertRow {
  alert_zone_id : Z;
  alert_zone_name : string;
  alert_density : Q
}.

(** What a request leaves behind: the rows committed and the image files
    written by [save_annotated_image]. *)
Record Effects := mkEffects {
  detections_added : list DetectionRow;
  alerts_added : list AlertRow;
  images_written : list (string * Frame)
}.

Definition nothing : Effects := mkEffects [] [] [].

Inductive ErrorMessage :=
| NoFileProvided                 (* 'No file provided' *)
| NoFileSelected                 (* 'No file selected' *)
| FileTypeNotAllowed             (* 'File type not allowed' *)
| ImageProcessingFailed          (* f'Image processing failed: {result["error"]}' *)
| VideoProcessingFailed (e : exn)(* f'Video processing failed: {result["error"]}' *)
| NoFramesProcessed              (* 'No frames were processed from the video' *)
| Unhandled.                     (* str(e), from the endpoint's own except clause *)

Inductive Reply (A : Type) :=
| Ok200 (body : A)
| Error (status : Z) (message : ErrorMessage).
Arguments Ok200 {A} body.
Arguments Error {A} status message.

(** The ['result'] object of the reply of [upload_video], and the row under
    ['detection']. *)
Record VideoBody := mkVideoBody {
  video_detection_row : DetectionRow;
  body_average_person_count : Q;
  body_average_density : Q;
  body_total_frames : Z;
  body_processed_frames : Z;
  processed_video_url : option string;
  output_file_exists : bool;
  output_filename : option string
}.

Record ImageBody := mkImageBody {
  image_detection_row : DetectionRow;
  body_person_count : Z;
  body_density_percentage : Q;
  processed_image_url : string
}.

(** Lines 388-390: where the upload is saved. *)
Definition video_filepath (s : Server) (name : string) : string :=
  let filename := secure_filename s name in
  OsPath.join3 "uploads" "videos" (upload_timestamp s +:+ "_" +:+ filename).

(** Line 397: the output path asked of [process_video]. *)
Definition video_output_path (s : Server) (name : string) : string :=
  let filename := secure_filename s name in
  OsPath.join3 "uploads" "processed"
    ("processed_" +:+ upload_timestamp s +:+ "_" +:+ filename).

(** [upload_video()]: the reply and what the request leaves behind. *)
Definition upload_video (s : Server) (req : Upload) : Reply VideoBody * Effects :=
  match upload_filename req with
  | None => (Error 400 NoFileProvided, nothing)
  | Some name =>
      if String.eqb name "" then (Error 400 NoFileSelected, nothing)
      else if negb (allowed_file name) then (Error 400 FileTypeNotAllowed, nothing)
      else
        let filepath := video_filepath s name in
        if save_raises s then (Error 500 Unhandled, nothing)
        else
          let output_path := video_output_path s name in
          let job := process_video (world s) filepath (Some output_path) 5 (1 # 4) in
          match job.1 with
          | JobError e => (Error 500 (VideoProcessingFailed e), nothing)
          | JobOk result =>
              if processed_frames result =? 0
              then (Error 500 NoFramesProcessed, nothing)
              else
                let on_disk := exists_ (disk job.2) output_path in
                let output_exists := output_exists result || on_disk in
                let detection :=
                  mkDetectionRow (form_camera_id req) (form_zone_id req)
                    (Py.int (average_person_count result))
                    (average_density result)
                    None (Some filepath)
                    (if on_disk then Some output_path else None)
                    (VideoMetadata (total_frames result) (processed_frames result)) in
                if commit_raises s then (Error 500 Unhandled, nothing)
                else
                  (Ok200
                     (mkVideoBody detection
                        (average_person_count result) (average_density result)
                        (total_frames result) (processed_frames result)
                        (if output_exists
                         then Some ("/api/files/" +:+ OsPath.basename output_path)
                         else None)
                        output_exists
                        (if output_exists
                         then Some (OsPath.basename output_path)
                         else None)),
                   mkEffects [detection] [] [])
          end
  end.

(** Lines 339-350: the alert rows of one image. *)
Definition alerts_for (s : Server) (zone_id : option Z) (density : Q)
    : list AlertRow :=
  match zone_id with
  | Some zone_id =>
      if zone_id =? 0 then []
      else
        match Zone_query_get s zone_id with
        | Some zone =>
            if Qle_bool (threshold_critical zone * 100) density
            then [mkAlertRow zone_id (zone_name zone) density]
            else []
        | None => []
        end
  | None => []
  end.

(** [upload_image()]. *)
Definition upload_image (s : Server) (req : Upload) : Reply ImageBody * Effects :=
  match upload_filename req with
  | None => (Error 400 NoFileProvided, nothing)
  | Some name =>
      if String.eqb name "" then (Error 400 NoFileSelected, nothing)
      else if negb (allowed_file name) then (Error 400 FileTypeNotAllowed, nothing)
      else
        let filename := secure_filename s name in
        let filepath :=
          OsPath.join3 "uploads" "images" (upload_timestamp s +:+ "_" +:+ filename) in
        if save_raises s then (Error 500 Unhandled, nothing)
        else
          let result := detect_persons (imread s) (model (world s)) filepath (1 # 4) in
          if has_error result then (Error 500 ImageProcessingFailed, nothing)
          else
            let annotated_filename :=
              "processed_" +:+ upload_timestamp s +:+ "_" +:+ filename in
            let '(annotated_path, images) :=
              match annotated_frame result with
              | Some image =>
                  let path := OsPath.join3 "uploads" "processed" annotated_filename in
                  (Some path, (save_annotated_image (imwrite_raises s) image path).2)
              | None => (None, [])
              end in
            let detection :=
              mkDetectionRow (form_camera_id req) (form_zone_id req)
                (person_count result) (density_percentage result)
                (Some filepath) None annotated_path
                (ImageMetadata (detections result)) in
            let alerts :=
              alerts_for s (form_zone_id req) (density_percentage result) in
            if commit_raises s then (Error 500 Unhandled, mkEffects [] [] images)
            else
              (Ok200
                 (mkImageBody detection (person_count result)
                    (density_percentage result)
                    ("/api/files/" +:+ annotated_filename)),
               mkEffects [detection] alerts images)
  end.

(** ** [get_file] *)

Inductive FileReply :=
| NotFound                                        (* 404, 'File not found' *)
| SendFile (file_path : string) (mimetype : option string).

(** [s.endswith(suffixes)] for a tuple of suffixes. *)
Definition endswith_any (s : string) (suffixes : list string) : bool :=
  existsb (Py.endswith s) suffixes.

(** [get_file(filename)] on the file system [d]; [send_file] is taken to
    return. *)
Definition get_file (d : Disk) (filename : string) : FileReply :=
  let file_path := OsPath.join3 "uploads" "processed" filename in
  if exists_ d file_path then
    if endswith_any (Str.lower filename) [".mp4"; ".avi"; ".mov"; ".mkv"]
    then SendFile file_path (Some "video/mp4")
    else if endswith_any (Str.lower filename) [".jpg"; ".jpeg"]
    then SendFile file_path (Some "image/jpeg")
    else if Py.endswith (Str.lower filename) ".png"
    then SendFile file_path (Some "image/png")
    else if Py.endswith (Str.lower filename) ".gif"
    then SendFile file_path (Some "image/gif")
    else SendFile file_path None
  else NotFound.

(** ** Concrete servers used by the examples *)

Definition main_hall : Zone := mkZone "Main Hall" (6 # 10) (8 # 10).

(** A server around the world [w] with one zone, where nothing outside the
    detection service fails; [secure_filename] leaves plain names alone. *)
Definition server (w : World) : Server :=
  mkServer w (fun _ => Some (hd_frame 1)) false (fun name => name)
           "20240101_120000" false
           (fun id => if id =? 1 then Some main_hall else None) false.

(** As [only_mjpg], for the paths the upload endpoint asks for. *)
Definition mjpg_server : Server :=
  server
    (mkWorld (fun _ => clip 7)
       (fun path _ _ _ =>
          WriterHandle
            (String.eqb path "uploads/processed/processed_20240101_120000_in.avi"))
       (fun _ => false) one_person_model
       {[ "uploads/processed/processed_20240101_120000_in.avi" := "frames" ]}
       ImportFails (fun _ => RunCompleted 1 "" None)).

(** A crowd of 300 in front of the camera of the main hall. *)
Definition crowded_hall : Server :=
  server
    (mkWorld (fun _ => clip 7) (fun _ _ _ _ => WriterHandle true) (fun _ => false)
       (crowd_model 300) raw_disk ImportFails
       (fun _ => RunCompleted 1 "" None)).

(** * Properties *)

(** ** Rounding and the density estimate *)

Section Rounding.
Local Open Scope Q_scope.

Lemma round_half_even_floor q :
  (Qfloor q <= Py.round_half_even q <= Qfloor q + 1)%Z.
Proof.
  unfold Py.round_half_even.
  destruct (q - inject_Z (Qfloor q) ?= 1 # 2); [destruct (Z.even _)| |]; lia.
Qed.

Lemma round_half_even_Z (n : Z) : Py.round_half_even (inject_Z n) = n.
Proof.
  unfold Py.round_half_even. rewrite Qfloor_Z.
  replace (inject_Z n - inject_Z n ?= 1 # 2) with Lt; [reflexivity|].
  symmetry. apply (proj1 (Qlt_alt _ _)). lra.
Qed.

Lemma round_half_even_comp q r : q == r -> Py.round_half_even q = Py.round_half_even r.
Proof.
  intros E. unfold Py.round_half_even.
  rewrite (Qfloor_comp _ _ E).
  assert (H : (q - inject_Z (Qfloor r) ?= 1 # 2) = (r - inject_Z (Qfloor r) ?= 1 # 2)).
  { apply Qcompare_comp; [rewrite E|]; reflexivity. }
  rewrite H. reflexivity.
Qed.

Lemma round_half_even_nonneg q : 0 <= q -> (0 <= Py.round_half_even q)%Z.
Proof.
  intros H. pose proof (round_half_even_floor q) as [L _].
  pose proof (Qfloor_resp_le _ _ H) as F. change (Qfloor 0) with 0%Z in F. lia.
Qed.

Lemma round_half_even_le q (n : Z) : q <= inject_Z n -> (Py.round_half_even q <= n)%Z.
Proof.
  intros H.
  pose proof (Qfloor_resp_le _ _ H) as F. rewrite Qfloor_Z in F.
  destruct (Z.eq_dec (Qfloor q) n) as [E|NE].
  - assert (q == inject_Z n) as Eq.
    { apply Qle_antisym; [exact H|]. rewrite <- E. apply Qfloor_le. }
    rewrite (round_half_even_comp _ _ Eq). rewrite round_half_even_Z. lia.
  - pose proof (round_half_even_floor q). lia.
Qed.

Lemma round2_comp q r : q == r -> Py.round2 q == Py.round2 r.
Proof.
  intros E. unfold Py.round2.
  rewrite (round_half_even_comp (q * 100) (r * 100)); [reflexivity|].
  rewrite E. reflexivity.
Qed.

Lemma round2_Z (n : Z) : Py.round2 (inject_Z n) == inject_Z n.
Proof.
  unfold Py.round2.
  rewrite (round_half_even_comp (inject_Z n * 100) (inject_Z (n * 100))).
  - rewrite round_half_even_Z. rewrite inject_Z_mult. field.
  - rewrite inject_Z_mult. reflexivity.
Qed.

Lemma round2_bounds q : 0 <= q <= 100 -> 0 <= Py.round2 q <= 100.
Proof.
  intros [L U]. unfold Py.round2.
  assert (0 <= Py.round_half_even (q * 100))%Z as A.
  { apply round_half_even_nonneg. lra. }
  assert (Py.round_half_even (q * 100) <= 10000)%Z as B.
  { apply round_half_even_le. change (inject_Z 10000) with (10000 # 1). lra. }
  rewrite Zle_Qle in A, B.
  change (inject_Z 0) with 0 in A. change (inject_Z 10000) with (10000#1) in B.
  split.
  - apply Qle_shift_div_l; lra.
  - apply Qle_shift_div_r; lra.
Qed.

Lemma min_spec a b : (b < a /\ Py.min a b = b) \/ (a <= b /\ Py.min a b = a).
Proof.
  unfold Py.min. destruct (b ?= a) eqn:C.
  - right. split; [|reflexivity]. apply (proj2 (Qeq_alt _ _)) in C. lra.
  - left. split; [|reflexivity]. apply (proj2 (Qlt_alt _ _)) in C. exact C.
  - right. split; [|reflexivity]. apply (proj2 (Qgt_alt _ _)) in C. lra.
Qed.


Lemma truediv_nonneg a b : (0 <= a)%Z -> (0 < b)%Z -> 0 <= Py.truediv a b.
Proof.
  intros Ha Hb. unfold Py.truediv.
  rewrite Zle_Qle in Ha. rewrite Zlt_Qlt in Hb.
  change (inject_Z 0) with 0 in Ha, Hb.
  apply Qle_shift_div_l; [exact Hb|]. lra.
Qed.

Lemma truediv_ge_1 a b : (0 < b)%Z -> (b <= a)%Z -> 1 <= Py.truediv a b.
Proof.
  intros Hb Hab. unfold Py.truediv.
  rewrite Zle_Qle in Hab. rewrite Zlt_Qlt in Hb.
  change (inject_Z 0) with 0 in Hb.
  apply Qle_shift_div_l; [exact Hb|]. lra.
Qed.

Lemma density_estimate_bounds pc area :
  (0 <= pc)%Z -> (0 < area)%Z -> 0 <= density_estimate pc area <= 100.
Proof.
  intros Hpc Ha. unfold density_estimate.
  assert (0 <= Py.truediv (pc * 7500) area) as T by (apply truediv_nonneg; lia).
  destruct (min_spec 100 (Py.truediv (pc * 7500) area * 100)) as [[L ->]|[L ->]]; lra.
Qed.

Lemma density_estimate_zero area : density_estimate 0 area == 0.
Proof.
  unfold density_estimate.
  assert (Py.truediv (0 * 7500) area * 100 == 0) as E.
  { unfold Py.truediv, Qdiv. change (inject_Z (0 * 7500)) with 0. ring. }
  destruct (min_spec 100 (Py.truediv (0 * 7500) area * 100)) as [[L ->]|[L _]];
    [exact E | lra].
Qed.

Lemma density_estimate_saturates pc area :
  (0 < area)%Z -> (area <= pc * 7500)%Z -> density_estimate pc area = 100.
Proof.
  intros Ha Hs. unfold density_estimate.
  pose proof (truediv_ge_1 _ _ Ha Hs) as T.
  destruct (min_spec 100 (Py.truediv (pc * 7500) area * 100)) as [[L _]|[_ ->]];
    [lra | reflexivity].
Qed.

Lemma reported_density_bounds pc area :
  (0 <= pc)%Z -> (0 <= area)%Z -> 0 <= reported_density pc area <= 100.
Proof.
  intros Hpc Ha. unfold reported_density.
  destruct (Z.eqb_spec area 0) as [->|Hne]; [lra|].
  apply round2_bounds, density_estimate_bounds; lia.
Qed.

Lemma reported_density_zero area : reported_density 0 area == 0.
Proof.
  unfold reported_density. destruct (area =? 0)%Z; [reflexivity|].
  rewrite (round2_comp _ _ (density_estimate_zero area)).
  apply (round2_Z 0).
Qed.

Lemma reported_density_saturates pc area :
  (0 < area)%Z -> (area <= pc * 7500)%Z -> reported_density pc area == 100.
Proof.
  intros Ha Hs. unfold reported_density.
  destruct (Z.eqb_spec area 0) as [->|_]; [lia|].
  rewrite (density_estimate_saturates _ _ Ha Hs). apply (round2_Z 100).
Qed.

Lemma count_persons_nonneg results : (0 <= count_persons results)%Z.
Proof.
  unfold count_persons.
  assert (forall acc : Z, (0 <= acc)%Z ->
    (0 <= fold_left (fun _ (boxes : list Box) => Z.of_nat (length boxes)) results acc)%Z) as G.
  { induction results as [|boxes results IH]; intros acc H; simpl; [exact H|].
    apply IH. lia. }
  apply G. lia.
Qed.

Lemma round_half_even_close q :
  q - (1 # 2) <= inject_Z (Py.round_half_even q) <= q + (1 # 2).
Proof.
  unfold Py.round_half_even.
  pose proof (Qfloor_le q) as L. pose proof (Qlt_floor q) as U.
  rewrite inject_Z_plus in U. change (inject_Z 1) with 1 in U.
  destruct (q - inject_Z (Qfloor q) ?= 1 # 2) eqn:C.
  - apply Qeq_alt in C.
    destruct (Z.even (Qfloor q)); [|rewrite inject_Z_plus; change (inject_Z 1) with 1]; lra.
  - apply (proj2 (Qlt_alt _ _)) in C. lra.
  - apply (proj2 (Qgt_alt _ _)) in C. rewrite inject_Z_plus.
    change (inject_Z 1) with 1. lra.
Qed.

Lemma round2_rounded q : rounded_to_hundredths q (Py.round2 q).
Proof.
  unfold rounded_to_hundredths, Py.round2.
  pose proof (round_half_even_close (q * 100)) as [L U].
  set (k := Py.round_half_even (q * 100)) in *.
  assert (inject_Z k / 100 == k # 100) as E.
  { unfold Qdiv, Qmult, Qinv, Qeq, inject_Z. simpl. lia. }
  split; [exists k; exact E|].
  assert (inject_Z k / 100 == inject_Z k * (1 # 100)) as E2 by (unfold Qdiv; reflexivity).
  rewrite E2. lra.
Qed.

Lemma rounded_to_hundredths_comp x y v w :
  x == y -> v == w -> rounded_to_hundredths x v -> rounded_to_hundredths y w.
Proof.
  intros Ex Ev [[k Hk] [L U]]. split.
  - exists k. rewrite <- Ev. exact Hk.
  - rewrite <- Ex, <- Ev. split; assumption.
Qed.

(** A value with at most two decimals is its own rounding, and the only
    one. *)
Lemma rounded_to_hundredths_exact (n : Z) v :
  rounded_to_hundredths (n # 100) v -> v == n # 100.
Proof.
  intros [[k Hk] [L U]]. rewrite Hk in L, U |- *.
  assert (k = n) as ->; [|reflexivity].
  unfold Qle, Qminus, Qplus, Qopp in L, U. simpl in L, U. lia.
Qed.

End Rounding.

(** ** C3: the density metric *)

Lemma frame_area_nonneg frame : 0 <= frame_area frame.
Proof. unfold frame_area. lia. Qed.

Lemma error_dict_contract area : 0 <= area -> density_contract error_dict area.
Proof.
  intros Ha. unfold density_contract. simpl.
  split.
  { apply (rounded_to_hundredths_comp (0 # 100) _ (0 # 100) _);
      [|reflexivity|].
    - unfold clamped_estimate. destruct (area =? 0); [reflexivity|].
      symmetry. apply density_estimate_zero.
    - split; [exists 0; reflexivity|]. split; discriminate. }
  split; [lra|].
  split; [reflexivity | discriminate].
Qed.

Lemma reported_contract pc area dets img :
  0 <= pc -> 0 < area ->
  density_contract
    (mkFrameDict pc (Py.round2 (density_estimate pc area)) dets img false) area.
Proof.
  intros Hpc Ha. unfold density_contract. simpl.
  assert (Py.round2 (density_estimate pc area) == reported_density pc area)%Q as E.
  { unfold reported_density. destruct (Z.eqb_spec area 0); [lia|reflexivity]. }
  split.
  { unfold clamped_estimate. destruct (Z.eqb_spec area 0); [lia|].
    apply round2_rounded. }
  rewrite E. split; [|split].
  - apply reported_density_bounds; lia.
  - intros ->. apply reported_density_zero.
  - intros _ Hs. apply reported_density_saturates; assumption.
Qed.

(** What is reported is [reported_density] of the count and the area. *)
Lemma process_video_frame_reported model frame conf_threshold :
  (density_percentage (process_video_frame model frame conf_threshold)
   == reported_density
        (person_count (process_video_frame model frame conf_threshold))
        (frame_area frame))%Q.
Proof.
  unfold process_video_frame.
  destruct (model frame conf_threshold) as [|results].
  - simpl. symmetry. apply reported_density_zero.
  - unfold reported_density.
    destruct (frame_area frame =? 0); reflexivity.
Qed.

Lemma detect_persons_reported imread model image_path conf_threshold image :
  imread image_path = Some image ->
  (density_percentage (detect_persons imread model image_path conf_threshold)
   == reported_density
        (person_count (detect_persons imread model image_path conf_threshold))
        (frame_area image))%Q.
Proof.
  intros Him. unfold detect_persons. rewrite Him.
  destruct (model image conf_threshold) as [|results].
  - simpl. symmetry. apply reported_density_zero.
  - unfold reported_density.
    destruct (frame_area image =? 0); reflexivity.
Qed.

(** C3 (amended): for every frame (or image) and every detector result,
    ['density_percentage'] is the clamped estimate
    [min(100, person_count * 7500 / area * 100)] rounded to two decimals:
    a multiple of 0.01 at most 0.005 away from it (0 for an empty image);
    it lies in [0, 100], is 0 when the count is 0, and is exactly 100 once
    [person_count * 7500] reaches the area; and it is a function of
    ['person_count'] and the pixel area only: two results with the same
    count on images of the same area, from either function, report the
    same density. *)
Theorem density_percentage_rounded_clamped
    (model : Model) (imread : string -> option Frame)
    (frame : Frame) (image_path : string) (conf_threshold : Q) :
  density_contract (process_video_frame model frame conf_threshold)
                   (frame_area frame)
  /\ (forall image, imread image_path = Some image ->
      density_contract (detect_persons imread model image_path conf_threshold)
                       (frame_area image))
  /\ (forall model' frame' conf_threshold',
        person_count (process_video_frame model' frame' conf_threshold')
        = person_count (process_video_frame model frame conf_threshold) ->
        frame_area frame' = frame_area frame ->
        (density_percentage (process_video_frame model' frame' conf_threshold')
         == density_percentage (process_video_frame model frame conf_threshold))%Q)
  /\ (forall imread' model' image_path' conf_threshold' image',
        imread' image_path' = Some image' ->
        person_count (detect_persons imread' model' image_path' conf_threshold')
        = person_count (process_video_frame model frame conf_threshold) ->
        frame_area image' = frame_area frame ->
        (density_percentage
           (detect_persons imread' model' image_path' conf_threshold')
         == density_percentage (process_video_frame model frame conf_threshold))%Q)
  /\ (forall imread' model' image_path' conf_threshold' image image',
        imread image_path = Some image ->
        imread' image_path' = Some image' ->
        person_count (detect_persons imread' model' image_path' conf_threshold')
        = person_count (detect_persons imread model image_path conf_threshold) ->
        frame_area image' = frame_area image ->
        (density_percentage
           (detect_persons imread' model' image_path' conf_threshold')
         == density_percentage
              (detect_persons imread model image_path conf_threshold))%Q).
Proof.
  split; [|split; [|split; [|split]]].
  - unfold process_video_frame.
    pose proof (frame_area_nonneg frame) as Ha.
    destruct (model frame conf_threshold) as [|results].
    + apply error_dict_contract, Ha.
    + destruct (Z.eqb_spec (frame_area frame) 0) as [E|NE].
      * apply error_dict_contract, Ha.
      * apply reported_contract; [apply count_persons_nonneg | lia].
  - intros image Him. unfold detect_persons. rewrite Him.
    pose proof (frame_area_nonneg image) as Ha.
    destruct (model image conf_threshold) as [|results].
    + apply error_dict_contract, Ha.
    + destruct (Z.eqb_spec (frame_area image) 0) as [E|NE].
      * apply error_dict_contract, Ha.
      * apply reported_contract; [apply count_persons_nonneg | lia].
  - intros model' frame' conf_threshold' Hpc Ha.
    rewrite (process_video_frame_reported model' frame' conf_threshold'),
            (process_video_frame_reported model frame conf_threshold), Hpc, Ha.
    reflexivity.
  - intros imread' model' image_path' conf_threshold' image' Him Hpc Ha.
    rewrite (detect_persons_reported imread' model' image_path' conf_threshold'
               image' Him),
            (process_video_frame_reported model frame conf_threshold), Hpc, Ha.
    reflexivity.
  - intros imread' model' image_path' conf_threshold' image image' Him Him' Hpc Ha.
    rewrite (detect_persons_reported imread' model' image_path' conf_threshold'
               image' Him'),
            (detect_persons_reported imread model image_path conf_threshold
               image Him), Hpc, Ha.
    reflexivity.
Qed.

(** C3 as stated fails: one person in a 1920x1080 frame is reported as
    0.36, which is not [min(100, 1 * 7500 / 2073600 * 100)] = 625/1728. *)
Lemma density_percentage_not_the_unrounded_estimate :
  let r := process_video_frame one_person_model (hd_frame 0) (1 # 4) in
  ~ (density_percentage r
     == density_estimate (person_count r) (frame_area (hd_frame 0)))%Q.
Proof. vm_compute. discriminate. Qed.

(** 300 persons saturate a 1920x1080 frame. *)
Lemma density_percentage_rounded_clamped_witness :
  (density_percentage (process_video_frame (crowd_model 300) (hd_frame 0) (1 # 4)) == 100)%Q.
Proof.
  refine (proj2 (proj2 (proj2 (proj1
    (density_percentage_rounded_clamped (crowd_model 300) (fun _ => None)
       (hd_frame 0) "" (1 # 4))))) _ _).
  - reflexivity.
  - vm_compute. discriminate.
Defined.

(** ** Strings: [endswith] and [replace] *)

Section Strings.
Local Open Scope nat_scope.
Local Arguments String.append !_ _ / : simpl nomatch.

Lemma append_nil_r s : s +:+ "" = s.
Proof. induction s as [|c s IH]; simpl; [reflexivity | f_equal; exact IH]. Qed.

Lemma append_assoc s t u : (s +:+ t) +:+ u = s +:+ (t +:+ u).
Proof. induction s as [|c s IH]; simpl; [reflexivity | f_equal; exact IH]. Qed.

Lemma length_append s t : String.length (s +:+ t) = String.length s + String.length t.
Proof. induction s as [|c s IH]; simpl; [reflexivity | f_equal; exact IH]. Qed.

Lemma substring_all s : String.substring 0 (String.length s) s = s.
Proof. induction s as [|c s IH]; simpl; [reflexivity | f_equal; exact IH]. Qed.

Lemma substring_skip t suffix :
  String.substring (String.length t) (String.length suffix) (t +:+ suffix) = suffix.
Proof. induction t as [|c t IH]; simpl; [apply substring_all | exact IH]. Qed.

Lemma substring_split s : forall n m,
  n + m = String.length s ->
  s = String.substring 0 n s +:+ String.substring n m s.
Proof.
  induction s as [|c s IH]; intros n m H; simpl in H.
  - assert (n = 0) as -> by lia. assert (m = 0) as -> by lia. reflexivity.
  - destruct n as [|n].
    + simpl in H. subst m. simpl. f_equal. symmetry. apply substring_all.
    + simpl. f_equal. apply IH. lia.
Qed.

Lemma endswith_app t suffix : Py.endswith (t +:+ suffix) suffix = true.
Proof.
  unfold Py.endswith. rewrite length_append.
  replace (String.length t + String.length suffix - String.length suffix)
    with (String.length t) by lia.
  rewrite substring_skip, String.eqb_refl.
  rewrite andb_true_r. apply Nat.leb_le. lia.
Qed.

Lemma endswith_inv s suffix :
  Py.endswith s suffix = true -> exists t, s = t +:+ suffix.
Proof.
  unfold Py.endswith. intros H. apply andb_true_iff in H as [Hle Heq].
  apply Nat.leb_le in Hle. apply String.eqb_eq in Heq.
  exists (String.substring 0 (String.length s - String.length suffix) s).
  pose proof (substring_split s (String.length s - String.length suffix)
                (String.length suffix)) as Hs.
  rewrite Heq in Hs. apply Hs. lia.
Qed.

Lemma strip_prefix_length a p s rest :
  Py.strip_prefix (String a p) s = Some rest -> String.length rest < String.length s.
Proof.
  revert a s. induction p as [|b p IH]; intros a s H; destruct s as [|c s]; simpl in H;
    try discriminate; destruct (Ascii.eqb a c); try discriminate.
  - injection H as <-. simpl. lia.
  - apply IH in H. simpl in *. lia.
Qed.

Lemma replace_go_fuel old_hd old_tl new : forall f1 f2 s,
  String.length s < f1 -> String.length s < f2 ->
  Py.replace_go f1 (String old_hd old_tl) new s
  = Py.replace_go f2 (String old_hd old_tl) new s.
Proof.
  induction f1 as [|f1 IH]; intros f2 s H1 H2; [lia|].
  destruct f2 as [|f2]; [lia|].
  cbn [Py.replace_go].
  destruct (Py.strip_prefix (String old_hd old_tl) s) as [rest|] eqn:E.
  - apply strip_prefix_length in E. f_equal. apply IH; lia.
  - destruct s as [|c s]; [reflexivity|]. f_equal. simpl in *. apply IH; lia.
Qed.

(** Enough fuel: more rounds than [String.length s] change nothing. *)
Lemma replace_fuel_enough old_hd old_tl new fuel s :
  String.length s < fuel ->
  Py.replace_go fuel (String old_hd old_tl) new s
  = Py.replace s (String old_hd old_tl) new.
Proof. intros H. unfold Py.replace. apply replace_go_fuel; lia. Qed.

(** A path that ends in [.mp4] has its extension replaced: the pattern
    cannot overlap itself, so the last four characters are always matched. *)
Lemma replace_mp4_suffix new : 4 <= String.length new -> forall n t fuel,
  String.length t <= n ->
  String.length (t +:+ ".mp4") < fuel ->
  exists u, Py.replace_go fuel ".mp4" new (t +:+ ".mp4") = u +:+ new
            /\ String.length t <= String.length u.
Proof.
  intros Hnew. induction n as [n IH] using lt_wf_ind. intros t fuel Hn Hfuel.
  destruct fuel as [|fuel]; [lia|].
  assert (forall t', String.length t' < String.length t ->
    exists u, Py.replace_go fuel ".mp4" new (t' +:+ ".mp4") = u +:+ new
              /\ String.length t' <= String.length u) as IH'.
  { intros t' Hlt. destruct n as [|n]; [lia|].
    apply (IH n); [lia | lia|]. rewrite length_append in *. simpl in *. lia. }
  clear IH.
  destruct t as [|a t].
  { exists "". simpl. destruct fuel; simpl; rewrite append_nil_r; split; auto. }
  cbn [String.append Py.replace_go Py.strip_prefix].
  assert (exists u, String a (Py.replace_go fuel ".mp4" new (t +:+ ".mp4")) = u +:+ new
            /\ String.length (String a t) <= String.length u) as Hskip.
  { destruct (IH' t) as (u & Hu & Hl); [simpl; lia|].
    exists (String a u). rewrite Hu. simpl. split; [reflexivity | lia]. }
  destruct (Ascii.eqb "." a) eqn:Ea; [|exact Hskip].
  destruct t as [|b t]; [exact Hskip|].
  cbn [String.append Py.strip_prefix].
  destruct (Ascii.eqb "m" b) eqn:Eb; [|exact Hskip].
  destruct t as [|c t].
  { cbn [String.append Py.strip_prefix]. simpl (Ascii.eqb "p" "."). exact Hskip. }
  cbn [String.append Py.strip_prefix].
  destruct (Ascii.eqb "p" c) eqn:Ec; [|exact Hskip].
  destruct t as [|d t].
  { cbn [String.append Py.strip_prefix]. simpl (Ascii.eqb "4" "."). exact Hskip. }
  cbn [String.append Py.strip_prefix].
  destruct (Ascii.eqb "4" d) eqn:Ed; [|exact Hskip].
  destruct (IH' t) as (u & Hu & Hl); [simpl; lia|].
  exists (new +:+ u). rewrite Hu, append_assoc. split; [reflexivity|].
  rewrite length_append. simpl. lia.
Qed.

Lemma replace_mp4_endswith path new :
  4 <= String.length new ->
  Py.endswith path ".mp4" = true ->
  Py.endswith (Py.replace path ".mp4" new) new = true
  /\ String.length path - 4 + String.length new <= String.length (Py.replace path ".mp4" new).
Proof.
  intros Hnew H. apply endswith_inv in H as [t ->].
  destruct (replace_mp4_suffix new Hnew (String.length t) t
              (S (String.length (t +:+ ".mp4")))) as (u & Hu & Hl); [lia | lia|].
  unfold Py.replace. rewrite Hu. split; [apply endswith_app|].
  rewrite !length_append. simpl. lia.
Qed.

(** Under [process_video] the transcoder's temporary path differs from
    its input, which ends in [.mp4]. *)
Lemma h264_temp_path_fresh path :
  Py.endswith path ".mp4" = true -> h264_temp_path path <> path.
Proof.
  intros H E.
  destruct (replace_mp4_endswith path "_h264.mp4") as [_ Hl]; [simpl; lia | exact H|].
  fold (h264_temp_path path) in Hl. rewrite E in Hl.
  apply endswith_inv in H as [t ->]. rewrite length_append in Hl. simpl in Hl. lia.
Qed.

(** No path ends in both [.avi] and [.mp4]. *)
Lemma avi_is_not_mp4 p :
  Py.endswith p ".avi" = true -> Py.endswith p ".mp4" = false.
Proof.
  intros Ha. destruct (Py.endswith p ".mp4") eqn:Hm; [|reflexivity].
  exfalso. apply endswith_inv in Hm as [t Ht]. apply endswith_inv in Ha as [u Hu].
  rewrite Hu in Ht. clear Hu. revert t Ht.
  induction u as [|x u IH]; intros t Ht.
  - destruct t as [|t1 [|t2 [|t3 [|t4 [|t5 t]]]]]; discriminate.
  - destruct t as [|y t].
    + destruct u as [|a1 [|a2 [|a3 [|a4 [|a5 u]]]]]; discriminate.
    + injection Ht as _ Ht. exact (IH _ Ht).
Qed.

End Strings.

(** ** C5: the transcoding pass *)

Lemma delete_leave temp_path residue (d : Disk) :
  delete temp_path (leave temp_path residue d) = delete temp_path d.
Proof. destruct residue; simpl; [apply delete_insert_eq | reflexivity]. Qed.

Lemma remove_if_exists_delete path (d : Disk) :
  remove_if_exists path d = delete path d.
Proof.
  unfold remove_if_exists, exists_, remove. case_bool_decide as H; [reflexivity|].
  symmetry. apply delete_id. destruct (d !! path) eqn:E; [|reflexivity].
  exfalso. apply H. eauto.
Qed.

Lemma remove_if_exists_leave temp_path residue (d : Disk) :
  remove_if_exists temp_path (leave temp_path residue d) = delete temp_path d.
Proof. rewrite remove_if_exists_delete. apply delete_leave. Qed.

Lemma exists_lookup (d : Disk) path :
  exists_ d path = match d !! path with Some _ => true | None => false end.
Proof.
  unfold exists_. destruct (d !! path) eqn:E; case_bool_decide as H; try reflexivity.
  - exfalso. apply H. eauto.
  - destruct H as [x Hx]. discriminate.
Qed.

(** Every path through [_reencode_to_h264] ends in [return input_path]. *)
Lemma reencode_returns w d input_path fps width height :
  (_reencode_to_h264 w d input_path fps width height).1 = Returns input_path.
Proof.
  unfold _reencode_to_h264, reencode_try.
  destruct (ffmpeg_lookup w) as [|msg|exe]; try reflexivity.
  destruct (subprocess_run w _) as [residue|msg residue|rc stderr residue];
    try reflexivity.
  destruct (_ && _); reflexivity.
Qed.

(** C5: [_reencode_to_h264] always returns its input path and lets no
    exception escape.  On every failure (import error, lookup error,
    timeout, the process not starting, non-zero exit, empty or missing
    output) no temporary output of the pass is left: an import error
    touches nothing, as nothing ran, and every other failure deletes the
    file at the temporary path and changes nothing else, so the original
    stays in place.  On
    success the transcoded file is at the original path and the temporary
    path is gone, in one [os.replace].  The temporary path differs from
    the input path whenever the input ends in [.mp4], as it does at the
    only call. *)
Theorem reencode_failure_is_not_fatal (w : World) (d : Disk)
    (input_path : string) (fps width height : Z) :
  let temp_path := h264_temp_path input_path in
  let r := _reencode_to_h264 w d input_path fps width height in
  r.1 = Returns input_path
  /\ (transcoded w d input_path = None ->
        (if ffmpeg_lookup w is ImportFails then r.2 = d
         else r.2 = delete temp_path d)
        /\ (temp_path <> input_path -> r.2 !! input_path = d !! input_path))
  /\ (forall content, transcoded w d input_path = Some content ->
        r.2 = <[input_path := content]> (delete temp_path d))
  /\ (Py.endswith input_path ".mp4" = true -> temp_path <> input_path).
Proof.
  intros temp_path r. subst r.
  cut ((_reencode_to_h264 w d input_path fps width height).1 = Returns input_path
       /\ (transcoded w d input_path = None ->
             (if ffmpeg_lookup w is ImportFails
              then (_reencode_to_h264 w d input_path fps width height).2 = d
              else (_reencode_to_h264 w d input_path fps width height).2
                   = delete temp_path d)
             /\ (temp_path <> input_path ->
                   (_reencode_to_h264 w d input_path fps width height).2 !! input_path
                   = d !! input_path))
       /\ (forall content, transcoded w d input_path = Some content ->
             (_reencode_to_h264 w d input_path fps width height).2
             = <[input_path := content]> (delete temp_path d))).
  { intros (H1 & H2 & H3). split; [exact H1|]. split; [exact H2|].
    split; [exact H3|]. apply h264_temp_path_fresh. }
  unfold _reencode_to_h264, reencode_try, transcoded.
  fold temp_path.
  destruct (ffmpeg_lookup w) as [|msg|exe]; simpl.
  - split; [reflexivity|]. split; [|discriminate]. intros _. split; reflexivity.
  - rewrite remove_if_exists_delete.
    split; [reflexivity|]. split; [|discriminate]. intros _. split; [reflexivity|].
    intros Hne. apply lookup_delete_ne. exact Hne.
  - destruct (subprocess_run w (ffmpeg_cmd exe input_path temp_path))
      as [residue|msg residue|rc stderr residue]; simpl.
    + rewrite remove_if_exists_leave.
      split; [reflexivity|]. split; [|discriminate]. intros _. split; [reflexivity|].
      intros Hne. apply lookup_delete_ne. exact Hne.
    + rewrite remove_if_exists_leave.
      split; [reflexivity|]. split; [|discriminate]. intros _. split; [reflexivity|].
      intros Hne. apply lookup_delete_ne. exact Hne.
    + rewrite exists_lookup. unfold getsize, os_replace.
      destruct (leave temp_path residue d !! temp_path) as [content|] eqn:E.
      * destruct content as [|c rest].
        -- (* empty output *)
           replace ((rc =? 0) && true && (0 <? Z.of_nat (String.length ""))) with false
             by (destruct (rc =? 0); reflexivity).
           simpl. rewrite remove_if_exists_leave.
           split; [reflexivity|]. split.
           ++ intros _. split; [reflexivity|]. intros Hne. apply lookup_delete_ne. exact Hne.
           ++ intros content. destruct rc; discriminate.
        -- destruct (Z.eqb_spec rc 0) as [->|Hrc]; simpl.
           ++ rewrite delete_leave.
              split; [reflexivity|]. split; [discriminate|].
              intros content [= <-]. reflexivity.
           ++ rewrite remove_if_exists_leave.
              split; [reflexivity|]. split.
              ** intros _. split; [reflexivity|]. intros Hne. apply lookup_delete_ne. exact Hne.
              ** intros content. destruct rc; try discriminate. congruence.
      * rewrite andb_false_r. simpl. rewrite remove_if_exists_leave.
        split; [reflexivity|]. split.
        -- intros _. split; [reflexivity|]. intros Hne. apply lookup_delete_ne. exact Hne.
        -- intros content. destruct rc; discriminate.
Qed.

(** A failed run that left a partial file next to a stale one: both are
    gone and the original is untouched. *)
Lemma reencode_failure_witness :
  let r := _reencode_to_h264 ffmpeg_exits_1 (<["out_h264.mp4" := "stale"]> raw_disk) "out.mp4" 10 1920 1080 in
  r.2 = delete "out_h264.mp4" (<["out_h264.mp4" := "stale"]> raw_disk) /\ r.2 !! "out.mp4" = Some "raw".
Proof.
  pose proof (reencode_failure_is_not_fatal ffmpeg_exits_1 (<["out_h264.mp4" := "stale"]> raw_disk) "out.mp4" 10 1920 1080) as H.
  destruct H as (_ & Hfail & _ & Hfresh).
  destruct (Hfail eq_refl) as [Hd Ho].
  split; [exact Hd|]. rewrite Ho; [reflexivity|]. apply Hfresh. reflexivity.
Defined.

(** ** C4: codec negotiation *)

Section Negotiation.

Variable w : World.
Variable output_path : string.
Variables fps width height : Z.

Let opens' := opens w output_path fps width height.
Let attempt' := attempt output_path.

Lemma negotiate_skips_failed candidate rest :
  ~ opens' candidate ->
  negotiate w (candidate :: rest) output_path fps width height
  = let '(chosen, tried) := negotiate w rest output_path fps width height in
    (chosen, attempt' candidate :: tried).
Proof.
  destruct candidate as [codec_name fourcc]. unfold opens', opens. simpl.
  intros Hfail.
  destruct (VideoWriter w (candidate_path codec_name output_path) fourcc fps
              (width, height)) as [|[|]]; try reflexivity.
  exfalso. apply Hfail. reflexivity.
Qed.

Lemma negotiate_stops_at_open candidate rest :
  opens' candidate ->
  negotiate w (candidate :: rest) output_path fps width height
  = (Some (attempt' candidate), [attempt' candidate]).
Proof.
  destruct candidate as [codec_name fourcc]. unfold opens', opens. simpl.
  intros ->. reflexivity.
Qed.

Lemma negotiate_first_usable failed chosen later :
  Forall (fun c => ~ opens' c) failed ->
  opens' chosen ->
  negotiate w (failed ++ chosen :: later) output_path fps width height
  = (Some (attempt' chosen), map attempt' (failed ++ [chosen])).
Proof.
  intros Hfailed Hopen.
  induction Hfailed as [|c failed Hc _ IH].
  - apply negotiate_stops_at_open, Hopen.
  - change ((c :: failed) ++ chosen :: later) with (c :: (failed ++ chosen :: later)).
    rewrite (negotiate_skips_failed _ _ Hc), IH. reflexivity.
Qed.

Lemma negotiate_none_usable options :
  Forall (fun c => ~ opens' c) options ->
  negotiate w options output_path fps width height = (None, map attempt' options).
Proof.
  induction 1 as [|c options Hc _ IH]; [reflexivity|].
  rewrite (negotiate_skips_failed _ _ Hc), IH. reflexivity.
Qed.

End Negotiation.

Lemma candidate_path_other codec_name output_path :
  codec_name <> "MJPG" -> candidate_path codec_name output_path = output_path.
Proof.
  intros H. unfold candidate_path.
  destruct (String.eqb_spec codec_name "MJPG"); [contradiction | reflexivity].
Qed.

Lemma candidate_path_mjpg output_path :
  Py.endswith output_path ".mp4" = true ->
  candidate_path "MJPG" output_path = Py.replace output_path ".mp4" ".avi"
  /\ Py.endswith (candidate_path "MJPG" output_path) ".avi" = true.
Proof.
  intros H. unfold candidate_path.
  destruct (Py.endswith output_path ".avi") eqn:E.
  - apply avi_is_not_mp4 in E. congruence.
  - simpl. split; [reflexivity|].
    apply (replace_mp4_endswith output_path ".avi"); [simpl; lia | exact H].
Qed.

Lemma truthy_Some p : p <> "" -> truthy (Some p) = true.
Proof. intros H. simpl. destruct (String.eqb_spec p ""); [contradiction|reflexivity]. Qed.

(** The transcoding pass never changes the path and never raises. *)
Lemma finish_returns w p fps width height :
  finish w p fps width height
  = (Returns p, (finish w p fps width height).1.2, (finish w p fps width height).2).
Proof.
  unfold finish. destruct (exists_ _ _); [|reflexivity].
  destruct (Py.endswith p ".mp4"); [|reflexivity].
  pose proof (reencode_returns w (disk_after_release w) p fps width height) as H.
  destruct (_reencode_to_h264 _ _ _ _ _ _) as [r d']. simpl in *.
  rewrite H. reflexivity.
Qed.

Lemma after_loop_with_writer w cap fps width height p tried st :
  after_loop w cap fps width height true (Some p) tried st
  = (JobOk (summarize cap st (Some p) (finish w p fps width height).2),
     mkTrace (written st) true true true tried
             (finish w p fps width height).1.2 (finish w p fps width height).2).
Proof. unfold after_loop. rewrite finish_returns. reflexivity. Qed.

Lemma after_loop_without_writer w cap fps width height path tried st :
  after_loop w cap fps width height false path tried st
  = (JobOk (summarize cap st path (disk_after_release w)),
     mkTrace (written st) true false false tried [] (disk_after_release w)).
Proof. reflexivity. Qed.

Lemma open_writer_negotiated w fps width height p used_codec temp_path tried :
  p <> "" ->
  negotiate w fourcc_options p fps width height
    = (Some (used_codec, temp_path), tried) ->
  open_writer w fps width height (Some p) = (Returns (true, Some temp_path), tried).
Proof.
  intros Hp Hneg. unfold open_writer. rewrite (truthy_Some _ Hp), Hneg. reflexivity.
Qed.

Lemma process_video_opened w video_path output_path frame_interval conf_threshold
    out path tried :
  let cap := VideoCapture w video_path in
  let fps := Py.int (CAP_PROP_FPS cap) in
  let width := Py.int (CAP_PROP_FRAME_WIDTH cap) in
  let height := Py.int (CAP_PROP_FRAME_HEIGHT cap) in
  cap_isOpened cap = true ->
  open_writer w fps width height output_path = (Returns (out, path), tried) ->
  process_video w video_path output_path frame_interval conf_threshold
  = frame_pass w cap fps width height frame_interval conf_threshold
               out path tried.
Proof.
  intros cap fps width height Hcap Hopen.
  unfold process_video. fold cap. rewrite Hcap. simpl negb. cbv iota.
  fold fps width height. rewrite Hopen. reflexivity.
Qed.

(** C4: on any ordered candidate list whose first K entries fail to open
    and whose entry K+1 opens, the negotiator selects entry K+1 (its name
    and the path it was opened at) and attempts exactly the first K+1
    entries; a candidate other than MJPG is opened at the output path
    itself, and MJPG rewrites a path ending in [.mp4] to one ending in
    [.avi]; inside [process_video] the selected path becomes the output
    path, and when all five candidates fail the job ends in the
    no-usable-codec error with no frame written. *)
Theorem codec_negotiation (w : World) (video_path output_path : string)
    (frame_interval : Z) (conf_threshold : Q) :
  let cap := VideoCapture w video_path in
  let fps := Py.int (CAP_PROP_FPS cap) in
  let width := Py.int (CAP_PROP_FRAME_WIDTH cap) in
  let height := Py.int (CAP_PROP_FRAME_HEIGHT cap) in
  let job := process_video w video_path (Some output_path) frame_interval
               conf_threshold in
  (* the negotiator, on any candidate list *)
  (forall options_fps options_width options_height failed chosen later,
     Forall (fun c => ~ opens w output_path options_fps options_width options_height c) failed ->
     opens w output_path options_fps options_width options_height chosen ->
     negotiate w (failed ++ chosen :: later) output_path
               options_fps options_width options_height
     = (Some (attempt output_path chosen),
        map (attempt output_path) (failed ++ [chosen])))
  (* the path a candidate is opened at *)
  /\ (forall codec_name, codec_name <> "MJPG" ->
        candidate_path codec_name output_path = output_path)
  /\ (Py.endswith output_path ".mp4" = true ->
        candidate_path "MJPG" output_path = Py.replace output_path ".mp4" ".avi"
        /\ Py.endswith (candidate_path "MJPG" output_path) ".avi" = true)
  (* inside the job *)
  /\ (cap_isOpened cap = true -> output_path <> "" ->
      forall failed chosen later,
        fourcc_options = failed ++ chosen :: later ->
        Forall (fun c => ~ opens w output_path fps width height c) failed ->
        opens w output_path fps width height chosen ->
        out_opened job.2 = true
        /\ codecs_tried job.2 = map (attempt output_path) (failed ++ [chosen])
        /\ (forall r, job.1 = JobOk r ->
              output_video r = Some (candidate_path chosen.1 output_path)))
  /\ (cap_isOpened cap = true -> output_path <> "" ->
      Forall (fun c => ~ opens w output_path fps width height c) fourcc_options ->
      job = (JobError no_usable_codec,
             mkTrace [] false false false
                     (map (attempt output_path) fourcc_options) []
                     (disk_after_release w))).
Proof.
  intros cap fps width height job.
  split; [intros; by apply negotiate_first_usable|].
  split; [intros; by apply candidate_path_other|].
  split; [apply candidate_path_mjpg|].
  split.
  - intros Hcap Hp failed chosen later Hopts Hfailed Hopen.
    pose proof (negotiate_first_usable _ _ _ _ _ _ _ later Hfailed Hopen) as Hneg.
    rewrite <- Hopts in Hneg. subst job.
    rewrite (process_video_opened _ _ _ _ _ _ _ _ Hcap
               (open_writer_negotiated _ _ _ _ _ _ _ _ Hp Hneg)).
    unfold frame_pass. fold cap fps width height.
    destruct (run_loop w true fps frame_interval conf_threshold loop_start (cap_frames cap))
      as [st [e|]].
    + simpl. split; [reflexivity|]. split; [reflexivity|]. intros r [=].
    + rewrite after_loop_with_writer. simpl.
      split; [reflexivity|]. split; [reflexivity|]. intros r [= <-]. reflexivity.
  - intros Hcap Hp Hall.
    subst job. unfold process_video, open_writer. fold cap. rewrite Hcap.
    simpl negb. cbv iota.
    rewrite (truthy_Some _ Hp). fold fps width height.
    rewrite (negotiate_none_usable _ _ _ _ _ _ Hall). reflexivity.
Qed.

(** mp4v and XVID fail, MJPG opens at [out.avi]; avc1 and H264 are not tried. *)
Lemma codec_negotiation_witness :
  negotiate only_mjpg fourcc_options "out.mp4" 10 1920 1080
  = (Some ("MJPG", "out.avi"),
     [("mp4v", "out.mp4"); ("XVID", "out.mp4"); ("MJPG", "out.avi")]).
Proof.
  refine (proj1 (codec_negotiation only_mjpg "in.mp4" "out.mp4" 5 (1 # 4))
            10 1920 1080
            [("mp4v", VideoWriter_fourcc "m" "p" "4" "v");
             ("XVID", VideoWriter_fourcc "X" "V" "I" "D")]
            ("MJPG", VideoWriter_fourcc "M" "J" "P" "G")
            [("avc1", VideoWriter_fourcc "a" "v" "c" "1");
             ("H264", VideoWriter_fourcc "H" "2" "6" "4")] _ _).
  - repeat constructor; vm_compute; discriminate.
  - reflexivity.
Defined.

(** ** The frame loop: arithmetic of anchors *)

Lemma div_succ d k :
  1 <= d -> 0 <= k ->
  (k + 1) / d = k / d + (if (k + 1) mod d =? 0 then 1 else 0).
Proof.
  intros Hd Hk.
  pose proof (Z.div_mod k d ltac:(lia)) as E1.
  pose proof (Z.div_mod (k + 1) d ltac:(lia)) as E2.
  pose proof (Z.mod_pos_bound k d ltac:(lia)) as B1.
  pose proof (Z.mod_pos_bound (k + 1) d ltac:(lia)) as B2.
  destruct (Z.eqb_spec ((k + 1) mod d) 0) as [E|NE]; nia.
Qed.

Lemma last_anchor_anchor d n : 1 <= d -> n mod d = 0 -> last_anchor d n = n.
Proof.
  intros Hd Hm. unfold last_anchor.
  pose proof (Z.div_mod n d ltac:(lia)). lia.
Qed.

Lemma last_anchor_succ d k :
  1 <= d -> 0 <= k -> (k + 1) mod d <> 0 -> last_anchor d (k + 1) = last_anchor d k.
Proof.
  intros Hd Hk Hm. unfold last_anchor. rewrite div_succ by lia.
  destruct (Z.eqb_spec ((k + 1) mod d) 0); [contradiction | f_equal; lia].
Qed.

Lemma last_anchor_bounds d n :
  1 <= d -> 0 <= n -> 0 <= last_anchor d n <= n.
Proof.
  intros Hd Hn. unfold last_anchor.
  pose proof (Z.div_mod n d ltac:(lia)).
  pose proof (Z.mod_pos_bound n d ltac:(lia)).
  pose proof (Z.div_pos n d ltac:(lia) ltac:(lia)). nia.
Qed.

(** [last_anchor] is the greatest anchor index at or before [n]. *)
Lemma last_anchor_greatest d n a :
  1 <= d -> 0 <= n -> a mod d = 0 -> a <= n ->
  last_anchor d n mod d = 0 /\ a <= last_anchor d n.
Proof.
  intros Hd Hn Ha Hle. unfold last_anchor. split.
  - rewrite Z.mul_comm. apply Z.mod_mul. lia.
  - pose proof (Z.div_mod a d ltac:(lia)) as Ea. rewrite Ha in Ea.
    assert (a / d <= n / d) by (apply Z.div_le_mono; lia). nia.
Qed.

(** ** The frame loop: the state after a stream *)

Section Loop.

Variable w : World.
Variable out : bool.
Variables fps frame_interval : Z.
Variable conf_threshold : Q.

Hypothesis interval_pos : 1 <= frame_interval.

Local Abbreviation run := (run_loop w out fps frame_interval conf_threshold).
Local Abbreviation body := (loop_body w out fps frame_interval conf_threshold).
Local Abbreviation final := (final_state (model w) fps frame_interval conf_threshold out).
Local Abbreviation results := (anchor_results (model w) fps frame_interval conf_threshold).
Local Abbreviation expected := (expected_frame (model w) frame_interval conf_threshold).
Local Abbreviation dets_at := (detections_at (model w) conf_threshold).

Lemma run_loop_app st l1 l2 :
  run st (l1 ++ l2)
  = match run st l1 with
    | (st', None) => run st' l2
    | (st', Some e) => (st', Some e)
    end.
Proof.
  revert st. induction l1 as [|f l1 IH]; intros st; simpl; [reflexivity|].
  destruct (body st f) as [st' [e|]]; [reflexivity | apply IH].
Qed.

Lemma anchor_results_snoc l f :
  results (l ++ [f])
  = results l ++ (if is_anchor frame_interval (index_of (length l))
                  then [anchor_result (model w) fps conf_threshold (index_of (length l)) f]
                  else []).
Proof.
  unfold anchor_results. rewrite imap_app, concat_app. simpl.
  rewrite Nat.add_0_r, app_nil_r. reflexivity.
Qed.

Lemma sum_persons_app l1 l2 :
  sum_persons (l1 ++ l2) = sum_persons l1 + sum_persons l2.
Proof.
  unfold sum_persons. induction l1 as [|r l1 IH]; simpl; [reflexivity|].
  rewrite IH. lia.
Qed.

Lemma detections_at_app l rest a :
  a <= Z.of_nat (length l) -> dets_at (l ++ rest) a = dets_at l a.
Proof.
  intros Ha. unfold detections_at.
  destruct (Z.leb_spec a 0); [reflexivity|].
  rewrite lookup_app_l by lia. reflexivity.
Qed.

Lemma expected_frame_app l rest i g :
  (i < length l)%nat -> expected (l ++ rest) i g = expected l i g.
Proof.
  intros Hi. unfold expected_frame.
  destruct (is_anchor frame_interval (index_of i)); [reflexivity|].
  rewrite detections_at_app; [reflexivity|].
  pose proof (last_anchor_bounds frame_interval (index_of i) interval_pos).
  unfold index_of in *. lia.
Qed.

Lemma imap_expected_app l rest :
  imap (expected (l ++ rest)) l = imap (expected l) l.
Proof.
  apply imap_ext. intros i g Hg. apply expected_frame_app.
  apply lookup_lt_Some in Hg. exact Hg.
Qed.

Lemma imap_expected_snoc l f :
  imap (expected (l ++ [f])) (l ++ [f])
  = imap (expected l) l ++ [expected (l ++ [f]) (length l) f].
Proof.
  rewrite imap_app, imap_expected_app. simpl. rewrite Nat.add_0_r. reflexivity.
Qed.

Lemma last_seen_default l :
  default [] (last_seen (model w) frame_interval conf_threshold l)
  = dets_at l (last_anchor frame_interval (Z.of_nat (length l))).
Proof.
  unfold last_seen. destruct (Z.leb_spec (last_anchor frame_interval (Z.of_nat (length l))) 0) as [H|H].
  - unfold detections_at. apply Z.leb_le in H. rewrite H. reflexivity.
  - reflexivity.
Qed.

(** One clean turn of the loop: the write, if any, does not raise, and at
    an anchor the frame rate is not 0. *)
Lemma loop_body_clean l f :
  (out = true -> write_raises w (length l) = false) ->
  (is_anchor frame_interval (index_of (length l)) = true -> fps <> 0) ->
  body (final l) f = (final (l ++ [f]), None).
Proof.
  intros Hw Hfps. unfold loop_body.
  destruct (Z.eqb_spec frame_interval 0) as [E|_]; [lia|].
  cbn [frame_count frame_detections total_persons last_detections written final_state].
  assert (Z.of_nat (length l) + 1 = index_of (length l)) as Hidx
    by (unfold index_of; lia).
  rewrite Hidx.
  assert (Z.of_nat (length (l ++ [f])) = index_of (length l)) as Hlen
    by (rewrite length_app; simpl; unfold index_of; lia).
  assert ((l ++ [f]) !! length l = Some f) as Hlook
    by (rewrite lookup_app_r, Nat.sub_diag by lia; reflexivity).
  destruct (Z.eqb_spec (index_of (length l) mod frame_interval) 0) as [Ha|Ha].
  - (* anchor frame *)
    destruct (Z.eqb_spec fps 0) as [E|_];
      [exfalso; apply Hfps; [unfold is_anchor; rewrite Ha; reflexivity | exact E]|].
    assert (final (l ++ [f])
            = mkLoopState (index_of (length l))
                (results l ++ [anchor_result (model w) fps conf_threshold (index_of (length l)) f])
                (sum_persons (results l)
                 + person_count (process_video_frame (model w) f conf_threshold))
                (Some (detections (process_video_frame (model w) f conf_threshold)))
                (if out then imap (expected l) l
                               ++ [default f (annotated_frame (process_video_frame (model w) f conf_threshold))]
                 else [])) as Hfinal.
    { unfold final_state. rewrite Hlen, anchor_results_snoc.
      unfold is_anchor. rewrite Ha. simpl (0 =? 0).  cbv iota.
      f_equal.
      - rewrite sum_persons_app. simpl. lia.
      - unfold last_seen. rewrite Hlen, (last_anchor_anchor _ _ interval_pos Ha).
        destruct (Z.leb_spec (index_of (length l)) 0) as [H|_];
          [unfold index_of in H; lia|].
        f_equal. unfold detections_at.
        destruct (Z.leb_spec (index_of (length l)) 0) as [H|_];
          [unfold index_of in H; lia|].
        replace (Z.to_nat (index_of (length l) - 1)) with (length l)
          by (unfold index_of; lia).
        rewrite Hlook. reflexivity.
      - destruct out; [|reflexivity].
        rewrite imap_expected_snoc. f_equal. f_equal.
        unfold expected_frame, is_anchor. rewrite Ha. reflexivity. }
    rewrite Hfinal. destruct out eqn:Eout; [|reflexivity].
    unfold write. cbn [written frame_count frame_detections total_persons last_detections].
    rewrite length_imap, (Hw eq_refl). reflexivity.
  - (* propagated frame *)
    assert (final (l ++ [f])
            = mkLoopState (index_of (length l)) (results l)
                (sum_persons (results l))
                (last_seen (model w) frame_interval conf_threshold l)
                (if out then imap (expected l) l
                   ++ [draw_last (default [] (last_seen (model w) frame_interval conf_threshold l)) f]
                 else [])) as Hfinal.
    { unfold final_state. rewrite Hlen, anchor_results_snoc.
      unfold is_anchor. apply Z.eqb_neq in Ha. rewrite Ha. rewrite app_nil_r.
      apply Z.eqb_neq in Ha.
      assert (last_anchor frame_interval (index_of (length l))
              = last_anchor frame_interval (Z.of_nat (length l))) as Hla.
      { rewrite <- Hidx. apply last_anchor_succ; [lia | lia|]. rewrite Hidx. exact Ha. }
      f_equal.
      - unfold last_seen. rewrite Hlen, Hla.
        destruct (Z.leb_spec (last_anchor frame_interval (Z.of_nat (length l))) 0);
          [reflexivity|].
        f_equal. apply detections_at_app.
        apply (last_anchor_bounds _ _ interval_pos). lia.
      - destruct out; [|reflexivity].
        rewrite imap_expected_snoc. f_equal. f_equal.
        unfold expected_frame, is_anchor. apply Z.eqb_neq in Ha. rewrite Ha.
        rewrite Hla, last_seen_default. f_equal.
        apply detections_at_app. apply (last_anchor_bounds _ _ interval_pos). lia. }
    rewrite Hfinal. destruct out eqn:Eout.
    + destruct (last_seen (model w) frame_interval conf_threshold l) as [[|d ds]|];
        unfold write;
        cbn [written frame_count frame_detections total_persons last_detections default];
        rewrite length_imap, (Hw eq_refl); reflexivity.
    + destruct (last_seen (model w) frame_interval conf_threshold l) as [[|d ds]|];
        reflexivity.
Qed.


Lemma final_state_nil : final [] = loop_start.
Proof.
  unfold final_state, loop_start, last_seen, last_anchor. simpl.
  rewrite Z.mul_0_r. simpl. destruct out; reflexivity.
Qed.

Lemma anchor_needs_interval n :
  0 < n -> is_anchor frame_interval n = true -> frame_interval <= n.
Proof.
  unfold is_anchor. intros Hn Ha. apply Z.eqb_eq in Ha.
  destruct (Z.le_gt_cases frame_interval n) as [H|H]; [exact H|].
  rewrite Z.mod_small in Ha by lia. lia.
Qed.

(** A turn of the loop either is clean or raises and writes nothing. *)
Lemma loop_body_cases l f :
  body (final l) f = (final (l ++ [f]), None)
  \/ exists st' e, body (final l) f = (st', Some e)
                   /\ written st' = written (final l).
Proof.
  destruct (is_anchor frame_interval (index_of (length l)) && (fps =? 0)) eqn:Hz.
  { (* the timestamp division raises *)
    right. apply andb_true_iff in Hz as [Ha Hf].
    unfold is_anchor in Ha. unfold loop_body.
    destruct (Z.eqb_spec frame_interval 0) as [E|_]; [lia|].
    cbn [frame_count frame_detections total_persons last_detections written final_state].
    replace (Z.of_nat (length l) + 1) with (index_of (length l))
      by (unfold index_of; lia).
    rewrite Ha, Hf. eexists _, _. split; reflexivity. }
  assert (is_anchor frame_interval (index_of (length l)) = true -> fps <> 0) as Hfps.
  { intros Ha. rewrite Ha in Hz. simpl in Hz. apply Z.eqb_neq. exact Hz. }
  destruct (out && write_raises w (length l)) eqn:Hw.
  - (* the write raises *)
    right. apply andb_true_iff in Hw as [Ho Hr].
    unfold loop_body.
    destruct (Z.eqb_spec frame_interval 0) as [E|_]; [lia|].
    cbn [frame_count frame_detections total_persons last_detections written final_state].
    rewrite Ho.
    destruct (_ mod frame_interval =? 0).
    + destruct (fps =? 0); [eexists _, _; split; reflexivity|].
      unfold write. cbn [written]. rewrite length_imap, Hr.
      eexists _, _. split; reflexivity.
    + destruct (last_seen _ _ _ l) as [[|d ds]|];
        unfold write; cbn [written]; rewrite length_imap, Hr;
        eexists _, _; split; reflexivity.
  - left. apply loop_body_clean; [|exact Hfps].
    intros Ho. rewrite Ho in Hw. exact Hw.
Qed.

(** The turn whose write raises: the exception, nothing written, and at
    an anchor the new FrameResult is already in [frame_detections]. *)
Lemma loop_body_write_fails l f :
  out = true -> write_raises w (length l) = true ->
  (is_anchor frame_interval (index_of (length l)) = true -> fps <> 0) ->
  exists st', body (final l) f = (st', Some (OtherException "write"))
              /\ written st' = written (final l)
              /\ frame_detections st' = results (l ++ [f])
              /\ frame_count st' = index_of (length l).
Proof.
  intros Ho Hr Hfps. unfold loop_body.
  destruct (Z.eqb_spec frame_interval 0) as [E|_]; [lia|].
  cbn [frame_count frame_detections total_persons last_detections written final_state].
  replace (Z.of_nat (length l) + 1) with (index_of (length l))
    by (unfold index_of; lia).
  rewrite Ho, anchor_results_snoc. unfold is_anchor in *.
  destruct (index_of (length l) mod frame_interval =? 0).
  - destruct (Z.eqb_spec fps 0) as [E|_]; [exfalso; by apply Hfps|].
    unfold write. cbn [written frame_detections frame_count]. rewrite length_imap, Hr.
    eexists. repeat split; reflexivity.
  - rewrite app_nil_r.
    destruct (last_seen _ _ _ l) as [[|d ds]|];
      unfold write; cbn [written]; rewrite length_imap, Hr;
      eexists; repeat split; reflexivity.
Qed.

(** A stream processed without an exception ends in [final_state]. *)
Lemma run_loop_clean frames :
  (out = true -> quiet w (length frames)) ->
  (frame_interval <= Z.of_nat (length frames) -> fps <> 0) ->
  run loop_start frames = (final frames, None).
Proof.
  induction frames as [|f l IH] using rev_ind; intros Hq Hfps.
  - simpl. rewrite final_state_nil. reflexivity.
  - rewrite length_app in Hq, Hfps. simpl in Hq, Hfps.
    rewrite run_loop_app, IH.
    + simpl. rewrite loop_body_clean; [reflexivity| |].
      * intros Ho. apply (Hq Ho). lia.
      * intros Ha. apply Hfps.
        apply anchor_needs_interval in Ha; unfold index_of in *; lia.
    + intros Ho k Hk. apply (Hq Ho). lia.
    + intros Hi. apply Hfps. lia.
Qed.

(** A loop that ends without an exception ends in [final_state]. *)
Lemma run_loop_none l st : run loop_start l = (st, None) -> st = final l.
Proof.
  revert st. induction l as [|g l IH] using rev_ind; intros st Hrun.
  - simpl in Hrun. injection Hrun as <-. symmetry. apply final_state_nil.
  - rewrite run_loop_app in Hrun.
    destruct (run loop_start l) as [st0 [e|]] eqn:Hl; [discriminate|].
    rewrite (IH st0 eq_refl) in Hrun. simpl in Hrun.
    destruct (loop_body_cases l g) as [Hc|(st' & e & Hc & _)];
      rewrite Hc in Hrun; [|discriminate].
    injection Hrun as <-. reflexivity.
Qed.

(** Whatever happens, what was written is a prefix of the expected frames. *)
Lemma run_loop_written frames :
  exists k, (k <= length frames)%nat
    /\ written (run loop_start frames).1
       = (if out then imap (expected frames) (take k frames) else [])
    /\ ((run loop_start frames).2 = None -> k = length frames).
Proof.
  induction frames as [|f l IH] using rev_ind.
  - exists 0%nat. simpl. destruct out; auto.
  - destruct IH as (k & Hk & Hwr & Hnone).
    rewrite run_loop_app.
    destruct (run loop_start l) as [st [e|]] eqn:Hrun; simpl in Hwr, Hnone.
    + exists k. rewrite length_app. simpl. split; [lia|]. split; [|discriminate].
      rewrite Hwr. destruct out; [|reflexivity].
      rewrite take_app_le by lia.
      apply imap_ext. intros i g Hg. symmetry. apply expected_frame_app.
      apply lookup_lt_Some in Hg. rewrite length_take in Hg. lia.
    + specialize (Hnone eq_refl). subst k.
      apply run_loop_none in Hrun as ->.
      rewrite take_ge in Hwr by lia.
      simpl.
      destruct (loop_body_cases l f) as [Hc|(st' & e & Hc & Hsame)]; rewrite Hc.
      * exists (length (l ++ [f])). split; [lia|]. split; [|reflexivity].
        simpl. rewrite take_ge by lia. reflexivity.
      * exists (length l). rewrite length_app. simpl. split; [lia|].
        split; [|discriminate]. rewrite Hsame. simpl.
        destruct out; [|reflexivity].
        rewrite take_app_le, take_ge by lia. symmetry. apply imap_expected_app.
Qed.


(** The first write that raises ends the loop there. *)
Lemma run_loop_write_fails pre f post :
  out = true -> quiet w (length pre) -> write_raises w (length pre) = true ->
  (frame_interval <= index_of (length pre) -> fps <> 0) ->
  exists st', run loop_start (pre ++ f :: post) = (st', Some (OtherException "write"))
              /\ written st' = imap (expected pre) pre
              /\ frame_detections st' = results (pre ++ [f])
              /\ frame_count st' = index_of (length pre).
Proof.
  intros Ho Hq Hr Hfps.
  rewrite run_loop_app, run_loop_clean.
  - destruct (loop_body_write_fails pre f Ho Hr) as (st' & Hb & Hw & Hd & Hc).
    + intros Ha. apply Hfps. apply anchor_needs_interval in Ha; [exact Ha|].
      unfold index_of. lia.
    + exists st'. simpl. rewrite Hb. split; [reflexivity|].
      rewrite Hw. simpl. rewrite Ho. auto.
  - intros _. exact Hq.
  - intros Hi. apply Hfps. unfold index_of. lia.
Qed.

(** There are [floor(N / frame_interval)] FrameResults for [N] frames. *)
Lemma length_anchor_results frames :
  Z.of_nat (length (results frames)) = Z.of_nat (length frames) / frame_interval.
Proof.
  induction frames as [|f l IH] using rev_ind.
  - simpl. rewrite Z.div_0_l by lia. reflexivity.
  - rewrite anchor_results_snoc, !length_app. simpl (length [f]).
    rewrite !Nat2Z.inj_add, IH. change (Z.of_nat 1) with 1.
    rewrite (div_succ frame_interval (Z.of_nat (length l))) by lia.
    unfold is_anchor, index_of. rewrite Nat2Z.inj_succ. unfold Z.succ.
    destruct (_ =? 0); simpl; lia.
Qed.

(** Their frame numbers are the multiples of the interval, in order. *)
Lemma frame_numbers_anchor_results frames :
  map frame_number (results frames)
  = map (fun j => Z.of_nat j * frame_interval)
        (seq 1 (Z.to_nat (Z.of_nat (length frames) / frame_interval))).
Proof.
  induction frames as [|f l IH] using rev_ind.
  - change (Z.of_nat (length (@nil Frame))) with 0.
    rewrite Z.div_0_l by lia. reflexivity.
  - rewrite anchor_results_snoc, map_app, IH, length_app. simpl (length [f]).
    rewrite Nat2Z.inj_add. change (Z.of_nat 1) with 1.
    rewrite (div_succ frame_interval (Z.of_nat (length l))) by lia.
    unfold is_anchor, index_of. rewrite Nat2Z.inj_succ. unfold Z.succ.
    pose proof (Z.div_pos (Z.of_nat (length l)) frame_interval ltac:(lia) ltac:(lia)) as Hpos.
    destruct (Z.eqb_spec ((Z.of_nat (length l) + 1) mod frame_interval) 0) as [Ha|Ha].
    + rewrite Z2Nat.inj_add by lia. change (Z.to_nat 1) with 1%nat.
      rewrite seq_app, map_app. simpl. f_equal. f_equal.
      pose proof (Z.div_mod (Z.of_nat (length l) + 1) frame_interval ltac:(lia)) as E.
      rewrite Ha in E.
      rewrite (div_succ frame_interval (Z.of_nat (length l))) in E by lia.
      apply Z.eqb_eq in Ha. rewrite Ha in E. lia.
    + rewrite Z.add_0_r. simpl. rewrite app_nil_r. reflexivity.
Qed.

End Loop.

(** ** The job as a whole *)

Lemma open_writer_path w fps width height output_path (out : bool) path tried :
  open_writer w fps width height output_path = (Returns (out, path), tried) ->
  if out then exists p, path = Some p else path = output_path /\ tried = [].
Proof.
  unfold open_writer. intros H.
  destruct output_path as [p|].
  - destruct (truthy (Some p)).
    + destruct (negotiate w fourcc_options p fps width height) as [[[codec temp]|] tr].
      * injection H as <- <- <-. eauto.
      * discriminate.
    + injection H as <- <- <-. auto.
  - injection H as <- <- <-. auto.
Qed.

(** After a loop without exception the job returns its summary and
    releases what it opened. *)
Lemma after_loop_ok w cap fps width height (out : bool) path tried st :
  (if out then exists p, path = Some p else True) ->
  exists calls d,
    after_loop w cap fps width height out path tried st
    = (JobOk (summarize cap st path d),
       mkTrace (written st) true out out tried calls d).
Proof.
  destruct out.
  - intros [p ->]. rewrite after_loop_with_writer. eauto.
  - intros _. rewrite after_loop_without_writer. eauto.
Qed.

Section Job.

Variable w : World.
Variable video_path : string.
Variable output_path : option string.
Variable frame_interval : Z.
Variable conf_threshold : Q.

Local Abbreviation cap := (VideoCapture w video_path).
Local Abbreviation fps := (Py.int (CAP_PROP_FPS cap)).
Local Abbreviation width := (Py.int (CAP_PROP_FRAME_WIDTH cap)).
Local Abbreviation height := (Py.int (CAP_PROP_FRAME_HEIGHT cap)).
Local Abbreviation frames := (cap_frames cap).
Local Abbreviation job :=
  (process_video w video_path output_path frame_interval conf_threshold).
Local Abbreviation final out :=
  (final_state (model w) fps frame_interval conf_threshold out frames).

Hypothesis interval_pos : 1 <= frame_interval.

(** A job that returns a summary went through a loop without exception. *)
Lemma job_ok_inv r :
  job.1 = JobOk r ->
  exists out path tried calls d,
    open_writer w fps width height output_path = (Returns (out, path), tried)
    /\ run_loop w out fps frame_interval conf_threshold loop_start frames
       = (final_state (model w) fps frame_interval conf_threshold out frames, None)
    /\ job = (JobOk (summarize cap
                       (final_state (model w) fps frame_interval conf_threshold out frames)
                       path d),
              mkTrace (written (final_state (model w) fps frame_interval conf_threshold out frames))
                      true out out tried calls d).
Proof.
  unfold process_video.
  destruct (cap_isOpened cap); simpl negb; cbv iota; [|discriminate].
  destruct (open_writer w fps width height output_path) as [[[out path]|e] tried] eqn:Hopen;
    [|discriminate].
  unfold frame_pass.
  destruct (run_loop w out fps frame_interval conf_threshold loop_start frames)
    as [st [e|]] eqn:Hrun; [discriminate|].
  apply (run_loop_none _ _ _ _ _ interval_pos) in Hrun as Hst. subst st.
  intros Hr.
  destruct (after_loop_ok w cap fps width height out path tried
              (final_state (model w) fps frame_interval conf_threshold out frames))
    as (calls & d & Hal).
  { apply open_writer_path in Hopen. destruct out; [exact Hopen | exact I]. }
  rewrite Hal in Hr |- *. exists out, path, tried, calls, d. auto.
Qed.

(** A job in which nothing raises returns a summary. *)
Lemma job_clean out path tried :
  cap_isOpened cap = true ->
  open_writer w fps width height output_path = (Returns (out, path), tried) ->
  (frame_interval <= Z.of_nat (length frames) -> fps <> 0) ->
  (out = true -> quiet w (length frames)) ->
  exists calls d,
    job = (JobOk (summarize cap
                    (final_state (model w) fps frame_interval conf_threshold out frames)
                    path d),
           mkTrace (written (final_state (model w) fps frame_interval conf_threshold out frames))
                   true out out tried calls d)
    /\ after_loop w cap fps width height out path tried
         (final_state (model w) fps frame_interval conf_threshold out frames) = job.
Proof.
  intros Hcap Hopen Hfps Hq.
  rewrite (process_video_opened _ _ _ _ _ _ _ _ Hcap Hopen).
  unfold frame_pass.
  rewrite (run_loop_clean _ _ _ _ _ interval_pos _ Hq Hfps).
  destruct (after_loop_ok w cap fps width height out path tried
              (final_state (model w) fps frame_interval conf_threshold out frames))
    as (calls & d & Hal).
  { apply open_writer_path in Hopen. destruct out; [exact Hopen | exact I]. }
  rewrite Hal. eauto.
Qed.

End Job.

(** ** C2: the number of FrameResults *)

(** C2 (amended): for every [frame_interval >= 1] and every source that
    yields N frames, a job in which nothing raises (the source opens, the
    writer set-up succeeds, the frame rate is not 0 if an anchor occurs,
    no write raises) returns [processed_frames = floor(N / frame_interval)];
    there is one FrameResult per frame index divisible by the interval,
    indices counted from 1, and the response holds the first 100. *)
Theorem frame_results_count (w : World) (video_path : string)
    (output_path : option string) (frame_interval : Z) (conf_threshold : Q)
    (out : bool) (path : option string) (tried : list (string * string)) :
  let cap := VideoCapture w video_path in
  let fps := Py.int (CAP_PROP_FPS cap) in
  let width := Py.int (CAP_PROP_FRAME_WIDTH cap) in
  let height := Py.int (CAP_PROP_FRAME_HEIGHT cap) in
  let N := Z.of_nat (length (cap_frames cap)) in
  let all := anchor_results (model w) fps frame_interval conf_threshold
                            (cap_frames cap) in
  1 <= frame_interval ->
  cap_isOpened cap = true ->
  open_writer w fps width height output_path = (Returns (out, path), tried) ->
  (frame_interval <= N -> fps <> 0) ->
  (out = true -> quiet w (length (cap_frames cap))) ->
  exists r,
    (process_video w video_path output_path frame_interval conf_threshold).1
      = JobOk r
    /\ processed_frames r = N / frame_interval
    /\ Z.of_nat (length all) = N / frame_interval
    /\ returned_detections r = take 100 all
    /\ map frame_number all
       = map (fun j => Z.of_nat j * frame_interval)
             (seq 1 (Z.to_nat (N / frame_interval))).
Proof.
  intros cap fps width height N all Hi Hcap Hopen Hfps Hq.
  destruct (job_clean w video_path output_path frame_interval conf_threshold Hi
              out path tried Hcap Hopen Hfps Hq) as (calls & d & Hjob & _).
  rewrite Hjob. eexists. split; [reflexivity|].
  pose proof (length_anchor_results w fps frame_interval conf_threshold Hi
                (cap_frames cap)) as Hlen.
  simpl. fold all. split; [exact Hlen|]. split; [exact Hlen|].
  split; [reflexivity|].
  apply frame_numbers_anchor_results. exact Hi.
Qed.

Lemma quiet_studio n m : quiet (studio n) m.
Proof. intros k _. reflexivity. Qed.

(** Seven frames at interval 3: FrameResults for frames 3 and 6. *)
Lemma frame_results_count_witness :
  exists r,
    (process_video (studio 7) "in.mp4" (Some "out.mp4") 3 (1 # 4)).1 = JobOk r
    /\ processed_frames r = 2
    /\ map frame_number (returned_detections r) = [3; 6].
Proof.
  destruct (frame_results_count (studio 7) "in.mp4" (Some "out.mp4") 3 (1 # 4)
              true (Some "out.mp4") [("mp4v", "out.mp4")])
    as (r & Hr & Hn & _ & Hret & Hnum).
  - lia.
  - reflexivity.
  - reflexivity.
  - intros _. vm_compute. discriminate.
  - intros _. apply quiet_studio.
  - exists r. split; [exact Hr|]. split; [exact Hn|].
    rewrite Hret, take_ge.
    + exact Hnum.
    + vm_compute. lia.
Defined.

(** C2 as stated fails: a three-frame source at interval 1 whose second
    write raises gives [processed_frames = 0], neither [floor(3 / 1)] nor
    the floor for the two frames read before the exception. *)
Lemma processed_frames_zero_after_write_failure :
  let w := breaks_at 1 in
  let job := process_video w "in.mp4" (Some "out.mp4") 1 (1 # 4) in
  let st := (run_loop w true 10 1 (1 # 4) loop_start
               (cap_frames (VideoCapture w "in.mp4"))).1 in
  length (cap_frames (VideoCapture w "in.mp4")) = 3%nat
  /\ frame_count st = 2
  /\ result_processed_frames job.1 <> 3 / 1
  /\ result_processed_frames job.1 <> frame_count st / 1.
Proof. vm_compute. repeat split; discriminate. Qed.

(** ** C1: propagation *)

(** Whatever the job does, the frames it wrote are the expected frames of
    a prefix of the stream. *)
Lemma job_written_prefix (w : World) (video_path : string)
    (output_path : option string) (frame_interval : Z) (conf_threshold : Q) :
  1 <= frame_interval ->
  exists k, (k <= length (cap_frames (VideoCapture w video_path)))%nat
    /\ frames_written
         (process_video w video_path output_path frame_interval conf_threshold).2
       = imap (expected_frame (model w) frame_interval conf_threshold
                              (cap_frames (VideoCapture w video_path)))
              (take k (cap_frames (VideoCapture w video_path))).
Proof.
  intros Hi. unfold process_video.
  destruct (cap_isOpened (VideoCapture w video_path)); simpl negb; cbv iota;
    [|exists 0%nat; split; [lia | reflexivity]].
  destruct (open_writer w _ _ _ output_path) as [[[out path]|e] tried];
    [|exists 0%nat; split; [lia | reflexivity]].
  unfold frame_pass.
  destruct (run_loop_written w out (Py.int (CAP_PROP_FPS (VideoCapture w video_path)))
              frame_interval conf_threshold Hi
              (cap_frames (VideoCapture w video_path))) as (k & Hk & Hw & _).
  assert (exists k', (k' <= length (cap_frames (VideoCapture w video_path)))%nat
            /\ written (run_loop w out (Py.int (CAP_PROP_FPS (VideoCapture w video_path)))
                          frame_interval conf_threshold loop_start
                          (cap_frames (VideoCapture w video_path))).1
               = imap (expected_frame (model w) frame_interval conf_threshold
                                      (cap_frames (VideoCapture w video_path)))
                      (take k' (cap_frames (VideoCapture w video_path)))) as (k' & Hk' & Hw').
  { destruct out; [exists k; auto|]. exists 0%nat. split; [lia | exact Hw]. }
  exists k'. split; [exact Hk'|]. rewrite <- Hw'.
  destruct (run_loop w out _ frame_interval conf_threshold loop_start _) as [st [e|]];
    [reflexivity|].
  unfold after_loop. destruct out; [|reflexivity].
  destruct path as [p|]; [|reflexivity].
  rewrite finish_returns. reflexivity.
Qed.

(** C1: with [frame_interval >= 1], every frame the job wrote whose index
    [i] is not a multiple of the interval carries exactly the detections
    computed at the greatest anchor index [a <= i] (so never those of a
    later anchor), and is the frame itself, with no box, when no anchor
    has occurred ([a = 0]); when nothing raises every frame of the source
    is written. *)
Theorem propagation_invariant (w : World) (video_path : string)
    (output_path : option string) (frame_interval : Z) (conf_threshold : Q) :
  let cap := VideoCapture w video_path in
  let fps := Py.int (CAP_PROP_FPS cap) in
  let width := Py.int (CAP_PROP_FRAME_WIDTH cap) in
  let height := Py.int (CAP_PROP_FRAME_HEIGHT cap) in
  let frames := cap_frames cap in
  let job := process_video w video_path output_path frame_interval
               conf_threshold in
  1 <= frame_interval ->
  (* every frame that was written and is not an anchor *)
  (forall i g,
     frames_written job.2 !! i = Some g ->
     is_anchor frame_interval (index_of i) = false ->
     let a := last_anchor frame_interval (index_of i) in
     exists frame,
       frames !! i = Some frame
       /\ g = draw_last (detections_at (model w) conf_threshold frames a) frame
       /\ (a = 0 -> g = frame)
       /\ a mod frame_interval = 0 /\ 0 <= a < index_of i
       /\ (forall a', a' mod frame_interval = 0 -> a' <= index_of i -> a' <= a))
  (* and when nothing raises, every frame is written *)
  /\ (forall path tried,
        cap_isOpened cap = true ->
        open_writer w fps width height output_path = (Returns (true, path), tried) ->
        (frame_interval <= Z.of_nat (length frames) -> fps <> 0) ->
        quiet w (length frames) ->
        length (frames_written job.2) = length frames).
Proof.
  intros cap fps width height frames job Hi. split.
  - intros i g Hg Hna a.
    destruct (job_written_prefix w video_path output_path frame_interval
                conf_threshold Hi) as (k & Hk & Hw).
    fold cap frames job in Hk, Hw. rewrite Hw, list_lookup_imap in Hg.
    destruct (take k frames !! i) as [frame|] eqn:Hf; [|discriminate].
    injection Hg as <-.
    apply lookup_take_Some in Hf as [Hf _].
    exists frame. split; [exact Hf|].
    unfold expected_frame. rewrite Hna. fold a.
    assert (0 <= index_of i) as Hpos by (unfold index_of; lia).
    pose proof (last_anchor_bounds frame_interval (index_of i) Hi Hpos) as Hb.
    fold a in Hb.
    assert (a mod frame_interval = 0) as Hmod.
    { unfold a, last_anchor. rewrite Z.mul_comm. apply Z.mod_mul. lia. }
    split; [reflexivity|]. split.
    + intros Ha. rewrite Ha. reflexivity.
    + split; [exact Hmod|]. split.
      * split; [lia|]. destruct (Z.eq_dec a (index_of i)) as [E|NE]; [|lia].
        unfold is_anchor in Hna. rewrite <- E, Hmod in Hna. discriminate.
      * intros a' Ha' Hle.
        apply (last_anchor_greatest frame_interval (index_of i) a' Hi Hpos Ha' Hle).
  - intros path tried Hcap Hopen Hfps Hq.
    destruct (job_clean w video_path output_path frame_interval conf_threshold Hi
                true path tried Hcap Hopen Hfps (fun _ => Hq)) as (calls & d & Hjob & _).
    subst job. rewrite Hjob. simpl. apply length_imap.
Qed.

(** Frame 5 at interval 3 carries the detections of frame 3. *)
Lemma propagation_invariant_witness :
  exists frame,
    cap_frames (clip 7) !! 4%nat = Some frame
    /\ boxed_fifth_frame
       = draw_last (detections_at one_person_model (1 # 4) (cap_frames (clip 7)) 3)
                   frame.
Proof.
  destruct (proj1 (propagation_invariant (studio 7) "in.mp4" (Some "out.mp4") 3
                     (1 # 4) ltac:(lia)) 4%nat boxed_fifth_frame)
    as (frame & Hf & Hg & _).
  - reflexivity.
  - reflexivity.
  - exists frame. split; [exact Hf | exact Hg].
Defined.

(** ** C6: a write that raises *)

(** C6 (amended): when a write raises mid-job the loop stops there, only
    the frames before the failing write are written, and the job returns
    the dict of the [except] clause, with [processed_frames = 0] and
    [total_frames = 0]: the FrameResults collected so far are not
    aggregated and not returned. *)
Theorem write_failure_is_an_error_exit (w : World) (video_path : string)
    (output_path : option string) (frame_interval : Z) (conf_threshold : Q)
    (path : option string) (tried : list (string * string))
    (pre : list Frame) (f : Frame) (post : list Frame) :
  let cap := VideoCapture w video_path in
  let fps := Py.int (CAP_PROP_FPS cap) in
  let width := Py.int (CAP_PROP_FRAME_WIDTH cap) in
  let height := Py.int (CAP_PROP_FRAME_HEIGHT cap) in
  let job := process_video w video_path output_path frame_interval
               conf_threshold in
  1 <= frame_interval ->
  cap_isOpened cap = true ->
  open_writer w fps width height output_path = (Returns (true, path), tried) ->
  cap_frames cap = pre ++ f :: post ->
  quiet w (length pre) ->
  write_raises w (length pre) = true ->
  (frame_interval <= index_of (length pre) -> fps <> 0) ->
  (* the loop stops at the failing write, with these FrameResults collected *)
  (exists st,
     run_loop w true fps frame_interval conf_threshold loop_start (cap_frames cap)
       = (st, Some (OtherException "write"))
     /\ frame_count st = index_of (length pre)
     /\ frame_detections st
        = anchor_results (model w) fps frame_interval conf_threshold (pre ++ [f]))
  (* only the frames before it were written *)
  /\ frames_written job.2
     = imap (expected_frame (model w) frame_interval conf_threshold pre) pre
  (* and the job returns the dict of the except clause *)
  /\ job.1 = JobError (OtherException "write")
  /\ result_processed_frames job.1 = 0
  /\ result_total_frames job.1 = 0.
Proof.
  intros cap fps width height job Hi Hcap Hopen Hframes Hq Hr Hfps.
  destruct (run_loop_write_fails w true fps frame_interval conf_threshold Hi
              pre f post eq_refl Hq Hr Hfps) as (st & Hrun & Hw & Hd & Hc).
  rewrite <- Hframes in Hrun.
  split; [exists st; auto|].
  subst job. rewrite (process_video_opened _ _ _ _ _ _ _ _ Hcap Hopen).
  unfold frame_pass. fold cap fps width height. rewrite Hrun. simpl.
  rewrite Hw. auto.
Qed.

(** The second write of a three-frame job raises. *)
Lemma write_failure_is_an_error_exit_witness :
  let job := process_video (breaks_at 1) "in.mp4" (Some "out.mp4") 1 (1 # 4) in
  job.1 = JobError (OtherException "write")
  /\ result_processed_frames job.1 = 0
  /\ length (frames_written job.2) = 1%nat.
Proof.
  destruct (write_failure_is_an_error_exit (breaks_at 1) "in.mp4" (Some "out.mp4")
              1 (1 # 4) (Some "out.mp4") [("mp4v", "out.mp4")]
              [hd_frame 1] (hd_frame 2) [hd_frame 3])
    as (_ & Hw & He & Hp & _).
  - lia.
  - reflexivity.
  - reflexivity.
  - reflexivity.
  - intros k Hk. simpl in Hk. assert (k = 0%nat) as -> by lia. reflexivity.
  - reflexivity.
  - intros _. vm_compute. discriminate.
  - split; [exact He|]. split; [exact Hp|]. rewrite Hw. reflexivity.
Defined.

(** C6 as stated fails: the second write raises after two FrameResults
    were collected, and the job returns the error dict, with no averages
    and [processed_frames] 0. *)
Lemma write_failure_discards_results :
  let w := breaks_at 1 in
  let job := process_video w "in.mp4" (Some "out.mp4") 1 (1 # 4) in
  let st := (run_loop w true 10 1 (1 # 4) loop_start
               (cap_frames (VideoCapture w "in.mp4"))).1 in
  length (frame_detections st) = 2%nat
  /\ ~ (exists r, job.1 = JobOk r)
  /\ result_processed_frames job.1 <> Z.of_nat (length (frame_detections st)).
Proof.
  vm_compute. split; [reflexivity|]. split; [|discriminate].
  intros [r Hr]. discriminate.
Qed.

(** ** C7: release of the handles *)

(** On normal completion what was opened is released; on an error exit
    nothing is. *)
Lemma released_iff_ok (w : World) (video_path : string)
    (output_path : option string) (frame_interval : Z) (conf_threshold : Q) :
  let job := process_video w video_path output_path frame_interval
               conf_threshold in
  (forall r, job.1 = JobOk r ->
     cap_released job.2 = true /\ out_released job.2 = out_opened job.2)
  /\ (forall e, job.1 = JobError e ->
        cap_released job.2 = false /\ out_released job.2 = false).
Proof.
  intros job. subst job. unfold process_video.
  destruct (cap_isOpened (VideoCapture w video_path)); simpl negb; cbv iota;
    [|split; [discriminate | auto]].
  destruct (open_writer w _ _ _ output_path) as [[[out path]|e] tried];
    [|split; [discriminate | auto]].
  unfold frame_pass.
  destruct (run_loop w out _ frame_interval conf_threshold loop_start _) as [st [e|]];
    [split; [discriminate | auto]|].
  unfold after_loop. destruct out; [destruct path as [p|]|].
  - rewrite finish_returns. simpl. split; [auto | discriminate].
  - simpl. split; [auto | discriminate].
  - simpl. split; [auto | discriminate].
Qed.

(** C7, the code at two failing inputs: with no usable encoder the job
    ends in the error dict and the decoder handle, which was opened, is
    not released; when a write raises, neither the decoder handle nor the
    open encoder handle is released. *)
Theorem error_exit_leaks_handles :
  let no_codec := process_video no_encoder "in.mp4" (Some "out.mp4") 5 (1 # 4) in
  let failed_write := process_video (breaks_at 1) "in.mp4" (Some "out.mp4") 1 (1 # 4) in
  (cap_isOpened (VideoCapture no_encoder "in.mp4") = true
   /\ no_codec.1 = JobError no_usable_codec
   /\ cap_released no_codec.2 = false)
  /\ (failed_write.1 = JobError (OtherException "write")
      /\ out_opened failed_write.2 = true
      /\ cap_released failed_write.2 = false
      /\ out_released failed_write.2 = false).
Proof. vm_compute. auto 10. Qed.

(** ** C8: when the transcoding pass runs *)

(** C8 (amended): in a job in which nothing raises, the transcoding pass
    runs exactly once, on the output file, when a writer was opened, the
    output file exists and its path ends in [.mp4]; otherwise it does not
    run, in particular not for an output path ending in [.avi]. *)
Theorem transcode_runs_for_mp4_only (w : World) (video_path : string)
    (output_path : option string) (frame_interval : Z) (conf_threshold : Q)
    (out : bool) (path : option string) (tried : list (string * string)) :
  let cap := VideoCapture w video_path in
  let fps := Py.int (CAP_PROP_FPS cap) in
  let width := Py.int (CAP_PROP_FRAME_WIDTH cap) in
  let height := Py.int (CAP_PROP_FRAME_HEIGHT cap) in
  let job := process_video w video_path output_path frame_interval
               conf_threshold in
  1 <= frame_interval ->
  cap_isOpened cap = true ->
  open_writer w fps width height output_path = (Returns (out, path), tried) ->
  (frame_interval <= Z.of_nat (length (cap_frames cap)) -> fps <> 0) ->
  (out = true -> quiet w (length (cap_frames cap))) ->
  reencoded job.2
  = match out, path with
    | true, Some p =>
        if exists_ (disk_after_release w) p && Py.endswith p ".mp4"
        then [p] else []
    | _, _ => []
    end
  /\ (length (reencoded job.2) <= 1)%nat
  /\ (forall p, path = Some p -> Py.endswith p ".avi" = true ->
        reencoded job.2 = []).
Proof.
  intros cap fps width height job Hi Hcap Hopen Hfps Hq.
  destruct (job_clean w video_path output_path frame_interval conf_threshold Hi
              out path tried Hcap Hopen Hfps Hq) as (calls & d & _ & Hal).
  assert (reencoded job.2
          = match out, path with
            | true, Some p =>
                if exists_ (disk_after_release w) p && Py.endswith p ".mp4"
                then [p] else []
            | _, _ => []
            end) as E.
  { subst job. rewrite <- Hal. unfold after_loop.
    destruct out; [destruct path as [p|]|]; try reflexivity.
    rewrite finish_returns. simpl. unfold finish.
    destruct (exists_ (disk_after_release w) p); [|reflexivity].
    destruct (Py.endswith p ".mp4"); [|reflexivity].
    simpl. destruct (_reencode_to_h264 _ _ _ _ _ _). reflexivity. }
  split; [exact E|]. split.
  - rewrite E. destruct out; [destruct path as [p|]|]; simpl; try lia.
    destruct (_ && _); simpl; lia.
  - intros p -> Havi. rewrite E. destruct out; [|reflexivity].
    rewrite (avi_is_not_mp4 _ Havi), andb_false_r. reflexivity.
Qed.

(** mp4v into [out.mp4]: one pass, on [out.mp4]. *)
Lemma transcode_runs_for_mp4_only_witness :
  reencoded (process_video (studio 7) "in.mp4" (Some "out.mp4") 3 (1 # 4)).2
  = ["out.mp4"].
Proof.
  refine (proj1 (transcode_runs_for_mp4_only (studio 7) "in.mp4" (Some "out.mp4")
                   3 (1 # 4) true (Some "out.mp4") [("mp4v", "out.mp4")]
                   _ _ _ _ _)).
  - lia.
  - reflexivity.
  - reflexivity.
  - intros _. vm_compute. discriminate.
  - intros _. apply quiet_studio.
Defined.

(** C8 as stated fails: Motion JPEG is negotiated, all seven frames are
    written, the output file exists, and the transcoding pass does not
    run. *)
Lemma no_transcode_after_mjpg :
  let job := process_video only_mjpg "in.mp4" (Some "out.mp4") 5 (1 # 4) in
  out_opened job.2 = true
  /\ codecs_tried job.2
     = [("mp4v", "out.mp4"); ("XVID", "out.mp4"); ("MJPG", "out.avi")]
  /\ length (frames_written job.2) = 7%nat
  /\ (exists r, job.1 = JobOk r /\ output_video r = Some "out.avi"
                /\ output_exists r = true)
  /\ length (reencoded job.2) <> 1%nat.
Proof.
  vm_compute. repeat split; try discriminate. eexists. repeat split.
Qed.

(** ** C9: the averages *)

Lemma summarize_final (w : World) cap fps frame_interval conf_threshold out path d :
  let all := anchor_results (model w) fps frame_interval conf_threshold
                            (cap_frames cap) in
  summarize cap (final_state (model w) fps frame_interval conf_threshold out
                             (cap_frames cap)) path d
  = mkJobDict (Py.int (CAP_PROP_FRAME_COUNT cap)) (Z.of_nat (length all))
      (Py.round2 (mean_person_count all)) (Py.round2 (mean_density all))
      (take 100 all) path
      (match path with
       | Some p => truthy path && exists_ d p
       | None => false
       end).
Proof. reflexivity. Qed.

(** C9 (amended): a job in which nothing raises returns as
    ['average_person_count'] the mean [sum(person_count) / processed_frames]
    over all FrameResults rounded to two decimals, that is a multiple of
    0.01 at most 0.005 away from the mean, and as ['average_density'] the
    mean of ['density_percentage'] rounded in the same way; a mean with at
    most two decimals is returned as it is; both are 0 when there are no
    FrameResults; a source without frames gives [processed_frames = 0],
    both averages 0, [total_frames] as the container reports it (0 for a
    count of 0), and no error. *)
Theorem averages_are_rounded_means (w : World) (video_path : string)
    (output_path : option string) (frame_interval : Z) (conf_threshold : Q)
    (out : bool) (path : option string) (tried : list (string * string)) :
  let cap := VideoCapture w video_path in
  let fps := Py.int (CAP_PROP_FPS cap) in
  let width := Py.int (CAP_PROP_FRAME_WIDTH cap) in
  let height := Py.int (CAP_PROP_FRAME_HEIGHT cap) in
  let all := anchor_results (model w) fps frame_interval conf_threshold
                            (cap_frames cap) in
  let job := process_video w video_path output_path frame_interval
               conf_threshold in
  1 <= frame_interval ->
  cap_isOpened cap = true ->
  open_writer w fps width height output_path = (Returns (out, path), tried) ->
  (frame_interval <= Z.of_nat (length (cap_frames cap)) -> fps <> 0) ->
  (out = true -> quiet w (length (cap_frames cap))) ->
  exists r,
    job.1 = JobOk r
    /\ processed_frames r = Z.of_nat (length all)
    /\ rounded_to_hundredths (mean_person_count all) (average_person_count r)
    /\ rounded_to_hundredths (mean_density all) (average_density r)
    /\ (forall n : Z, (mean_person_count all == n # 100)%Q ->
          (average_person_count r == n # 100)%Q)
    /\ (forall n : Z, (mean_density all == n # 100)%Q ->
          (average_density r == n # 100)%Q)
    /\ total_frames r = Py.int (CAP_PROP_FRAME_COUNT cap)
    /\ (cap_frames cap = [] ->
          processed_frames r = 0
          /\ (average_person_count r == 0)%Q
          /\ (average_density r == 0)%Q
          /\ ((CAP_PROP_FRAME_COUNT cap == 0)%Q -> total_frames r = 0)).
Proof.
  intros cap fps width height all job Hi Hcap Hopen Hfps Hq.
  destruct (job_clean w video_path output_path frame_interval conf_threshold Hi
              out path tried Hcap Hopen Hfps Hq) as (calls & d & Hjob & _).
  subst job. rewrite Hjob. eexists. split; [reflexivity|].
  rewrite summarize_final. fold all.
  cbn [fst processed_frames average_person_count average_density total_frames].
  split; [reflexivity|].
  split; [apply round2_rounded|]. split; [apply round2_rounded|].
  split.
  { intros n Hn. apply rounded_to_hundredths_exact.
    apply (rounded_to_hundredths_comp (mean_person_count all) _
             (Py.round2 (mean_person_count all)) _ Hn (Qeq_refl _)).
    apply round2_rounded. }
  split.
  { intros n Hn. apply rounded_to_hundredths_exact.
    apply (rounded_to_hundredths_comp (mean_density all) _
             (Py.round2 (mean_density all)) _ Hn (Qeq_refl _)).
    apply round2_rounded. }
  split; [reflexivity|].
  intros Hnil. subst all. fold cap. rewrite Hnil. simpl.
  split; [reflexivity|]. split; [reflexivity|]. split; [reflexivity|].
  intros Hz. unfold Py.int. unfold Qeq in Hz. simpl in Hz.
  rewrite Z.mul_1_r in Hz. rewrite Hz. reflexivity.
Qed.

(** One person in the first of three frames: the average is 1/3 rounded. *)
Lemma averages_are_rounded_means_witness :
  exists r,
    (process_video lone_visitor "in.mp4" None 1 (1 # 4)).1 = JobOk r
    /\ processed_frames r = 3
    /\ rounded_to_hundredths
         (mean_person_count
            (anchor_results (model lone_visitor) 10 1 (1 # 4) (cap_frames (clip 3))))
         (average_person_count r).
Proof.
  destruct (averages_are_rounded_means lone_visitor "in.mp4" None 1 (1 # 4)
              false None []) as (r & Hr & Hn & Hp & _).
  - lia.
  - reflexivity.
  - reflexivity.
  - intros _. vm_compute. discriminate.
  - discriminate.
  - exists r. split; [exact Hr|]. split; [exact Hn | exact Hp].
Defined.

(** C9 as stated fails: one person over three FrameResults is reported as
    0.33, not as 1/3. *)
Lemma average_person_count_is_rounded :
  let job := process_video lone_visitor "in.mp4" None 1 (1 # 4) in
  exists r, job.1 = JobOk r
    /\ processed_frames r = 3
    /\ sum_persons (returned_detections r) = 1
    /\ ~ (average_person_count r
          == Py.truediv (sum_persons (returned_detections r)) (processed_frames r))%Q.
Proof.
  vm_compute. eexists. split; [reflexivity|]. vm_compute.
  split; [reflexivity|]. split; [reflexivity|]. discriminate.
Qed.

(** ** C10: the truncated list of the response *)

(** C10: the ['frame_detections'] list of every returned summary is the
    first [min(processed_frames, 100)] FrameResults in frame order, while
    [processed_frames] and both averages are computed over all of them
    (each average is the mean over all FrameResults rounded to two
    decimals, and that mean itself when it has at most two decimals); with
    more than 100 FrameResults the list is a strict prefix; and a job in
    which nothing raises returns such a summary. *)
Theorem response_is_truncated_to_100 (w : World) (video_path : string)
    (output_path : option string) (frame_interval : Z) (conf_threshold : Q) :
  let cap := VideoCapture w video_path in
  let fps := Py.int (CAP_PROP_FPS cap) in
  let width := Py.int (CAP_PROP_FRAME_WIDTH cap) in
  let height := Py.int (CAP_PROP_FRAME_HEIGHT cap) in
  let all := anchor_results (model w) fps frame_interval conf_threshold
                            (cap_frames cap) in
  let job := process_video w video_path output_path frame_interval
               conf_threshold in
  1 <= frame_interval ->
  (* every job that returns a list *)
  (forall r, job.1 = JobOk r ->
     returned_detections r = take 100 all
     /\ length (returned_detections r) = Nat.min 100 (length all)
     /\ processed_frames r = Z.of_nat (length all)
     /\ rounded_to_hundredths (mean_person_count all) (average_person_count r)
     /\ rounded_to_hundredths (mean_density all) (average_density r)
     /\ (forall n : Z, (mean_person_count all == n # 100)%Q ->
           (average_person_count r == n # 100)%Q)
     /\ (forall n : Z, (mean_density all == n # 100)%Q ->
           (average_density r == n # 100)%Q)
     /\ ((100 < length all)%nat ->
         exists rest, rest <> [] /\ all = returned_detections r ++ rest))
  (* and a job in which nothing raises returns one *)
  /\ (forall out path tried,
        cap_isOpened cap = true ->
        open_writer w fps width height output_path = (Returns (out, path), tried) ->
        (frame_interval <= Z.of_nat (length (cap_frames cap)) -> fps <> 0) ->
        (out = true -> quiet w (length (cap_frames cap))) ->
        exists r, job.1 = JobOk r).
Proof.
  intros cap fps width height all job Hi. split.
  - intros r Hr.
    destruct (job_ok_inv w video_path output_path frame_interval conf_threshold Hi
                r Hr) as (out & path & tried & calls & d & _ & _ & Hjob).
    subst job. rewrite Hjob in Hr. simpl in Hr. injection Hr as <-.
    rewrite summarize_final. fold cap fps all.
    cbn [returned_detections processed_frames average_person_count average_density].
    split; [reflexivity|]. split; [apply length_take|].
    split; [reflexivity|].
    split; [apply round2_rounded|]. split; [apply round2_rounded|].
    split.
    { intros n Hn. apply rounded_to_hundredths_exact.
      apply (rounded_to_hundredths_comp (mean_person_count all) _
               (Py.round2 (mean_person_count all)) _ Hn (Qeq_refl _)).
      apply round2_rounded. }
    split.
    { intros n Hn. apply rounded_to_hundredths_exact.
      apply (rounded_to_hundredths_comp (mean_density all) _
               (Py.round2 (mean_density all)) _ Hn (Qeq_refl _)).
      apply round2_rounded. }
    intros Hlen. exists (drop 100 all). split.
    + intros Hd. apply (f_equal length) in Hd. rewrite length_drop in Hd.
      simpl in Hd. lia.
    + symmetry. apply take_drop.
  - intros out path tried Hcap Hopen Hfps Hq.
    destruct (job_clean w video_path output_path frame_interval conf_threshold Hi
                out path tried Hcap Hopen Hfps Hq) as (calls & d & Hjob & _).
    subst job. rewrite Hjob. eexists. reflexivity.
Qed.

(** 505 frames at interval 5: 101 FrameResults, 100 returned. *)
Lemma response_is_truncated_to_100_witness :
  exists r,
    (process_video (studio 505) "in.mp4" None 5 (1 # 4)).1 = JobOk r
    /\ length (returned_detections r) = 100%nat
    /\ processed_frames r = 101.
Proof.
  pose proof (response_is_truncated_to_100 (studio 505) "in.mp4" None 5 (1 # 4)
                ltac:(lia)) as [Hall Hok].
  destruct (Hok false None []) as [r Hr].
  - reflexivity.
  - reflexivity.
  - intros _. vm_compute. discriminate.
  - discriminate.
  - destruct (Hall r Hr) as (_ & Hlen & Hn & _).
    exists r. split; [exact Hr|]. split.
    + rewrite Hlen. vm_compute. reflexivity.
    + rewrite Hn. vm_compute. reflexivity.
Defined.

(** * Further properties of the detector wrappers *)

Lemma fold_draw_overlay {A} (op : A -> DrawOp) (l : list A) (img : Frame) :
  let a := fold_left (fun img x => draw (op x) img) l img in
  same_picture a img /\ overlay a = overlay img ++ map op l.
Proof.
  revert img. induction l as [|x l IH]; intros img; simpl.
  - split; [repeat split | by rewrite app_nil_r].
  - destruct (IH (draw (op x) img)) as [(H0 & H1 & H2) Ho].
    split; [repeat split; [rewrite H0|rewrite H1|rewrite H2]; reflexivity|].
    rewrite Ho. simpl. rewrite <- app_assoc. reflexivity.
Qed.

Lemma rectangle_of_video_detection b :
  rectangle_of (video_detection b) = Some (box_rectangle b).
Proof. reflexivity. Qed.

Lemma omap_rectangle_of_video boxes :
  omap rectangle_of (map video_detection boxes) = map box_rectangle boxes.
Proof.
  induction boxes as [|b boxes IH]; [reflexivity|].
  simpl. f_equal. exact IH.
Qed.

(** The dict of a successful call of [process_video_frame]. *)
Lemma process_video_frame_ok model frame conf_threshold :
  has_error (process_video_frame model frame conf_threshold) = false ->
  exists results,
    model frame conf_threshold = ModelResults results
    /\ frame_area frame <> 0
    /\ process_video_frame model frame conf_threshold
       = mkFrameDict (count_persons results)
           (Py.round2 (density_estimate (count_persons results) (frame_area frame)))
           (map video_detection (concat results))
           (Some (fold_left (fun img b => draw (box_rectangle b) img)
                            (concat results) frame))
           false.
Proof.
  unfold process_video_frame.
  destruct (model frame conf_threshold) as [|results]; [discriminate|].
  destruct (Z.eqb_spec (frame_area frame) 0) as [E|NE]; [discriminate|].
  intros _. exists results. auto.
Qed.

Lemma annotated_frame_ok (model : Model) (frame : Frame) (conf_threshold : Q) :
  let r := process_video_frame model frame conf_threshold in
  has_error r = false ->
  exists annotated,
    annotated_frame r = Some annotated
    /\ same_picture annotated frame
    /\ overlay annotated = overlay frame ++ omap rectangle_of (detections r)
    /\ length (overlay annotated)
       = (length (overlay frame) + length (detections r))%nat.
Proof.
  intros r Hok. subst r.
  destruct (process_video_frame_ok _ _ _ Hok) as (results & _ & _ & ->).
  cbn [annotated_frame detections].
  destruct (fold_draw_overlay box_rectangle (concat results) frame) as [Hs Ho].
  eexists. split; [reflexivity|]. split; [exact Hs|].
  rewrite omap_rectangle_of_video. split; [exact Ho|].
  rewrite Ho, length_app, !length_map. reflexivity.
Qed.

(** X1: a result of [process_video_frame] without an error carries an annotated
    frame with the shape and pixels of the input frame, whose drawing is the
    input's drawing followed by one rectangle per entry of ['detections'],
    in their order, and nothing else. *)
Theorem annotated_frame_one_rectangle_per_detection
    (model : Model) (frame : Frame) (conf_threshold : Q) :
  let r := process_video_frame model frame conf_threshold in
  has_error r = false ->
  exists annotated,
    annotated_frame r = Some annotated
    /\ same_picture annotated frame
    /\ overlay annotated = overlay frame ++ omap rectangle_of (detections r)
    /\ length (overlay annotated)
       = (length (overlay frame) + length (detections r))%nat.
Proof. apply annotated_frame_ok. Qed.

Lemma annotated_frame_one_rectangle_per_detection_witness :
  exists annotated,
    annotated_frame (process_video_frame (crowd_model 3) (hd_frame 1) (1 # 4))
      = Some annotated
    /\ length (overlay annotated) = 3%nat.
Proof.
  destruct (annotated_frame_one_rectangle_per_detection (crowd_model 3)
              (hd_frame 1) (1 # 4) eq_refl) as (a & Ha & _ & _ & Hl).
  exists a. split; [exact Ha | exact Hl].
Defined.

Lemma count_persons_last results boxes :
  count_persons (results ++ [boxes]) = Z.of_nat (length boxes).
Proof. unfold count_persons. rewrite fold_left_app. reflexivity. Qed.

Lemma count_persons_le results :
  count_persons results <= Z.of_nat (length (concat results)).
Proof.
  induction results as [|boxes results _] using rev_ind.
  - simpl. unfold count_persons. simpl. lia.
  - rewrite count_persons_last, concat_app, length_app. simpl.
    rewrite length_app. simpl. lia.
Qed.

Lemma detect_persons_ok imread model image_path conf_threshold :
  has_error (detect_persons imread model image_path conf_threshold) = false ->
  exists image results,
    imread image_path = Some image
    /\ model image conf_threshold = ModelResults results
    /\ person_count (detect_persons imread model image_path conf_threshold)
       = count_persons results
    /\ detections (detect_persons imread model image_path conf_threshold)
       = map image_detection (concat results).
Proof.
  unfold detect_persons.
  destruct (imread image_path) as [image|]; [|discriminate].
  destruct (model image conf_threshold) as [|results] eqn:Hm; [discriminate|].
  destruct (Z.eqb_spec (frame_area image) 0) as [E|NE]; [discriminate|].
  intros _. exists image, results. split; [reflexivity|]. split; [exact Hm|].
  split; reflexivity.
Qed.

Lemma count_persons_is_last results :
  count_persons results = Z.of_nat (length (List.last results [])).
Proof.
  induction results as [|boxes results _] using rev_ind; [reflexivity|].
  rewrite count_persons_last, last_last. reflexivity.
Qed.

Lemma process_video_frame_failed model frame conf_threshold :
  has_error (process_video_frame model frame conf_threshold) = true ->
  process_video_frame model frame conf_threshold = error_dict.
Proof.
  unfold process_video_frame.
  destruct (model frame conf_threshold); [reflexivity|].
  destruct (frame_area frame =? 0); [reflexivity | discriminate].
Qed.

Lemma detect_persons_failed imread model image_path conf_threshold :
  has_error (detect_persons imread model image_path conf_threshold) = true ->
  detect_persons imread model image_path conf_threshold = error_dict.
Proof.
  unfold detect_persons.
  destruct (imread image_path) as [image|]; [|reflexivity].
  destruct (model image conf_threshold); [reflexivity|].
  destruct (frame_area image =? 0); [reflexivity | discriminate].
Qed.

(** X2: in [process_video_frame] and [detect_persons], a result without
    error has as ['person_count'] the number of boxes of the last result
    the detector returned (0 when it returned none), and as ['detections']
    the boxes of all its results, in order; a result with an error has
    count 0 and no detections; so the count lies between 0 and the number
    of detections, and is smaller when an earlier result has boxes. *)
Theorem person_count_counts_the_last_result
    (model : Model) (imread : string -> option Frame)
    (frame : Frame) (image_path : string) (conf_threshold : Q) :
  let r := process_video_frame model frame conf_threshold in
  let d := detect_persons imread model image_path conf_threshold in
  ((forall results,
      model frame conf_threshold = ModelResults results ->
      has_error r = false ->
      person_count r = Z.of_nat (length (List.last results []))
      /\ detections r = map video_detection (concat results)
      /\ Z.of_nat (length (detections r))
         = person_count r + Z.of_nat (length (concat (removelast results))))
   /\ (has_error r = true -> person_count r = 0 /\ detections r = [])
   /\ 0 <= person_count r <= Z.of_nat (length (detections r)))
  /\ ((forall image results,
         imread image_path = Some image ->
         model image conf_threshold = ModelResults results ->
         has_error d = false ->
         person_count d = Z.of_nat (length (List.last results []))
         /\ detections d = map image_detection (concat results)
         /\ Z.of_nat (length (detections d))
            = person_count d + Z.of_nat (length (concat (removelast results))))
      /\ (has_error d = true -> person_count d = 0 /\ detections d = [])
      /\ 0 <= person_count d <= Z.of_nat (length (detections d))).
Proof.
  intros r d.
  assert (forall results : list (list Box),
            Z.of_nat (length (concat results))
            = Z.of_nat (length (List.last results []))
              + Z.of_nat (length (concat (removelast results)))) as Hsplit.
  { intros results.
    induction results as [|boxes results _] using rev_ind; [reflexivity|].
    rewrite last_last, removelast_last, concat_app, length_app. simpl.
    rewrite app_nil_r. lia. }
  split.
  - split; [|split].
    + intros results Hm He.
      destruct (process_video_frame_ok _ _ _ He) as (results' & Hm' & _ & Hr).
      rewrite Hm in Hm'. injection Hm' as <-.
      subst r. rewrite Hr. cbn [person_count detections].
      rewrite length_map, count_persons_is_last.
      split; [reflexivity|]. split; [reflexivity | apply Hsplit].
    + intros He. subst r. rewrite (process_video_frame_failed _ _ _ He).
      split; reflexivity.
    + destruct (has_error r) eqn:He.
      * subst r. rewrite (process_video_frame_failed _ _ _ He). simpl. lia.
      * destruct (process_video_frame_ok _ _ _ He) as (results & Hm & _ & Hr).
        subst r. rewrite Hr. cbn [person_count detections]. rewrite length_map.
        split; [apply count_persons_nonneg | apply count_persons_le].
  - split; [|split].
    + intros image results Hi Hm He.
      destruct (detect_persons_ok _ _ _ _ He)
        as (image' & results' & Hi' & Hm' & Hp & Hd).
      rewrite Hi in Hi'. injection Hi' as <-.
      rewrite Hm in Hm'. injection Hm' as <-.
      subst d. rewrite Hp, Hd, length_map, count_persons_is_last.
      split; [reflexivity|]. split; [reflexivity | apply Hsplit].
    + intros He. subst d. rewrite (detect_persons_failed _ _ _ _ He).
      split; reflexivity.
    + destruct (has_error d) eqn:He.
      * subst d. rewrite (detect_persons_failed _ _ _ _ He). simpl. lia.
      * destruct (detect_persons_ok _ _ _ _ He)
          as (image & results & Hi & Hm & Hp & Hd).
        subst d. rewrite Hp, Hd, length_map.
        split; [apply count_persons_nonneg | apply count_persons_le].
Qed.

(** Two results, with two boxes and with one: the count is 1, the
    detections are 3. *)
Lemma person_count_counts_the_last_result_witness :
  person_count (process_video_frame two_results_model (hd_frame 1) (1 # 4)) = 1
  /\ length (detections (process_video_frame two_results_model (hd_frame 1) (1 # 4)))
     = 3%nat.
Proof.
  destruct (proj1 (proj1 (person_count_counts_the_last_result two_results_model
              (fun _ => None) (hd_frame 1) "" (1 # 4)))
              [[one_box; one_box]; [one_box]] eq_refl eq_refl)
    as (Hc & Hd & _).
  split; [exact Hc | rewrite Hd; reflexivity].
Defined.

(** ** Propagated drawing *)

Lemma draw_detection_overlay img detection :
  same_picture (draw_detection img detection) img
  /\ overlay (draw_detection img detection)
     = overlay img ++ drawn_for detection.
Proof.
  unfold draw_detection, drawn_for, rectangle_of, label_of.
  destruct (bbox detection) as [|a [|b [|c [|d [|e rest]]]]];
    try (split; [repeat split | by rewrite app_nil_r]).
  simpl. split; [repeat split|]. rewrite <- app_assoc. reflexivity.
Qed.

Lemma draw_last_overlay last frame :
  same_picture (draw_last last frame) frame
  /\ overlay (draw_last last frame) = overlay frame ++ concat (map drawn_for last).
Proof.
  unfold draw_last. revert frame.
  induction last as [|d last IH]; intros frame; simpl.
  - split; [repeat split | by rewrite app_nil_r].
  - destruct (IH (draw_detection frame d)) as [(H0 & H1 & H2) Ho].
    destruct (draw_detection_overlay frame d) as [(G0 & G1 & G2) Go].
    split; [repeat split; congruence|].
    rewrite Ho, Go. rewrite <- app_assoc. reflexivity.
Qed.

Lemma rectangles_drawn_for (last : list Detection) :
  filter (fun op => is_rectangle op = true) (concat (map drawn_for last))
  = omap rectangle_of last.
Proof.
  induction last as [|d last IH]; [reflexivity|].
  simpl. rewrite filter_app, IH. unfold drawn_for, rectangle_of, label_of.
  destruct (bbox d) as [|a [|b [|c [|e [|g rest]]]]]; reflexivity.
Qed.

Lemma filter_omap_rectangles (l : list Detection) :
  filter (fun op => is_rectangle op = true) (omap rectangle_of l)
  = omap rectangle_of l.
Proof.
  induction l as [|d l IH]; [reflexivity|].
  assert (omap rectangle_of (d :: l)
          = match rectangle_of d with
            | Some y => y :: omap rectangle_of l
            | None => omap rectangle_of l
            end) as -> by reflexivity.
  destruct (rectangle_of d) as [op|] eqn:E; [|exact IH].
  rewrite filter_cons_True, IH; [reflexivity|].
  unfold rectangle_of in E.
  destruct (bbox d) as [|a [|b [|c [|e [|g rest]]]]]; try discriminate.
  injection E as <-. reflexivity.
Qed.

(** X3: drawing the detections of an anchor on a later frame keeps the frame's
    shape and pixels and adds the rectangles [process_video_frame] drew on
    the anchor, in the same order; the propagated frame carries a rectangle
    and a label per detection, the anchor frame rectangles only. *)
Theorem propagated_boxes_are_the_anchor_boxes
    (model : Model) (anchor frame : Frame) (conf_threshold : Q) :
  let r := process_video_frame model anchor conf_threshold in
  let propagated := draw_last (detections r) frame in
  same_picture propagated frame
  /\ rectangles propagated = rectangles frame ++ omap rectangle_of (detections r)
  /\ (has_error r = false ->
      forall annotated, annotated_frame r = Some annotated ->
        rectangles annotated = rectangles anchor ++ omap rectangle_of (detections r)
        /\ (overlay anchor = [] -> overlay frame = [] ->
            rectangles propagated = overlay annotated)
        /\ length (overlay propagated)
           = (length (overlay frame) + 2 * length (detections r))%nat).
Proof.
  intros r propagated.
  pose proof (annotated_frame_ok model anchor conf_threshold) as Hann.
  assert (has_error r = false ->
          length (concat (map drawn_for (detections r)))
          = (2 * length (detections r))%nat) as Hlen.
  { intros Hok. subst r.
    destruct (process_video_frame_ok _ _ _ Hok) as (results & _ & _ & ->).
    cbn [detections]. induction (concat results) as [|b l IH]; [reflexivity|].
    simpl. rewrite IH. lia. }
  fold r in Hann. simpl in Hann. clearbody r.
  destruct (draw_last_overlay (detections r) frame) as [Hs Ho].
  fold propagated in Hs, Ho. clearbody propagated.
  split; [exact Hs|].
  assert (rectangles propagated = rectangles frame ++ omap rectangle_of (detections r)) as Hr.
  { unfold rectangles. rewrite Ho, filter_app, rectangles_drawn_for. reflexivity. }
  split; [exact Hr|].
  intros Hok annotated Ha.
  destruct (Hann Hok) as (a & Ha' & _ & Hoa & _).
  rewrite Ha in Ha'. injection Ha' as <-.
  split; [|split].
  - unfold rectangles. rewrite Hoa, filter_app, filter_omap_rectangles. reflexivity.
  - intros Hea Hef. rewrite Hr, Hoa. unfold rectangles. rewrite Hea, Hef. reflexivity.
  - rewrite Ho, length_app, (Hlen Hok). reflexivity.
Qed.

Lemma propagated_boxes_are_the_anchor_boxes_witness :
  rectangles (draw_last (detections (process_video_frame (crowd_model 2) (hd_frame 1) (1 # 4)))
                        (hd_frame 2))
  = [box_rectangle one_box; box_rectangle one_box].
Proof.
  pose proof (propagated_boxes_are_the_anchor_boxes (crowd_model 2) (hd_frame 1)
                (hd_frame 2) (1 # 4)) as (_ & _ & H).
  destruct (H eq_refl _ eq_refl) as (_ & Hr & _).
  rewrite (Hr eq_refl eq_refl). reflexivity.
Defined.

(** * Further properties of the frame loop *)

Lemma annotated_frame_same_picture model frame conf_threshold :
  same_picture
    (default frame (annotated_frame (process_video_frame model frame conf_threshold)))
    frame.
Proof.
  destruct (has_error (process_video_frame model frame conf_threshold)) eqn:He.
  - assert (process_video_frame model frame conf_threshold = error_dict) as ->.
    { unfold process_video_frame in *.
      destruct (model frame conf_threshold); [reflexivity|].
      destruct (frame_area frame =? 0); [reflexivity | discriminate]. }
    repeat split.
  - destruct (annotated_frame_ok model frame conf_threshold He) as (a & -> & Hs & _).
    exact Hs.
Qed.

Lemma expected_frame_same_picture model frame_interval conf_threshold frames i frame :
  same_picture (expected_frame model frame_interval conf_threshold frames i frame)
               frame.
Proof.
  unfold expected_frame. destruct (is_anchor frame_interval (index_of i)).
  - apply annotated_frame_same_picture.
  - apply draw_last_overlay.
Qed.

(** X4: for [frame_interval >= 1], on every run, the i-th frame accepted by
    [out.write] has the shape and pixels of the i-th frame read, with
    drawings added at most; no more frames are written than were read. *)
Theorem written_frames_keep_order_and_content (w : World) (video_path : string)
    (output_path : option string) (frame_interval : Z) (conf_threshold : Q) :
  let frames := cap_frames (VideoCapture w video_path) in
  let job := process_video w video_path output_path frame_interval
               conf_threshold in
  1 <= frame_interval ->
  (length (frames_written job.2) <= length frames)%nat
  /\ forall i g, frames_written job.2 !! i = Some g ->
       exists frame, frames !! i = Some frame
         /\ same_picture g frame
         /\ exists drawn, overlay g = overlay frame ++ drawn.
Proof.
  intros frames job Hi.
  destruct (job_written_prefix w video_path output_path frame_interval
              conf_threshold Hi) as (k & Hk & Hw).
  fold frames job in Hk, Hw. rewrite Hw. split.
  - rewrite length_imap, length_take. lia.
  - intros i g Hg. rewrite list_lookup_imap in Hg.
    destruct (take k frames !! i) as [frame|] eqn:Hf; [|discriminate].
    injection Hg as <-. apply lookup_take_Some in Hf as [Hf _].
    exists frame. split; [exact Hf|]. split; [apply expected_frame_same_picture|].
    unfold expected_frame. destruct (is_anchor frame_interval (index_of i)).
    + destruct (has_error (process_video_frame (model w) frame conf_threshold)) eqn:He.
      * assert (process_video_frame (model w) frame conf_threshold = error_dict) as ->.
        { unfold process_video_frame in *.
          destruct (model w frame conf_threshold); [reflexivity|].
          destruct (frame_area frame =? 0); [reflexivity | discriminate]. }
        exists []. simpl. by rewrite app_nil_r.
      * destruct (annotated_frame_ok (model w) frame conf_threshold He)
          as (a & -> & _ & Ho & _).
        eexists. exact Ho.
    + eexists. apply draw_last_overlay.
Qed.

Lemma written_frames_keep_order_and_content_witness :
  let job := process_video (studio 7) "in.mp4" (Some "out.mp4") 3 (1 # 4) in
  (length (frames_written job.2) <= 7)%nat.
Proof.
  exact (proj1 (written_frames_keep_order_and_content (studio 7) "in.mp4"
                  (Some "out.mp4") 3 (1 # 4) ltac:(lia))).
Defined.

(** ** The entries of the FrameResults *)

Section Entries.

Variable w : World.
Variables fps frame_interval : Z.
Variable conf_threshold : Q.
Hypothesis interval_pos : 1 <= frame_interval.

Local Abbreviation results :=
  (anchor_results (model w) fps frame_interval conf_threshold).

(** The entry at position [j] is the detector's answer on the frame with
    index [(j + 1) * frame_interval]. *)
Lemma anchor_results_lookup frames j e :
  results frames !! j = Some e ->
  frame_number e = (Z.of_nat j + 1) * frame_interval
  /\ exists frame,
       frames !! Z.to_nat (frame_number e - 1) = Some frame
       /\ e = anchor_result (model w) fps conf_threshold (frame_number e) frame.
Proof.
  revert j e. induction frames as [|f l IH] using rev_ind; intros j e He.
  - discriminate.
  - rewrite anchor_results_snoc in He.
    destruct (decide (j < length (results l))%nat) as [Hlt|Hge].
    + rewrite lookup_app_l in He by exact Hlt.
      destruct (IH j e He) as (Hn & frame & Hf & Hr).
      split; [exact Hn|]. exists frame. split; [|exact Hr].
      rewrite lookup_app_l; [exact Hf|]. apply lookup_lt_Some in Hf. exact Hf.
    + rewrite lookup_app_r in He by lia.
      destruct (is_anchor frame_interval (index_of (length l))) eqn:Ha;
        [|destruct (j - length (results l))%nat; discriminate].
      destruct (j - length (results l))%nat as [|n] eqn:Hj; [|destruct n; discriminate].
      injection He as <-. cbn [frame_number anchor_result].
      assert (j = length (results l)) as -> by lia.
      pose proof (length_anchor_results w fps frame_interval conf_threshold
                    interval_pos l) as Hlen.
      unfold is_anchor in Ha. apply Z.eqb_eq in Ha.
      pose proof (Z.div_mod (index_of (length l)) frame_interval ltac:(lia)) as E.
      rewrite Ha in E.
      assert (index_of (length l) = Z.of_nat (length l) + 1) as Hidx
        by (unfold index_of; lia).
      pose proof (div_succ frame_interval (Z.of_nat (length l)) interval_pos
                    ltac:(lia)) as Hd.
      rewrite <- Hidx, Ha in Hd. simpl in Hd.
      split; [rewrite Hlen; lia|].
      exists f. split; [|reflexivity].
      replace (Z.to_nat (index_of (length l) - 1)) with (length l) by lia.
      rewrite lookup_app_r, Nat.sub_diag by lia. reflexivity.
Qed.

End Entries.

(** X5: for [frame_interval >= 1], entry [j] of the returned
    ['frame_detections'] has frame number [(j + 1) * frame_interval],
    timestamp [frame_number / fps], and the result of [process_video_frame]
    on the source frame of that number. *)
Theorem frame_results_are_the_anchor_frames (w : World) (video_path : string)
    (output_path : option string) (frame_interval : Z) (conf_threshold : Q) :
  let cap := VideoCapture w video_path in
  let fps := Py.int (CAP_PROP_FPS cap) in
  let job := process_video w video_path output_path frame_interval
               conf_threshold in
  1 <= frame_interval ->
  forall r j e,
    job.1 = JobOk r ->
    returned_detections r !! j = Some e ->
    frame_number e = (Z.of_nat j + 1) * frame_interval
    /\ timestamp e = Py.truediv (frame_number e) fps
    /\ exists frame,
         cap_frames cap !! Z.to_nat (frame_number e - 1) = Some frame
         /\ result e = process_video_frame (model w) frame conf_threshold.
Proof.
  intros cap fps job Hi r j e Hr He.
  destruct (job_ok_inv w video_path output_path frame_interval conf_threshold Hi
              r Hr) as (out & path & tried & calls & d & _ & _ & Hjob).
  subst job. rewrite Hjob in Hr. simpl in Hr. injection Hr as <-.
  rewrite summarize_final in He. cbn [returned_detections] in He.
  apply lookup_take_Some in He as [He _].
  destruct (anchor_results_lookup _ _ _ _ Hi _ _ _ He) as (Hn & frame & Hf & Hr).
  split; [exact Hn|]. split; [rewrite Hr at 1; reflexivity|].
  exists frame. split; [exact Hf|]. rewrite Hr at 1. reflexivity.
Qed.

Lemma frame_results_are_the_anchor_frames_witness :
  exists r e,
    (process_video (studio 7) "in.mp4" None 3 (1 # 4)).1 = JobOk r
    /\ returned_detections r !! 1%nat = Some e
    /\ frame_number e = 6.
Proof.
  assert (exists r e, (process_video (studio 7) "in.mp4" None 3 (1 # 4)).1 = JobOk r
                      /\ returned_detections r !! 1%nat = Some e) as (r & e & Hr & He).
  { eexists _, _. split; [vm_compute; reflexivity | vm_compute; reflexivity]. }
  exists r, e. split; [exact Hr|]. split; [exact He|].
  exact (proj1 (frame_results_are_the_anchor_frames (studio 7) "in.mp4" None 3
                  (1 # 4) ltac:(lia) r 1%nat e Hr He)).
Defined.

(** ** Bounds on what a job reports *)

Lemma process_video_frame_contract model frame conf_threshold :
  density_contract (process_video_frame model frame conf_threshold)
                   (frame_area frame)
  /\ 0 <= person_count (process_video_frame model frame conf_threshold).
Proof.
  unfold process_video_frame.
  pose proof (frame_area_nonneg frame) as Ha.
  destruct (model frame conf_threshold) as [|results].
  - split; [apply error_dict_contract, Ha | simpl; lia].
  - destruct (Z.eqb_spec (frame_area frame) 0) as [E|NE].
    + split; [apply error_dict_contract, Ha | simpl; lia].
    + split; [apply reported_contract; [apply count_persons_nonneg | lia]|].
      apply count_persons_nonneg.
Qed.

Lemma round2_nonneg q : (0 <= q)%Q -> (0 <= Py.round2 q)%Q.
Proof.
  intros H. unfold Py.round2.
  assert (0 <= Py.round_half_even (q * 100)) as A
    by (apply round_half_even_nonneg; lra).
  rewrite Zle_Qle in A. change (inject_Z 0) with 0%Q in A.
  apply Qle_shift_div_l; lra.
Qed.

Lemma sum_Q_bounds (l : list Q) :
  Forall (fun q => 0 <= q <= 100)%Q l ->
  (0 <= sum_Q l <= 100 * inject_Z (Z.of_nat (length l)))%Q.
Proof.
  unfold sum_Q. intros H.
  assert (forall acc n, (0 <= acc <= 100 * inject_Z n)%Q ->
            (0 <= fold_left Qplus l acc
             <= 100 * inject_Z (n + Z.of_nat (length l)))%Q) as G.
  { induction H as [|q l Hq _ IH]; intros acc n Hacc.
    - simpl. rewrite Z.add_0_r. exact Hacc.
    - simpl fold_left.
      replace (n + Z.of_nat (length (q :: l))) with ((n + 1) + Z.of_nat (length l))
        by (simpl length; lia).
      apply IH. rewrite inject_Z_plus. change (inject_Z 1) with 1%Q. lra. }
  apply (G 0%Q 0). change (inject_Z 0) with 0%Q. lra.
Qed.

Lemma sum_persons_nonneg (l : list FrameResult) :
  Forall (fun e => 0 <= person_count (result e)) l -> 0 <= sum_persons l.
Proof.
  unfold sum_persons. induction 1 as [|e l He _ IH]; simpl; lia.
Qed.

Lemma mean_density_bounds (l : list FrameResult) :
  Forall (fun e => 0 <= density_percentage (result e) <= 100)%Q l ->
  (0 <= mean_density l <= 100)%Q.
Proof.
  intros H. unfold mean_density.
  destruct (Z.eqb_spec (Z.of_nat (length l)) 0) as [E|NE]; [lra|].
  pose proof (sum_Q_bounds (map (fun r => density_percentage (result r)) l)) as B.
  rewrite length_map in B.
  assert (0 < inject_Z (Z.of_nat (length l)))%Q as Hn.
  { change 0%Q with (inject_Z 0). rewrite <- Zlt_Qlt. lia. }
  destruct B as [B1 B2].
  { apply Forall_map. exact H. }
  split.
  - apply Qle_shift_div_l; [exact Hn | lra].
  - apply Qle_shift_div_r; [exact Hn | lra].
Qed.

Lemma mean_person_count_nonneg (l : list FrameResult) :
  Forall (fun e => 0 <= person_count (result e)) l ->
  (0 <= mean_person_count l)%Q.
Proof.
  intros H. unfold mean_person_count.
  destruct (Z.eqb_spec (Z.of_nat (length l)) 0) as [E|NE]; [lra|].
  pose proof (sum_persons_nonneg l H) as S.
  destruct (Z.eq_dec (sum_persons l) 0) as [Z0|NZ].
  - rewrite Z0. unfold Py.truediv, Qdiv. change (inject_Z 0) with 0%Q. lra.
  - apply truediv_nonneg; lia.
Qed.

(** X6: for [frame_interval >= 1], every returned summary has
    ['average_density'] in [0, 100], ['average_person_count'] at least 0,
    ['processed_frames'] between 0 and the number of frames read, and in
    every listed FrameResult a density in [0, 100], a count at least 0 and
    a frame number between 1 and the number of frames read. *)
Theorem reported_values_are_bounded (w : World) (video_path : string)
    (output_path : option string) (frame_interval : Z) (conf_threshold : Q) :
  let cap := VideoCapture w video_path in
  let N := Z.of_nat (length (cap_frames cap)) in
  let job := process_video w video_path output_path frame_interval
               conf_threshold in
  1 <= frame_interval ->
  forall r, job.1 = JobOk r ->
    (0 <= average_density r <= 100)%Q
    /\ (0 <= average_person_count r)%Q
    /\ 0 <= processed_frames r <= N
    /\ forall j e, returned_detections r !! j = Some e ->
         (0 <= density_percentage (result e) <= 100)%Q
         /\ 0 <= person_count (result e)
         /\ 1 <= frame_number e <= N.
Proof.
  intros cap N job Hi r Hr.
  destruct (job_ok_inv w video_path output_path frame_interval conf_threshold Hi
              r Hr) as (out & path & tried & calls & d & _ & _ & Hjob).
  subst job. rewrite Hjob in Hr. simpl in Hr. injection Hr as <-.
  rewrite summarize_final.
  cbn [average_density average_person_count processed_frames returned_detections].
  set (all := anchor_results (model w) (Py.int (CAP_PROP_FPS (VideoCapture w video_path)))
                frame_interval conf_threshold (cap_frames (VideoCapture w video_path))).
  assert (forall j e, all !! j = Some e ->
            (0 <= density_percentage (result e) <= 100)%Q
            /\ 0 <= person_count (result e)
            /\ 1 <= frame_number e <= N) as Hall.
  { intros j e He.
    destruct (anchor_results_lookup w (Py.int (CAP_PROP_FPS (VideoCapture w video_path)))
                frame_interval conf_threshold Hi
                (cap_frames (VideoCapture w video_path)) j e He)
      as (Hn & frame & Hf & Hre).
    destruct (process_video_frame_contract (model w) frame conf_threshold)
      as [(_ & Hb & _) Hp].
    rewrite Hre. cbn [result anchor_result frame_number].
    split; [exact Hb|]. split; [exact Hp|].
    apply lookup_lt_Some in Hf. subst N. fold cap in Hf. nia. }
  assert (Forall (fun e => (0 <= density_percentage (result e) <= 100)%Q
                           /\ 0 <= person_count (result e)) all) as HF.
  { apply Forall_lookup. intros j e He. destruct (Hall j e He) as (A & B & _). auto. }
  split; [apply round2_bounds, mean_density_bounds;
          eapply Forall_impl; [exact HF | intros e [A _]; exact A]|].
  split; [apply round2_nonneg, mean_person_count_nonneg;
          eapply Forall_impl; [exact HF | intros e [_ B]; exact B]|].
  split.
  - pose proof (length_anchor_results w
                  (Py.int (CAP_PROP_FPS (VideoCapture w video_path)))
                  frame_interval conf_threshold Hi
                  (cap_frames (VideoCapture w video_path))) as Hlen.
    fold all in Hlen. rewrite Hlen. fold cap N.
    split; [apply Z.div_pos; lia|].
    apply Z.div_le_upper_bound; nia.
  - intros j e He. apply lookup_take_Some in He as [He _]. exact (Hall j e He).
Qed.

Lemma reported_values_are_bounded_witness :
  exists r,
    (process_video (studio 7) "in.mp4" None 3 (1 # 4)).1 = JobOk r
    /\ (0 <= average_density r <= 100)%Q.
Proof.
  assert (exists r, (process_video (studio 7) "in.mp4" None 3 (1 # 4)).1 = JobOk r)
    as [r Hr] by (eexists; vm_compute; reflexivity).
  exists r. split; [exact Hr|].
  exact (proj1 (reported_values_are_bounded (studio 7) "in.mp4" None 3 (1 # 4)
                  ltac:(lia) r Hr)).
Defined.

(** ** A detector failure at one anchor *)

Lemma process_video_frame_error model frame conf_threshold :
  has_error (process_video_frame model frame conf_threshold) = true ->
  process_video_frame model frame conf_threshold = error_dict.
Proof.
  unfold process_video_frame.
  destruct (model frame conf_threshold); [reflexivity|].
  destruct (frame_area frame =? 0); [reflexivity | discriminate].
Qed.

Lemma anchor_results_anchor w fps frame_interval conf_threshold frames i f :
  1 <= frame_interval ->
  frames !! i = Some f ->
  is_anchor frame_interval (index_of i) = true ->
  anchor_results (model w) fps frame_interval conf_threshold frames
    !! Z.to_nat (index_of i / frame_interval - 1)
  = Some (anchor_result (model w) fps conf_threshold (index_of i) f).
Proof.
  intros Hi. revert i f.
  induction frames as [|g l IH] using rev_ind; intros i f Hf Ha; [discriminate|].
  rewrite anchor_results_snoc.
  destruct (decide (i < length l)%nat) as [Hlt|Hge].
  - rewrite lookup_app_l in Hf by exact Hlt.
    pose proof (IH i f Hf Ha) as H.
    rewrite lookup_app_l; [exact H|]. apply lookup_lt_Some in H. exact H.
  - assert (i = length l) as ->.
    { apply lookup_lt_Some in Hf. rewrite length_app in Hf. simpl in Hf. lia. }
    rewrite lookup_app_r, Nat.sub_diag in Hf by lia. injection Hf as ->.
    rewrite Ha.
    pose proof (length_anchor_results w fps frame_interval conf_threshold Hi l) as Hlen.
    assert (index_of (length l) = Z.of_nat (length l) + 1) as Hidx
      by (unfold index_of; lia).
    pose proof (div_succ frame_interval (Z.of_nat (length l)) Hi ltac:(lia)) as Hd.
    rewrite <- Hidx in Hd. unfold is_anchor in Ha. rewrite Ha in Hd.
    replace (Z.to_nat (index_of (length l) / frame_interval - 1))
      with (length (anchor_results (model w) fps frame_interval conf_threshold l))
      by lia.
    rewrite lookup_app_r, Nat.sub_diag by lia. reflexivity.
Qed.

(** X7: when the detector fails on an anchor frame of a job in which nothing
    else raises, the job still returns its summary with
    [processed_frames = floor(N / frame_interval)]; the FrameResult of that
    anchor is the error dict, the anchor frame is written as read, and so
    are the frames that follow it up to the next anchor. *)
Theorem detector_failure_does_not_stop_the_job (w : World) (video_path : string)
    (output_path : option string) (frame_interval : Z) (conf_threshold : Q)
    (path : option string) (tried : list (string * string))
    (i : nat) (f : Frame) :
  let cap := VideoCapture w video_path in
  let fps := Py.int (CAP_PROP_FPS cap) in
  let width := Py.int (CAP_PROP_FRAME_WIDTH cap) in
  let height := Py.int (CAP_PROP_FRAME_HEIGHT cap) in
  let frames := cap_frames cap in
  let job := process_video w video_path output_path frame_interval
               conf_threshold in
  1 <= frame_interval ->
  cap_isOpened cap = true ->
  open_writer w fps width height output_path = (Returns (true, path), tried) ->
  fps <> 0 ->
  quiet w (length frames) ->
  (* the detector fails on the anchor frame at position [i] *)
  frames !! i = Some f ->
  is_anchor frame_interval (index_of i) = true ->
  has_error (process_video_frame (model w) f conf_threshold) = true ->
  (* the job still returns its summary, over all anchors *)
  (exists r, job.1 = JobOk r
     /\ processed_frames r = Z.of_nat (length frames) / frame_interval)
  (* the FrameResult of that anchor is the empty one *)
  /\ anchor_results (model w) fps frame_interval conf_threshold frames
       !! Z.to_nat (index_of i / frame_interval - 1)
     = Some (mkFrameResult error_dict (index_of i) (Py.truediv (index_of i) fps))
  (* the frame is written as it was read *)
  /\ frames_written job.2 !! i = Some f
  (* and so is every frame, until the next anchor *)
  /\ (forall k g, frames !! k = Some g ->
        is_anchor frame_interval (index_of k) = false ->
        last_anchor frame_interval (index_of k) = index_of i ->
        frames_written job.2 !! k = Some g).
Proof.
  intros cap fps width height frames job Hi Hcap Hopen Hfps Hq Hf Ha He.
  destruct (job_clean w video_path output_path frame_interval conf_threshold Hi
              true path tried Hcap Hopen (fun _ => Hfps) (fun _ => Hq))
    as (calls & d & Hjob & _).
  pose proof (process_video_frame_error _ _ _ He) as Herr.
  split; [|split; [|split]].
  - subst job. rewrite Hjob. eexists. split; [reflexivity|].
    rewrite summarize_final. cbn [processed_frames].
    apply length_anchor_results. exact Hi.
  - rewrite (anchor_results_anchor w fps frame_interval conf_threshold frames i f
               Hi Hf Ha).
    unfold anchor_result. rewrite Herr. reflexivity.
  - subst job. rewrite Hjob. cbn [frames_written snd final_state written].
    rewrite list_lookup_imap. fold cap frames. rewrite Hf. simpl.
    unfold expected_frame. rewrite Ha, Herr. reflexivity.
  - intros k g Hg Hna Hla.
    subst job. rewrite Hjob. cbn [frames_written snd final_state written].
    rewrite list_lookup_imap. fold cap frames. rewrite Hg. simpl.
    unfold expected_frame. rewrite Hna, Hla. unfold detections_at.
    destruct (Z.leb_spec (index_of i) 0) as [H|_]; [reflexivity|].
    replace (Z.to_nat (index_of i - 1)) with i by (unfold index_of; lia).
    rewrite Hf, Herr. reflexivity.
Qed.

Lemma detector_failure_does_not_stop_the_job_witness :
  frames_written (process_video (blind_studio 7) "in.mp4" (Some "out.mp4") 3
                                (1 # 4)).2 !! 2%nat
  = Some (hd_frame 3).
Proof.
  refine (proj1 (proj2 (proj2 (detector_failure_does_not_stop_the_job
            (blind_studio 7) "in.mp4"
            (Some "out.mp4") 3 (1 # 4) (Some "out.mp4") [("mp4v", "out.mp4")]
            2%nat (hd_frame 3) _ _ _ _ _ _ _ _)))).
  - lia.
  - reflexivity.
  - reflexivity.
  - vm_compute. discriminate.
  - intros k _. reflexivity.
  - reflexivity.
  - reflexivity.
  - reflexivity.
Defined.

(** * Edge cases of the frame loop *)

(** ** [frame_interval = 0] *)

Lemma run_loop_zero_interval w out fps conf_threshold f rest :
  exists st,
    run_loop w out fps 0 conf_threshold loop_start (f :: rest)
    = (st, Some ZeroDivisionError)
    /\ written st = [] /\ frame_detections st = [].
Proof. eexists. simpl. split; [reflexivity|]. split; reflexivity. Qed.

(** X8: with [frame_interval = 0], a source that yields a frame makes the job
    end in [ZeroDivisionError] before anything is written, transcoded or
    released; a source without frames gives a summary with no FrameResult. *)
Theorem zero_interval_is_an_error_exit (w : World) (video_path : string)
    (output_path : option string) (conf_threshold : Q)
    (out : bool) (path : option string) (tried : list (string * string)) :
  let cap := VideoCapture w video_path in
  let fps := Py.int (CAP_PROP_FPS cap) in
  let width := Py.int (CAP_PROP_FRAME_WIDTH cap) in
  let height := Py.int (CAP_PROP_FRAME_HEIGHT cap) in
  let job := process_video w video_path output_path 0 conf_threshold in
  cap_isOpened cap = true ->
  open_writer w fps width height output_path = (Returns (out, path), tried) ->
  (cap_frames cap <> [] ->
     job.1 = JobError ZeroDivisionError
     /\ frames_written job.2 = []
     /\ reencoded job.2 = []
     /\ cap_released job.2 = false)
  /\ (cap_frames cap = [] ->
        exists r, job.1 = JobOk r /\ processed_frames r = 0
                  /\ returned_detections r = []).
Proof.
  intros cap fps width height job Hcap Hopen.
  subst job. rewrite (process_video_opened _ _ _ _ _ _ _ _ Hcap Hopen).
  unfold frame_pass. fold cap fps width height. split.
  - intros Hne. destruct (cap_frames cap) as [|f rest]; [contradiction|].
    simpl. auto.
  - intros ->. simpl.
    destruct (after_loop_ok w cap fps width height out path tried loop_start)
      as (calls & d & ->).
    { apply open_writer_path in Hopen. destruct out; [exact Hopen | exact I]. }
    simpl. eexists. repeat split.
Qed.

Lemma zero_interval_is_an_error_exit_witness :
  (process_video (studio 3) "in.mp4" None 0 (1 # 4)).1 = JobError ZeroDivisionError.
Proof.
  refine (proj1 (proj1 (zero_interval_is_an_error_exit (studio 3) "in.mp4" None
            (1 # 4) false None [] _ _) _)).
  - reflexivity.
  - reflexivity.
  - discriminate.
Defined.

(** ** A frame rate of 0 *)

Lemma no_anchor_before_interval frame_interval n :
  0 < n < frame_interval ->
  is_anchor frame_interval n = false /\ last_anchor frame_interval n = 0.
Proof.
  intros H. unfold is_anchor, last_anchor.
  rewrite Z.mod_small, Z.div_small by lia. split; [apply Z.eqb_neq| ]; lia.
Qed.

Lemma imap_expected_before_interval model frame_interval conf_threshold
    (frames : list Frame) :
  Z.of_nat (length frames) < frame_interval ->
  imap (expected_frame model frame_interval conf_threshold frames) frames = frames.
Proof.
  intros H.
  rewrite (imap_ext _ (const id)).
  - rewrite imap_const. apply list_fmap_id.
  - intros i g Hg. apply lookup_lt_Some in Hg.
    destruct (no_anchor_before_interval frame_interval (index_of i)) as [Ha Hl].
    { unfold index_of. lia. }
    unfold expected_frame. rewrite Ha, Hl. reflexivity.
Qed.

(** X9: when the integer frame rate is 0 and the source reaches frame number
    [frame_interval], the job ends in [ZeroDivisionError] there; the frames
    before it were written as read (when a writer is open) and the result
    reports no processed frame. *)
Theorem zero_frame_rate_fails_at_the_first_anchor (w : World)
    (video_path : string) (output_path : option string) (frame_interval : Z)
    (conf_threshold : Q)
    (out : bool) (path : option string) (tried : list (string * string))
    (pre : list Frame) (f : Frame) (post : list Frame) :
  let cap := VideoCapture w video_path in
  let fps := Py.int (CAP_PROP_FPS cap) in
  let width := Py.int (CAP_PROP_FRAME_WIDTH cap) in
  let height := Py.int (CAP_PROP_FRAME_HEIGHT cap) in
  let job := process_video w video_path output_path frame_interval
               conf_threshold in
  cap_isOpened cap = true ->
  open_writer w fps width height output_path = (Returns (out, path), tried) ->
  fps = 0 ->
  cap_frames cap = pre ++ f :: post ->
  index_of (length pre) = frame_interval ->
  (out = true -> quiet w (length pre)) ->
  job.1 = JobError ZeroDivisionError
  /\ frames_written job.2 = (if out then pre else [])
  /\ result_processed_frames job.1 = 0.
Proof.
  intros cap fps width height job Hcap Hopen Hfps Hframes Hlen Hq.
  assert (1 <= frame_interval) as Hi by (unfold index_of in Hlen; lia).
  subst job. rewrite (process_video_opened _ _ _ _ _ _ _ _ Hcap Hopen).
  unfold frame_pass. fold cap fps width height. rewrite Hframes.
  rewrite (run_loop_app w out fps frame_interval conf_threshold).
  rewrite (run_loop_clean w out fps frame_interval conf_threshold Hi pre Hq).
  2:{ unfold index_of in Hlen. lia. }
  cbn [run_loop]. unfold loop_body.
  destruct (Z.eqb_spec frame_interval 0) as [E|_]; [lia|].
  cbn [frame_count final_state].
  replace (Z.of_nat (length pre) + 1) with frame_interval
    by (unfold index_of in Hlen; lia).
  rewrite Z.mod_same by lia. simpl (0 =? 0). cbv iota.
  rewrite Hfps. simpl (0 =? 0). cbv iota. cbn [written fst snd frames_written].
  split; [reflexivity|]. split; [|reflexivity].
  destruct out; [|reflexivity].
  apply imap_expected_before_interval. unfold index_of in Hlen. lia.
Qed.

Lemma zero_frame_rate_fails_at_the_first_anchor_witness :
  let job := process_video slow_studio "in.mp4" (Some "out.mp4") 2 (1 # 4) in
  job.1 = JobError ZeroDivisionError /\ frames_written job.2 = [hd_frame 1].
Proof.
  intros job.
  destruct (zero_frame_rate_fails_at_the_first_anchor slow_studio "in.mp4"
              (Some "out.mp4")
              2 (1 # 4) true (Some "out.mp4") [("mp4v", "out.mp4")]
              [hd_frame 1] (hd_frame 2) [hd_frame 3]) as (He & Hw & _).
  - reflexivity.
  - reflexivity.
  - reflexivity.
  - reflexivity.
  - reflexivity.
  - intros _ k _. reflexivity.
  - split; [exact He | exact Hw].
Defined.

(** ** A negative [frame_interval] *)

Lemma mod_opp_is_zero a b : (a mod (- b) =? 0) = (a mod b =? 0).
Proof.
  destruct (Z.eq_dec b 0) as [->|Hb]; [reflexivity|].
  destruct (Z.eqb_spec (a mod b) 0) as [E|NE].
  - apply Z.eqb_eq. apply Z.mod_divide in E; [|exact Hb].
    apply Z.mod_divide; [lia|]. apply (proj2 (Z.divide_opp_l b a)). exact E.
  - apply Z.eqb_neq. intros E. apply NE.
    apply Z.mod_divide in E; [|lia]. apply Z.mod_divide; [exact Hb|].
    apply (proj1 (Z.divide_opp_l b a)). exact E.
Qed.

Lemma loop_body_opp w out fps frame_interval conf_threshold st frame :
  loop_body w out fps (- frame_interval) conf_threshold st frame
  = loop_body w out fps frame_interval conf_threshold st frame.
Proof.
  unfold loop_body. rewrite mod_opp_is_zero.
  replace (- frame_interval =? 0) with (frame_interval =? 0); [reflexivity|].
  destruct (Z.eqb_spec frame_interval 0) as [->|H]; [reflexivity|].
  symmetry. apply Z.eqb_neq. lia.
Qed.

Lemma run_loop_opp w out fps frame_interval conf_threshold frames : forall st,
  run_loop w out fps (- frame_interval) conf_threshold st frames
  = run_loop w out fps frame_interval conf_threshold st frames.
Proof.
  induction frames as [|f l IH]; intros st; [reflexivity|].
  simpl. rewrite loop_body_opp.
  destruct (loop_body w out fps frame_interval conf_threshold st f) as [st' [e|]];
    [reflexivity | apply IH].
Qed.

(** X10: [process_video] returns the same result and has the same effects for
    [- frame_interval] as for [frame_interval]. *)
Theorem negative_interval_acts_as_its_absolute_value (w : World)
    (video_path : string) (output_path : option string) (frame_interval : Z)
    (conf_threshold : Q) :
  process_video w video_path output_path (- frame_interval) conf_threshold
  = process_video w video_path output_path frame_interval conf_threshold.
Proof.
  unfold process_video.
  destruct (negb (cap_isOpened (VideoCapture w video_path))); [reflexivity|].
  destruct (open_writer w _ _ _ output_path) as [[[out path]|e] tried];
    [|reflexivity].
  unfold frame_pass. rewrite run_loop_opp. reflexivity.
Qed.

(** ** No output path *)

(** X11: with [output_path] [None] or [''], and nothing raising, the job returns
    its summary with [processed_frames = floor(N / frame_interval)],
    ['output_video'] as given and ['output_exists'] false; no codec is
    tried, no frame written, no transcoding run, and the capture is
    released. *)
Theorem no_output_path_means_no_writer (w : World) (video_path : string)
    (output_path : option string) (frame_interval : Z) (conf_threshold : Q) :
  let cap := VideoCapture w video_path in
  let fps := Py.int (CAP_PROP_FPS cap) in
  let N := Z.of_nat (length (cap_frames cap)) in
  let job := process_video w video_path output_path frame_interval
               conf_threshold in
  output_path = None \/ output_path = Some "" ->
  1 <= frame_interval ->
  cap_isOpened cap = true ->
  (frame_interval <= N -> fps <> 0) ->
  (exists r, job.1 = JobOk r
     /\ processed_frames r = N / frame_interval
     /\ output_video r = output_path
     /\ output_exists r = false)
  /\ job.2 = mkTrace [] true false false [] [] (disk_after_release w).
Proof.
  intros cap fps N job Hout Hi Hcap Hfps.
  assert (open_writer w fps (Py.int (CAP_PROP_FRAME_WIDTH cap))
            (Py.int (CAP_PROP_FRAME_HEIGHT cap)) output_path
          = (Returns (false, output_path), [])) as Hopen
    by (destruct Hout as [-> | ->]; reflexivity).
  subst job. rewrite (process_video_opened _ _ _ _ _ _ _ _ Hcap Hopen).
  unfold frame_pass. fold cap fps.
  rewrite (run_loop_clean w false fps frame_interval conf_threshold Hi);
    [|discriminate | exact Hfps].
  rewrite after_loop_without_writer. cbn [fst snd].
  split; [|reflexivity].
  eexists. split; [reflexivity|]. rewrite summarize_final.
  cbn [processed_frames output_video output_exists].
  split; [apply length_anchor_results; exact Hi|]. split; [reflexivity|].
  destruct Hout as [-> | ->]; reflexivity.
Qed.

Lemma no_output_path_means_no_writer_witness :
  frames_written (process_video (studio 7) "in.mp4" (Some "") 3 (1 # 4)).2 = [].
Proof.
  pose proof (proj2 (no_output_path_means_no_writer (studio 7) "in.mp4" (Some "")
                       3 (1 # 4) (or_intror eq_refl) ltac:(lia) eq_refl
                       ltac:(intros _; vm_compute; discriminate))) as H.
  rewrite H. reflexivity.
Defined.

(** ** The negotiation, without assumptions *)

Lemma negotiate_prefix (w : World) (options : list (string * Z))
    (output_path : string) (fps width height : Z) :
  let '(chosen, tried) := negotiate w options output_path fps width height in
  tried = map (attempt output_path) (take (length tried) options)
  /\ match chosen with
     | Some c =>
         exists failed candidate later,
           options = failed ++ candidate :: later
           /\ c = attempt output_path candidate
           /\ opens w output_path fps width height candidate
           /\ Forall (fun x => ~ opens w output_path fps width height x) failed
           /\ length tried = S (length failed)
     | None =>
         length tried = length options
         /\ Forall (fun x => ~ opens w output_path fps width height x) options
     end.
Proof.
  induction options as [|[codec_name fourcc] rest IH]; simpl.
  - split; [reflexivity|]. split; [reflexivity | constructor].
  - destruct (negotiate w rest output_path fps width height) as [chosen tried].
    destruct IH as [Htried Hchosen].
    destruct (VideoWriter w (candidate_path codec_name output_path) fourcc fps
                (width, height)) as [|[|]] eqn:Hopen.
    + (* the constructor raises *)
      simpl. split; [unfold attempt at 1; simpl; f_equal; exact Htried|].
      destruct chosen as [c|].
      * destruct Hchosen as (failed & cand & later & -> & Hc & Ho & Hf & Hl).
        exists ((codec_name, fourcc) :: failed), cand, later.
        repeat split; try assumption.
        -- constructor; [|exact Hf]. unfold opens. simpl. rewrite Hopen. discriminate.
        -- simpl. lia.
      * destruct Hchosen as [Hl Hf]. split; [simpl; lia|].
        constructor; [|exact Hf]. unfold opens. simpl. rewrite Hopen. discriminate.
    + (* it opens *)
      simpl. split; [reflexivity|].
      exists [], (codec_name, fourcc), rest. repeat split; try constructor.
      unfold opens. simpl. exact Hopen.
    + (* the handle is not open *)
      simpl. split; [unfold attempt at 1; simpl; f_equal; exact Htried|].
      destruct chosen as [c|].
      * destruct Hchosen as (failed & cand & later & -> & Hc & Ho & Hf & Hl).
        exists ((codec_name, fourcc) :: failed), cand, later.
        repeat split; try assumption.
        -- constructor; [|exact Hf]. unfold opens. simpl. rewrite Hopen. discriminate.
        -- simpl. lia.
      * destruct Hchosen as [Hl Hf]. split; [simpl; lia|].
        constructor; [|exact Hf]. unfold opens. simpl. rewrite Hopen. discriminate.
Qed.

(** X12: the negotiation attempts a prefix of the candidate list, in order;
    when it selects a candidate, that is the first one that opens and the
    attempts end with it; when it selects none, every candidate was
    attempted and none opens. *)
Theorem negotiation_tries_a_prefix (w : World) (options : list (string * Z))
    (output_path : string) (fps width height : Z) :
  let '(chosen, tried) := negotiate w options output_path fps width height in
  tried = map (attempt output_path) (take (length tried) options)
  /\ match chosen with
     | Some c =>
         exists failed candidate later,
           options = failed ++ candidate :: later
           /\ c = attempt output_path candidate
           /\ opens w output_path fps width height candidate
           /\ Forall (fun x => ~ opens w output_path fps width height x) failed
           /\ length tried = S (length failed)
     | None =>
         length tried = length options
         /\ Forall (fun x => ~ opens w output_path fps width height x) options
     end.
Proof. apply negotiate_prefix. Qed.

(** * Paths and the transcoding pass *)

Section MorePaths.
Local Open Scope nat_scope.
Local Arguments String.append !_ _ / : simpl nomatch.

Lemma strip_prefix_inv p : forall s rest,
  Py.strip_prefix p s = Some rest -> s = p +:+ rest.
Proof.
  induction p as [|a p IH]; intros s rest H; simpl in H.
  - destruct s; injection H as <-; reflexivity.
  - destruct s as [|b s]; [discriminate|].
    destruct (Ascii.eqb_spec a b) as [->|]; [|discriminate].
    simpl. f_equal. apply IH. exact H.
Qed.

Lemma replace_go_same_length old new :
  String.length old = String.length new ->
  forall fuel s, String.length (Py.replace_go fuel old new s) = String.length s.
Proof.
  intros Hlen. induction fuel as [|fuel IH]; intros s; [reflexivity|].
  cbn [Py.replace_go].
  destruct (Py.strip_prefix old s) as [rest|] eqn:E.
  - apply strip_prefix_inv in E. subst s.
    rewrite !length_append, IH. lia.
  - destruct s as [|c s]; [reflexivity|]. simpl. f_equal. apply IH.
Qed.

End MorePaths.

(** X13: the path of a candidate has the length of the output path, is not
    empty when the output path is not, and is the output path itself when
    that ends in [.avi]. *)
Theorem candidate_path_keeps_the_length (codec_name output_path : string) :
  String.length (candidate_path codec_name output_path) = String.length output_path
  /\ (output_path <> "" -> candidate_path codec_name output_path <> "")
  /\ (Py.endswith output_path ".avi" = true ->
      candidate_path codec_name output_path = output_path).
Proof.
  assert (String.length (candidate_path codec_name output_path)
          = String.length output_path) as Hl.
  { unfold candidate_path. destruct (_ && _); [|reflexivity].
    unfold Py.replace. apply replace_go_same_length. reflexivity. }
  split; [exact Hl|]. split.
  - intros Hne E. rewrite E in Hl. destruct output_path; [contradiction|discriminate].
  - intros Ha. unfold candidate_path. rewrite Ha, andb_false_r. reflexivity.
Qed.

Lemma candidate_path_keeps_the_length_witness :
  candidate_path "MJPG" "clip.mp4" <> "".
Proof.
  refine (proj1 (proj2 (candidate_path_keeps_the_length "MJPG" "clip.mp4")) _).
  discriminate.
Defined.

(** ** What [_reencode_to_h264] does to the file system *)

(** The three ways the call can end. *)
Lemma reencode_cases w (d : Disk) input_path fps width height :
  let temp_path := h264_temp_path input_path in
  let d' := (_reencode_to_h264 w d input_path fps width height).2 in
  (ffmpeg_lookup w = ImportFails /\ d' = d)
  \/ (ffmpeg_lookup w <> ImportFails /\ transcoded w d input_path = None
      /\ d' = delete temp_path d)
  \/ (exists content, transcoded w d input_path = Some content
        /\ content <> ""
        /\ d' = <[input_path := content]> (delete temp_path d)).
Proof.
  intros temp_path d'. subst d'.
  unfold _reencode_to_h264, reencode_try, transcoded. fold temp_path.
  destruct (ffmpeg_lookup w) as [|msg|exe]; simpl.
  - left. auto.
  - right. left. rewrite remove_if_exists_delete. auto.
  - destruct (subprocess_run w (ffmpeg_cmd exe input_path temp_path))
      as [residue|msg residue|rc stderr residue]; simpl.
    + right. left. rewrite remove_if_exists_leave. auto.
    + right. left. rewrite remove_if_exists_leave. auto.
    + rewrite exists_lookup. unfold getsize, os_replace.
      destruct (leave temp_path residue d !! temp_path) as [content|] eqn:E.
      * destruct content as [|c rest].
        -- right. left.
           replace ((rc =? 0) && true && (0 <? Z.of_nat (String.length ""))) with false
             by (destruct (rc =? 0); reflexivity).
           simpl. rewrite remove_if_exists_leave.
           split; [discriminate|]. split; [destruct rc; reflexivity | reflexivity].
        -- destruct (Z.eqb_spec rc 0) as [->|Hrc]; simpl.
           ++ right. right. rewrite delete_leave. eexists.
              split; [reflexivity|]. split; [discriminate | reflexivity].
           ++ right. left. rewrite remove_if_exists_leave.
              split; [discriminate|]. split; [|reflexivity].
              destruct rc; try reflexivity. contradiction.
      * right. left. rewrite andb_false_r. simpl. rewrite remove_if_exists_leave.
        split; [discriminate|]. split; [destruct rc; reflexivity | reflexivity].
Qed.

(** X14: [_reencode_to_h264] leaves every path other than the input path and
    the temporary path as it was; when the two differ, a file at the input
    path stays present, and unless the import failed nothing is left at the
    temporary path. *)
Theorem reencode_touches_two_paths_only (w : World) (d : Disk)
    (input_path : string) (fps width height : Z) :
  let temp_path := h264_temp_path input_path in
  let d' := (_reencode_to_h264 w d input_path fps width height).2 in
  (forall path, path <> input_path -> path <> temp_path -> d' !! path = d !! path)
  /\ (temp_path <> input_path ->
      is_Some (d !! input_path) -> is_Some (d' !! input_path))
  /\ (ffmpeg_lookup w <> ImportFails -> temp_path <> input_path ->
      d' !! temp_path = None).
Proof.
  intros temp_path d'.
  destruct (reencode_cases w d input_path fps width height)
    as [[Hl Hd]|[(Hl & _ & Hd)|(content & _ & _ & Hd)]];
    fold temp_path d' in Hd; rewrite Hd.
  - split; [reflexivity|]. split; [auto|]. intros H. contradiction.
  - split; [intros path _ Ht; by rewrite lookup_delete_ne|].
    split; [intros Hne; by rewrite lookup_delete_ne|].
    intros _ _. apply lookup_delete_eq.
  - split.
    + intros path Hi Ht. rewrite lookup_insert_ne by auto.
      by rewrite lookup_delete_ne.
    + split; [intros _ _; rewrite lookup_insert_eq; eauto|].
      intros _ Hne. rewrite lookup_insert_ne by auto. apply lookup_delete_eq.
Qed.

Lemma reencode_touches_two_paths_only_witness :
  (_reencode_to_h264 ffmpeg_exits_1 (<["other.bin" := "x"]> raw_disk) "out.mp4"
     10 1920 1080).2 !! "other.bin" = Some "x".
Proof.
  rewrite (proj1 (reencode_touches_two_paths_only ffmpeg_exits_1
                    (<["other.bin" := "x"]> raw_disk) "out.mp4" 10 1920 1080)
             "other.bin"); [reflexivity | discriminate | vm_compute; discriminate].
Defined.

(** X15: when the temporary path equals the input path, the import succeeded
    and the pass does not succeed, [_reencode_to_h264] returns the input
    path and no file is left there. *)
Theorem reencode_deletes_an_input_without_mp4 (w : World) (d : Disk)
    (input_path : string) (fps width height : Z) :
  h264_temp_path input_path = input_path ->
  ffmpeg_lookup w <> ImportFails ->
  transcoded w d input_path = None ->
  let r := _reencode_to_h264 w d input_path fps width height in
  r.1 = Returns input_path /\ r.2 !! input_path = None.
Proof.
  intros Ht Hl Hn r. split; [apply reencode_returns|].
  destruct (reencode_cases w d input_path fps width height)
    as [[Hl' _]|[(_ & _ & Hd)|(content & Hc & _)]].
  - contradiction.
  - subst r. rewrite Hd, Ht. apply lookup_delete_eq.
  - congruence.
Qed.

Lemma reencode_deletes_an_input_without_mp4_witness :
  (_reencode_to_h264 ffmpeg_exits_1 {[ "out.avi" := "raw" ]} "out.avi"
     10 1920 1080).2 !! "out.avi" = None.
Proof.
  refine (proj2 (reencode_deletes_an_input_without_mp4 ffmpeg_exits_1
            {[ "out.avi" := "raw" ]} "out.avi" 10 1920 1080 _ _ _)).
  - reflexivity.
  - discriminate.
  - reflexivity.
Defined.

(** ** The output file after the job *)

Lemma negotiate_chosen_path w options output_path fps width height c tried :
  negotiate w options output_path fps width height = (Some c, tried) ->
  exists codec_name, c = (codec_name, candidate_path codec_name output_path).
Proof.
  revert tried. induction options as [|[codec_name fourcc] rest IH]; intros tried H;
    simpl in H; [discriminate|].
  destruct (negotiate w rest output_path fps width height) as [chosen tr].
  destruct (VideoWriter w _ fourcc fps (width, height)) as [|[|]].
  - injection H as -> _. eapply IH. reflexivity.
  - injection H as <- _. eauto.
  - injection H as -> _. eapply IH. reflexivity.
Qed.

Lemma open_writer_true_path w fps width height output_path path tried :
  open_writer w fps width height output_path = (Returns (true, path), tried) ->
  exists p, path = Some p /\ p <> "".
Proof.
  unfold open_writer. intros H.
  destruct output_path as [orig|]; [|discriminate].
  destruct (truthy (Some orig)) eqn:Ht; [|discriminate].
  destruct (negotiate w fourcc_options orig fps width height)
    as [[[codec temp]|] tr] eqn:Hn; [|discriminate].
  injection H as <- _.
  apply negotiate_chosen_path in Hn as [name [= _ ->]].
  exists (candidate_path name orig). split; [reflexivity|].
  intros E. apply (f_equal String.length) in E.
  assert (String.length (candidate_path name orig) = String.length orig) as Hl.
  { unfold candidate_path. destruct (_ && _); [|reflexivity].
    unfold Py.replace. apply replace_go_same_length. reflexivity. }
  rewrite Hl in E. simpl in Ht. destruct orig; [discriminate | discriminate].
Qed.

Lemma finish_keeps_the_output w p fps width height :
  exists_ (finish w p fps width height).2 p = exists_ (disk_after_release w) p.
Proof.
  unfold finish. destruct (exists_ (disk_after_release w) p) eqn:Hex; [|exact Hex].
  destruct (Py.endswith p ".mp4") eqn:Hmp4; [|exact Hex].
  pose proof (reencode_cases w (disk_after_release w) p fps width height) as Hc.
  destruct (_reencode_to_h264 w (disk_after_release w) p fps width height)
    as [r d'] eqn:Hr.
  cbn [snd] in *. rewrite !exists_lookup in *.
  destruct Hc as [[_ ->]|[(_ & _ & ->)|(content & _ & _ & ->)]].
  - exact Hex.
  - rewrite lookup_delete_ne; [exact Hex|]. apply h264_temp_path_fresh. exact Hmp4.
  - rewrite lookup_insert_eq. reflexivity.
Qed.

(** X16: in a job with an open writer in which nothing raises, ['output_video']
    is the negotiated path, and the file is at that path at the end, and
    ['output_exists'] is true, exactly when it was there when the writer
    was released. *)
Theorem transcoding_never_loses_the_output (w : World) (video_path : string)
    (output_path : option string) (frame_interval : Z) (conf_threshold : Q)
    (path : option string) (tried : list (string * string)) :
  let cap := VideoCapture w video_path in
  let fps := Py.int (CAP_PROP_FPS cap) in
  let width := Py.int (CAP_PROP_FRAME_WIDTH cap) in
  let height := Py.int (CAP_PROP_FRAME_HEIGHT cap) in
  let job := process_video w video_path output_path frame_interval
               conf_threshold in
  1 <= frame_interval ->
  cap_isOpened cap = true ->
  open_writer w fps width height output_path = (Returns (true, path), tried) ->
  (frame_interval <= Z.of_nat (length (cap_frames cap)) -> fps <> 0) ->
  quiet w (length (cap_frames cap)) ->
  exists p r,
    path = Some p
    /\ job.1 = JobOk r
    /\ output_video r = Some p
    /\ output_exists r = exists_ (disk_after_release w) p
    /\ exists_ (disk job.2) p = exists_ (disk_after_release w) p.
Proof.
  intros cap fps width height job Hi Hcap Hopen Hfps Hq.
  destruct (open_writer_true_path _ _ _ _ _ _ _ Hopen) as (p & -> & Hp).
  destruct (job_clean w video_path output_path frame_interval conf_threshold Hi
              true (Some p) tried Hcap Hopen Hfps (fun _ => Hq))
    as (calls & d & _ & Hal).
  fold cap fps width height job in Hal.
  rewrite after_loop_with_writer in Hal.
  exists p. eexists. split; [reflexivity|].
  rewrite <- Hal. cbn [fst snd disk]. split; [reflexivity|].
  rewrite summarize_final. cbn [output_video output_exists].
  split; [reflexivity|].
  rewrite (truthy_Some _ Hp). simpl andb.
  split; apply finish_keeps_the_output.
Qed.

Lemma transcoding_never_loses_the_output_witness :
  exists r,
    (process_video ffmpeg_exits_1 "in.mp4" (Some "out.mp4") 1 (1 # 4)).1 = JobOk r
    /\ output_exists r = true.
Proof.
  destruct (transcoding_never_loses_the_output ffmpeg_exits_1 "in.mp4"
              (Some "out.mp4") 1 (1 # 4) (Some "out.mp4") [("mp4v", "out.mp4")])
    as (p & r & Hp & Hr & _ & He & _).
  - lia.
  - reflexivity.
  - reflexivity.
  - intros _. vm_compute. discriminate.
  - intros k _. reflexivity.
  - exists r. split; [exact Hr|]. rewrite He. injection Hp as <-. reflexivity.
Defined.

(** * The HTTP layer *)

(** ** [rsplit], [lower] and [allowed_file] *)

Section ApiStrings.
Local Open Scope nat_scope.
Local Arguments String.append !_ _ / : simpl nomatch.

Lemma rsplit1_absent c s : Str.contains c s = false -> Str.rsplit1 c s = [s].
Proof.
  induction s as [|a s IH]; [reflexivity|]. simpl. intros H.
  apply orb_false_iff in H as [Ha Hs]. rewrite (IH Hs), Ha. reflexivity.
Qed.

Lemma rsplit1_app c before after :
  Str.contains c after = false ->
  Str.rsplit1 c (before +:+ String c after) = [before; after].
Proof.
  intros H. induction before as [|a before IH]; simpl.
  - rewrite (rsplit1_absent _ _ H), Ascii.eqb_refl. reflexivity.
  - rewrite IH. reflexivity.
Qed.

Lemma contains_app c s t :
  Str.contains c (s +:+ t) = Str.contains c s || Str.contains c t.
Proof.
  induction s as [|a s IH]; simpl; [reflexivity|].
  rewrite IH, orb_assoc. reflexivity.
Qed.

(** A string either lacks [c], or splits at its last [c]. *)
Lemma rsplit1_cases c s :
  (Str.contains c s = false /\ Str.rsplit1 c s = [s])
  \/ (exists before after,
        s = before +:+ String c after
        /\ Str.contains c after = false
        /\ Str.contains c s = true
        /\ Str.rsplit1 c s = [before; after]).
Proof.
  induction s as [|a s IH]; [left; split; reflexivity|].
  destruct IH as [[Hn Hr]|(before & after & -> & Hafter & Hs & Hr)].
  - destruct (Ascii.eqb_spec a c) as [->|Hac].
    + right. exists "", s. simpl. rewrite Ascii.eqb_refl, Hr. auto.
    + left. simpl. rewrite Hn, Hr.
      destruct (Ascii.eqb_spec a c); [contradiction|]. auto.
  - right. exists (String a before), after. simpl.
    rewrite Hs, Hr, orb_true_r. auto.
Qed.

Lemma lower_app s t : Str.lower (s +:+ t) = Str.lower s +:+ Str.lower t.
Proof. induction s as [|a s IH]; simpl; [reflexivity | rewrite IH; reflexivity]. Qed.

Lemma allowed_extension_cases (ext : string) :
  ext ∈ ALLOWED_EXTENSIONS ->
  ext = "png" \/ ext = "jpg" \/ ext = "jpeg" \/ ext = "gif"
  \/ ext = "mp4" \/ ext = "avi" \/ ext = "mov" \/ ext = "mkv".
Proof.
  unfold ALLOWED_EXTENSIONS. rewrite !elem_of_union, !elem_of_singleton. tauto.
Qed.

Lemma allowed_file_split stem ext :
  Str.contains "." ext = false ->
  allowed_file (stem +:+ String "." ext)
  = bool_decide (Str.lower ext ∈ ALLOWED_EXTENSIONS).
Proof.
  intros H. unfold allowed_file.
  rewrite (rsplit1_app _ _ _ H), contains_app. simpl.
  rewrite orb_true_r. reflexivity.
Qed.

Lemma allowed_file_inv filename :
  allowed_file filename = true ->
  exists stem ext,
    filename = stem +:+ String "." ext
    /\ Str.contains "." ext = false
    /\ Str.lower ext ∈ ALLOWED_EXTENSIONS.
Proof.
  unfold allowed_file. intros H. apply andb_true_iff in H as [Hc Hm].
  destruct (rsplit1_cases "." filename)
    as [[Hn _]|(stem & ext & -> & Hext & _ & Hr)]; [congruence|].
  rewrite Hr in Hm. simpl in Hm. apply bool_decide_eq_true in Hm.
  exists stem, ext. auto.
Qed.

(** Two suffixes of the same length at the end of one string are equal. *)
Lemma append_suffix_inj s t u v :
  String.length u = String.length v -> s +:+ u = t +:+ v -> u = v.
Proof.
  revert t. induction s as [|a s IH]; intros t Hlen H.
  - destruct t as [|b t]; [exact H|]. simpl in H.
    apply (f_equal String.length) in H. simpl in H.
    rewrite length_append in H. lia.
  - destruct t as [|b t].
    + simpl in H. apply (f_equal String.length) in H. simpl in H.
      rewrite length_append in H. lia.
    + simpl in H. injection H as _ H. exact (IH t Hlen H).
Qed.

Lemma endswith_other s u v :
  String.length u = String.length v -> u <> v ->
  Py.endswith (s +:+ u) v = false.
Proof.
  intros Hlen Hne. destruct (Py.endswith (s +:+ u) v) eqn:E; [|reflexivity].
  apply endswith_inv in E as [t E].
  apply append_suffix_inj in E; [contradiction | exact Hlen].
Qed.

End ApiStrings.

(** X17: [allowed_file] answers true exactly for the names [stem + '.' + ext]
    whose [ext] has no dot and is, in lower case, one of the allowed
    extensions. *)
Theorem allowed_file_reads_the_last_extension (filename : string) :
  allowed_file filename = true
  <-> exists stem ext,
        filename = stem +:+ "." +:+ ext
        /\ Str.contains "." ext = false
        /\ Str.lower ext ∈ ALLOWED_EXTENSIONS.
Proof.
  split.
  - apply allowed_file_inv.
  - intros (stem & ext & -> & Hext & Hin).
    change (stem +:+ "." +:+ ext) with (stem +:+ String "." ext).
    rewrite (allowed_file_split _ _ Hext). apply bool_decide_eq_true. exact Hin.
Qed.

(** ** [get_file] and the names [allowed_file] accepts *)

Section ContentType.
Local Open Scope nat_scope.
Local Arguments String.append !_ _ / : simpl nomatch.

Lemma append_eq_suffix s : forall t u v,
  s +:+ u = t +:+ v -> String.length v <= String.length u ->
  exists r, u = r +:+ v.
Proof.
  induction s as [|a s IH]; intros t u v H Hlen.
  - exists t. exact H.
  - destruct t as [|b t].
    + simpl in H. apply (f_equal String.length) in H. simpl in H.
      rewrite length_append in H. lia.
    + simpl in H. injection H as _ H. exact (IH t u v H Hlen).
Qed.

Lemma endswith_app_true s u v :
  Py.endswith u v = true -> Py.endswith (s +:+ u) v = true.
Proof.
  intros H. apply endswith_inv in H as [t ->].
  rewrite <- append_assoc. apply endswith_app.
Qed.

Lemma endswith_app_false s u v :
  Py.endswith u v = false -> Py.endswith v u = false ->
  Py.endswith (s +:+ u) v = false.
Proof.
  intros Huv Hvu. destruct (Py.endswith (s +:+ u) v) eqn:E; [|reflexivity].
  apply endswith_inv in E as [t E].
  destruct (Nat.le_gt_cases (String.length v) (String.length u)) as [Hle|Hgt].
  - destruct (append_eq_suffix _ _ _ _ E Hle) as [r ->].
    rewrite endswith_app in Huv. discriminate.
  - symmetry in E. destruct (append_eq_suffix _ _ _ _ E ltac:(lia)) as [r ->].
    rewrite endswith_app in Hvu. discriminate.
Qed.

(** [get_file] on a name ending in a dot and a lower-case extension. *)
Lemma get_file_extension (d : Disk) (stem ext : string) mimetype :
  let filename := stem +:+ String "." ext in
  let file_path := OsPath.join3 "uploads" "processed" filename in
  exists_ d file_path = true ->
  Str.contains "." ext = false ->
  (Str.lower ext, mimetype)
    ∈ [("mp4", "video/mp4"); ("avi", "video/mp4"); ("mov", "video/mp4");
       ("mkv", "video/mp4"); ("jpg", "image/jpeg"); ("jpeg", "image/jpeg");
       ("png", "image/png"); ("gif", "image/gif")] ->
  get_file d filename = SendFile file_path (Some mimetype).
Proof.
  intros filename file_path Hd Hext Hin. unfold get_file. fold file_path.
  rewrite Hd. subst filename. rewrite lower_app.
  change (Str.lower (String "." ext)) with (String "."%char (Str.lower ext)).
  unfold endswith_any. cbn [existsb].
  repeat (apply elem_of_cons in Hin as [Hin|Hin];
          [injection Hin as -> ->;
           repeat first
             [ rewrite (endswith_app_true (Str.lower stem)) by reflexivity
             | rewrite (endswith_app_false (Str.lower stem)) by reflexivity ];
           reflexivity|]).
  apply elem_of_nil in Hin. contradiction.
Qed.

End ContentType.

(** X18: a name accepted by [allowed_file] whose file is under
    [uploads/processed] is served by [get_file] with one of the four content
    types it sets itself, and with [video/mp4] when the name ends in
    [.avi], [.mov] or [.mkv] in any case. *)
Theorem accepted_names_are_served_with_a_content_type (d : Disk)
    (filename : string) :
  let file_path := OsPath.join3 "uploads" "processed" filename in
  allowed_file filename = true ->
  exists_ d file_path = true ->
  exists mimetype,
    get_file d filename = SendFile file_path (Some mimetype)
    /\ (mimetype = "video/mp4" \/ mimetype = "image/jpeg"
        \/ mimetype = "image/png" \/ mimetype = "image/gif")
    /\ (Py.endswith (Str.lower filename) ".avi" = true
        \/ Py.endswith (Str.lower filename) ".mov" = true
        \/ Py.endswith (Str.lower filename) ".mkv" = true ->
        mimetype = "video/mp4").
Proof.
  intros file_path Ha Hd.
  destruct (allowed_file_inv _ Ha) as (stem & ext & -> & Hext & Hin).
  apply allowed_extension_cases in Hin.
  assert (exists mimetype,
            get_file d (stem +:+ String "." ext) = SendFile file_path (Some mimetype)
            /\ (mimetype = "video/mp4" \/ mimetype = "image/jpeg"
                \/ mimetype = "image/png" \/ mimetype = "image/gif")) as (m & Hm & Hcases).
  { destruct Hin as [E|[E|[E|[E|[E|[E|[E|E]]]]]]];
      [ exists "image/png" | exists "image/jpeg" | exists "image/jpeg"
      | exists "image/gif" | exists "video/mp4" | exists "video/mp4"
      | exists "video/mp4" | exists "video/mp4" ];
      (split; [apply (get_file_extension d stem ext); [exact Hd | exact Hext|];
               rewrite E, !elem_of_cons;
               repeat first [left; reflexivity | right]
              | auto 6]). }
  exists m. split; [exact Hm|]. split; [exact Hcases|].
  intros Hv. unfold get_file in Hm. fold file_path in Hm. rewrite Hd in Hm.
  unfold endswith_any in Hm. cbn [existsb] in Hm.
  assert (Py.endswith (Str.lower (stem +:+ String "." ext)) ".mp4"
          || (Py.endswith (Str.lower (stem +:+ String "." ext)) ".avi"
              || (Py.endswith (Str.lower (stem +:+ String "." ext)) ".mov"
                  || (Py.endswith (Str.lower (stem +:+ String "." ext)) ".mkv" || false)))
          = true) as Hor.
  { destruct Hv as [ -> | [ -> | -> ] ]; rewrite ?orb_true_r; reflexivity. }
  rewrite Hor in Hm. congruence.
Qed.

Lemma accepted_names_are_served_with_a_content_type_witness :
  exists mimetype,
    get_file {[ "uploads/processed/Clip.AVI" := "frames" ]} "Clip.AVI"
    = SendFile "uploads/processed/Clip.AVI" (Some mimetype)
    /\ mimetype = "video/mp4".
Proof.
  destruct (accepted_names_are_served_with_a_content_type
              {[ "uploads/processed/Clip.AVI" := "frames" ]} "Clip.AVI"
              ltac:(vm_compute; reflexivity) ltac:(vm_compute; reflexivity))
    as (m & Hm & _ & Hv).
  exists m. split; [exact Hm|]. apply Hv. left. vm_compute. reflexivity.
Defined.

(** ** Heat level, zone status and the alert rule *)

Ltac qle_cases :=
  repeat match goal with
  | |- context [Qle_bool ?a ?b] =>
      let E := fresh "E" in
      destruct (Qle_bool a b) eqn:E;
      [ apply Qle_bool_iff in E
      | apply not_true_iff_false in E; rewrite Qle_bool_iff in E;
        apply Qnot_le_lt in E ]
  end.

(** X19: for any thresholds of the zone, a density that is not smaller gets a
    heat level that is not lower, in the order empty, low, med, high, crit. *)
Theorem heat_level_is_monotone (zone : Zone) (d1 d2 : Q) :
  (d1 <= d2)%Q ->
  heat_rank (heat_level zone d1) <= heat_rank (heat_level zone d2).
Proof.
  intros H. unfold heat_level. qle_cases; simpl; try lia; exfalso; lra.
Qed.

Lemma heat_level_is_monotone_witness :
  heat_rank (heat_level main_hall 45) <= heat_rank (heat_level main_hall 61).
Proof. apply heat_level_is_monotone. lra. Defined.

Lemma alerts_for_cases (s : Server) (zone_id : option Z) (density : Q)
    (a : AlertRow) :
  a ∈ alerts_for s zone_id density ->
  exists zone,
    zone_id = Some (alert_zone_id a)
    /\ alert_zone_id a <> 0
    /\ Zone_query_get s (alert_zone_id a) = Some zone
    /\ (threshold_critical zone * 100 <= density)%Q
    /\ alerts_for s zone_id density = [a]
    /\ a = mkAlertRow (alert_zone_id a) (zone_name zone) density.
Proof.
  unfold alerts_for.
  destruct zone_id as [id|]; [|intros H; apply elem_of_nil in H; contradiction].
  destruct (Z.eqb_spec id 0) as [|Hid];
    [intros H; apply elem_of_nil in H; contradiction|].
  destruct (Zone_query_get s id) as [zone|] eqn:Hz;
    [|intros H; apply elem_of_nil in H; contradiction].
  destruct (Qle_bool (threshold_critical zone * 100) density) eqn:Hq;
    [|intros H; apply elem_of_nil in H; contradiction].
  intros H. apply list_elem_of_singleton in H. subst a. cbn [alert_zone_id].
  exists zone. apply Qle_bool_iff in Hq. auto 7.
Qed.

(** X20: for a zone found under a non-zero id and any density, the three
    places that compare the density with the zone's thresholds agree: the
    zone status is Critical exactly when the heat level is crit, which is
    exactly when the alert rule of [upload_image] gives its one alert (and
    it gives none otherwise); the status is Warning exactly when the level
    is high, and Normal exactly when the level is med, low or empty. *)
Theorem critical_means_the_same_in_every_endpoint (s : Server) (zone : Zone)
    (id : Z) (density : Q) :
  id <> 0 ->
  Zone_query_get s id = Some zone ->
  (zone_status zone density = Critical <-> heat_level zone density = Crit)
  /\ (zone_status zone density = Warning <-> heat_level zone density = High)
  /\ (zone_status zone density = Normal
      <-> heat_rank (heat_level zone density) <= 2)
  /\ (alerts_for s (Some id) density = [mkAlertRow id (zone_name zone) density]
      <-> heat_level zone density = Crit)
  /\ (alerts_for s (Some id) density = [] <-> heat_level zone density <> Crit).
Proof.
  intros Hid Hz. unfold alerts_for, heat_level, zone_status.
  destruct (Z.eqb_spec id 0) as [|_]; [contradiction|]. rewrite Hz.
  destruct (Qle_bool (threshold_critical zone * 100) density);
    [|destruct (Qle_bool (threshold_warning zone * 100) density);
      [|destruct (Qle_bool 30 density); [|destruct (negb (Qle_bool density 0))]]];
    cbn [heat_rank];
    repeat split; intros; try congruence; try discriminate; try lia; auto.
Qed.

Lemma critical_means_the_same_in_every_endpoint_witness :
  alerts_for crowded_hall (Some 1) 85 = [mkAlertRow 1 "Main Hall" 85]
  <-> heat_level main_hall 85 = Crit.
Proof.
  exact (proj1 (proj2 (proj2 (proj2
           (critical_means_the_same_in_every_endpoint crowded_hall main_hall 1 85
              ltac:(lia) ltac:(reflexivity)))))).
Defined.

(** ** [upload_image] *)

Lemma detect_persons_density_bounds imread model image_path conf_threshold :
  (0 <= density_percentage (detect_persons imread model image_path conf_threshold)
   <= 100)%Q.
Proof.
  unfold detect_persons.
  destruct (imread image_path) as [image|]; [|simpl; lra].
  destruct (model image conf_threshold) as [|results]; [simpl; lra|].
  pose proof (frame_area_nonneg image) as Ha.
  destruct (Z.eqb_spec (frame_area image) 0) as [E|NE]; [simpl; lra|].
  cbn [density_percentage].
  apply round2_bounds.
  apply (density_estimate_bounds (count_persons results) (frame_area image));
    [apply count_persons_nonneg | lia].
Qed.

(** X21: an alert stored by [upload_image] comes with a reply 200, a non-zero
    zone id of the request that names an existing zone, exactly one alert
    and one detection row for that zone, and a density between
    [threshold_critical * 100] and 100; the zone's critical threshold is
    then at most 1. *)
Theorem image_alert_needs_a_critical_density (s : Server) (req : Upload)
    (a : AlertRow) :
  a ∈ alerts_added (upload_image s req).2 ->
  exists zone body,
    (upload_image s req).1 = Ok200 body
    /\ form_zone_id req = Some (alert_zone_id a)
    /\ alert_zone_id a <> 0
    /\ Zone_query_get s (alert_zone_id a) = Some zone
    /\ alert_zone_name a = zone_name zone
    /\ alert_density a = body_density_percentage body
    /\ (threshold_critical zone * 100 <= alert_density a <= 100)%Q
    /\ (threshold_critical zone <= 1)%Q
    /\ alerts_added (upload_image s req).2 = [a]
    /\ detections_added (upload_image s req).2 = [image_detection_row body]
    /\ row_zone_id (image_detection_row body) = Some (alert_zone_id a)
    /\ row_density_percentage (image_detection_row body) = alert_density a.
Proof.
  unfold upload_image.
  destruct (upload_filename req) as [name|];
    [|intros H; apply elem_of_nil in H; contradiction].
  destruct (String.eqb name ""); [intros H; apply elem_of_nil in H; contradiction|].
  destruct (negb (allowed_file name));
    [intros H; apply elem_of_nil in H; contradiction|].
  destruct (save_raises s); [intros H; apply elem_of_nil in H; contradiction|].
  set (filepath := OsPath.join3 "uploads" "images" _).
  pose proof (detect_persons_density_bounds (imread s) (model (world s)) filepath (1 # 4))
    as Hb.
  set (result := detect_persons (imread s) (model (world s)) filepath (1 # 4)) in *.
  destruct (has_error result); [intros H; apply elem_of_nil in H; contradiction|].
  destruct (annotated_frame result) as [image|];
    (destruct (commit_raises s);
     [intros H; apply elem_of_nil in H; contradiction|]);
    cbn [fst snd alerts_added detections_added]; intros H;
    destruct (alerts_for_cases _ _ _ _ H) as (zone & Hz & Hid & Hq & Hc & Hone & Ha);
    exists zone; eexists; (split; [reflexivity|]);
    cbn [image_detection_row body_density_percentage row_zone_id
         row_density_percentage];
    rewrite Ha; cbn [alert_zone_id alert_zone_name alert_density];
    rewrite Ha in Hz, Hid, Hq, Hone; cbn [alert_zone_id] in Hz, Hid, Hq, Hone;
    repeat split; try assumption; try reflexivity; try lra.
Qed.

Lemma image_alert_needs_a_critical_density_witness :
  exists zone,
    Zone_query_get crowded_hall 1 = Some zone
    /\ (threshold_critical zone <= 1)%Q.
Proof.
  destruct (image_alert_needs_a_critical_density crowded_hall
              (mkUpload (Some "hall.jpg") (Some 1) None)
              (mkAlertRow 1 "Main Hall" (10000 # 100)))
    as (zone & body & _ & _ & _ & Hz & _ & _ & _ & Hle & _).
  { vm_compute. apply list_elem_of_here. }
  exists zone. split; [exact Hz | exact Hle].
Defined.

(** ** [upload_video] *)

Lemma int_truncates (q : Q) :
  (0 <= q)%Q ->
  0 <= Py.int q
  /\ (inject_Z (Py.int q) <= q)%Q
  /\ (q < inject_Z (Py.int q) + 1)%Q.
Proof.
  intros H.
  assert (Py.int q = Qfloor q) as ->.
  { destruct q as [n d]. unfold Py.int, Qfloor. cbn [Qnum Qden].
    apply Z.quot_div_nonneg; [|lia].
    unfold Qle in H. simpl in H. lia. }
  split.
  - change 0 with (Qfloor 0). apply Qfloor_resp_le. exact H.
  - split; [apply Qfloor_le|].
    pose proof (Qlt_floor q) as L. rewrite inject_Z_plus in L. exact L.
Qed.

(** What a returned summary says, whatever the world did. *)
Lemma job_ok_summary (w : World) (video_path : string)
    (output_path : option string) (frame_interval : Z) (conf_threshold : Q)
    (r : JobDict) :
  let job := process_video w video_path output_path frame_interval conf_threshold in
  1 <= frame_interval ->
  job.1 = JobOk r ->
  processed_frames r
  = Z.of_nat (length (cap_frames (VideoCapture w video_path))) / frame_interval
  /\ (0 <= average_density r <= 100)%Q
  /\ (0 <= average_person_count r)%Q
  /\ output_exists r
     = match output_video r with
       | Some p => truthy (output_video r) && exists_ (disk job.2) p
       | None => false
       end.
Proof.
  intros job Hi Hr.
  destruct (job_ok_inv w video_path output_path frame_interval conf_threshold Hi
              r Hr) as (out & path & tried & calls & d & _ & _ & Hjob).
  subst job. rewrite Hjob in Hr |- *. simpl in Hr. injection Hr as <-.
  rewrite summarize_final.
  cbn [average_density average_person_count processed_frames output_exists
       output_video snd disk].
  set (fps := Py.int (CAP_PROP_FPS (VideoCapture w video_path))).
  set (frames := cap_frames (VideoCapture w video_path)).
  set (all := anchor_results (model w) fps frame_interval conf_threshold frames).
  assert (Forall (fun e => (0 <= density_percentage (result e) <= 100)%Q
                           /\ 0 <= person_count (result e)) all) as HF.
  { apply Forall_lookup. intros j e He.
    destruct (anchor_results_lookup w fps frame_interval conf_threshold Hi
                frames j e He) as (_ & frame & _ & Hre).
    destruct (process_video_frame_contract (model w) frame conf_threshold)
      as [(_ & Hb & _) Hp].
    rewrite Hre. cbn [result anchor_result]. auto. }
  split; [apply (length_anchor_results w fps frame_interval conf_threshold Hi frames)|].
  split; [apply round2_bounds, mean_density_bounds;
          eapply Forall_impl; [exact HF | intros e [A _]; exact A]|].
  split; [apply round2_nonneg, mean_person_count_nonneg;
          eapply Forall_impl; [exact HF | intros e [_ B]; exact B]|].
  reflexivity.
Qed.

(** X22: for an upload whose video yields fewer than 5 frames, [upload_video]
    answers with an error and stores nothing; when the upload is acceptable
    and saved, the video opens, the writer set-up succeeds and no write
    raises, the error is 500 with 'No frames were processed from the
    video'. *)
Theorem short_video_is_never_accepted (s : Server) (req : Upload)
    (name : string) :
  let w := world s in
  let cap := VideoCapture w (video_filepath s name) in
  let fps := Py.int (CAP_PROP_FPS cap) in
  let width := Py.int (CAP_PROP_FRAME_WIDTH cap) in
  let height := Py.int (CAP_PROP_FRAME_HEIGHT cap) in
  upload_filename req = Some name ->
  (length (cap_frames cap) < 5)%nat ->
  (exists status message, upload_video s req = (Error status message, nothing))
  /\ (forall out path tried,
        name <> "" -> allowed_file name = true -> save_raises s = false ->
        cap_isOpened cap = true ->
        open_writer w fps width height (Some (video_output_path s name))
        = (Returns (out, path), tried) ->
        quiet w (length (cap_frames cap)) ->
        upload_video s req = (Error 500 NoFramesProcessed, nothing)).
Proof.
  intros w cap fps width height Hname Hshort.
  assert (forall r,
            (process_video w (video_filepath s name)
               (Some (video_output_path s name)) 5 (1 # 4)).1 = JobOk r ->
            processed_frames r = 0) as Hzero.
  { intros r Hr.
    destruct (job_ok_summary w _ _ 5 (1 # 4) r ltac:(lia) Hr) as (Hp & _).
    rewrite Hp. fold cap. apply Z.div_small. lia. }
  split.
  - unfold upload_video. rewrite Hname.
    destruct (String.eqb name ""); [eauto|].
    destruct (negb (allowed_file name)); [eauto|].
    destruct (save_raises s); [eauto|].
    fold w.
    destruct ((process_video w (video_filepath s name)
                 (Some (video_output_path s name)) 5 (1 # 4)).1) as [r|e] eqn:Hjob;
      [|eauto].
    rewrite (Hzero r eq_refl). simpl. eauto.
  - intros out path tried Hne Hok Hsave Hcap Hopen Hq.
    destruct (job_clean w (video_filepath s name) (Some (video_output_path s name))
                5 (1 # 4) ltac:(lia) out path tried Hcap Hopen)
      as (calls & d & Hjob & _).
    { fold cap. lia. }
    { intros _. exact Hq. }
    unfold upload_video. rewrite Hname.
    destruct (String.eqb_spec name "") as [|_]; [contradiction|].
    rewrite Hok, Hsave. cbn [negb]. fold w.
    assert ((process_video w (video_filepath s name)
               (Some (video_output_path s name)) 5 (1 # 4)).1
            = JobOk (summarize cap
                       (final_state (model w) fps 5 (1 # 4) out (cap_frames cap))
                       path d)) as Hr by (rewrite Hjob; reflexivity).
    rewrite Hr, (Hzero _ Hr). reflexivity.
Qed.

Lemma short_video_is_never_accepted_witness :
  upload_video (server (studio 4)) (mkUpload (Some "in.mp4") None None)
  = (Error 500 NoFramesProcessed, nothing).
Proof.
  refine (proj2 (short_video_is_never_accepted (server (studio 4))
                   (mkUpload (Some "in.mp4") None None) "in.mp4" eq_refl _)
            true (Some "uploads/processed/processed_20240101_120000_in.mp4")
            [("mp4v", "uploads/processed/processed_20240101_120000_in.mp4")]
            _ _ _ _ _ _).
  - vm_compute. lia.
  - discriminate.
  - vm_compute. reflexivity.
  - reflexivity.
  - reflexivity.
  - vm_compute. reflexivity.
  - intros k _. reflexivity.
Defined.

(** X23: a reply 200 of [upload_video] means: the name was accepted, the video
    yielded [N >= 5] frames and [processed_frames = floor(N / 5)]; one
    detection row and nothing else is stored; the row holds the path of the
    upload, the reported average density, which lies in [0, 100], and the
    reported average count truncated to an integer; and without an output
    file the reply has no URL and the row no processed path. *)
Theorem accepted_video_summary (s : Server) (req : Upload) (body : VideoBody)
    (eff : Effects) :
  upload_video s req = (Ok200 body, eff) ->
  exists name,
    let N := Z.of_nat (length (cap_frames
                (VideoCapture (world s) (video_filepath s name)))) in
    let row := video_detection_row body in
    upload_filename req = Some name
    /\ allowed_file name = true
    /\ 5 <= N
    /\ body_processed_frames body = N / 5
    /\ eff = mkEffects [row] [] []
    /\ row_video_path row = Some (video_filepath s name)
    /\ row_density_percentage row = body_average_density body
    /\ (0 <= body_average_density body <= 100)%Q
    /\ row_person_count row = Py.int (body_average_person_count body)
    /\ 0 <= row_person_count row
    /\ (inject_Z (row_person_count row) <= body_average_person_count body
        < inject_Z (row_person_count row) + 1)%Q
    /\ (output_file_exists body = false ->
        processed_video_url body = None
        /\ row_processed_image_path row = None).
Proof.
  unfold upload_video.
  destruct (upload_filename req) as [name|]; [|discriminate].
  destruct (String.eqb name ""); [discriminate|].
  destruct (allowed_file name) eqn:Hok; [|discriminate]. cbn [negb].
  destruct (save_raises s); [discriminate|].
  destruct ((process_video (world s) (video_filepath s name)
               (Some (video_output_path s name)) 5 (1 # 4)).1) as [r|e] eqn:Hjob;
    [|discriminate].
  destruct (job_ok_summary (world s) _ _ 5 (1 # 4) r ltac:(lia) Hjob)
    as (Hp & Hd & Hc & _).
  destruct (Z.eqb_spec (processed_frames r) 0) as [|Hnz]; [discriminate|].
  destruct (commit_raises s); [discriminate|].
  intros H. injection H as <- <-. exists name.
  cbn [video_detection_row body_processed_frames body_average_density
       body_average_person_count row_video_path row_density_percentage
       row_person_count output_file_exists processed_video_url
       row_processed_image_path].
  destruct (int_truncates _ Hc) as (I0 & I1 & I2).
  split; [reflexivity|]. split; [exact Hok|].
  split.
  { rewrite Hp in Hnz.
    destruct (Z_lt_le_dec
                (Z.of_nat (length (cap_frames
                   (VideoCapture (world s) (video_filepath s name))))) 5)
      as [Hlt|Hge]; [|exact Hge].
    rewrite Z.div_small in Hnz by lia. contradiction. }
  split; [exact Hp|].
  repeat (split; [first [reflexivity | assumption]|]).
  split; [split; assumption|].
  intros Hout. apply orb_false_iff in Hout as [H1 H2]. rewrite H1, H2.
  split; reflexivity.
Qed.

Lemma accepted_video_summary_witness :
  exists body eff,
    upload_video mjpg_server (mkUpload (Some "in.mp4") (Some 1) None)
    = (Ok200 body, eff)
    /\ eff = mkEffects [video_detection_row body] [] []
    /\ (0 <= body_average_density body <= 100)%Q.
Proof.
  assert (exists body eff,
            upload_video mjpg_server (mkUpload (Some "in.mp4") (Some 1) None)
            = (Ok200 body, eff)) as (body & eff & E)
    by (eexists; eexists; vm_compute; reflexivity).
  destruct (accepted_video_summary mjpg_server _ body eff E)
    as (name & _ & _ & _ & _ & Heff & _ & _ & Hd & _).
  exists body, eff. split; [exact E|]. split; [exact Heff | exact Hd].
Defined.

(** ** The URL of the processed video *)

Section ApiPaths.
Local Arguments String.append !_ _ / : simpl nomatch.

Lemma strip_slash_absent (x : string) :
  Str.contains "/" x = false -> Py.strip_prefix "/" x = None.
Proof.
  destruct x as [|a x]; [reflexivity|].
  cbn [Str.contains Py.strip_prefix]. intros H.
  apply orb_false_iff in H as [Ha _].
  rewrite Ascii.eqb_sym, Ha. reflexivity.
Qed.

(** Below [uploads/processed], a name without a slash is joined and split
    off again unchanged. *)
Lemma join3_processed (x : string) :
  Str.contains "/" x = false ->
  OsPath.join3 "uploads" "processed" x = "uploads/processed/" +:+ x
  /\ OsPath.basename (OsPath.join3 "uploads" "processed" x) = x.
Proof.
  intros H.
  assert (OsPath.join3 "uploads" "processed" x = "uploads/processed/" +:+ x) as E.
  { unfold OsPath.join3.
    change (OsPath.join "uploads" "processed") with "uploads/processed".
    unfold OsPath.join. rewrite (strip_slash_absent _ H). reflexivity. }
  split; [exact E|]. rewrite E. unfold OsPath.basename.
  change ("uploads/processed/" +:+ x) with ("uploads/processed" +:+ String "/" x).
  rewrite (rsplit1_app _ _ _ H). reflexivity.
Qed.

End ApiPaths.

(** X24: when the job reports an existing output file but no file is at the
    path [upload_video] asked for, the job wrote under another path; the
    reply is 200 with ['output_file_exists'] true and a URL and file name
    made from the path asked for, the stored row has no processed path, and
    [get_file] answers that name with 404. *)
Theorem video_url_may_name_a_missing_file (s : Server) (req : Upload)
    (name : string) (r : JobDict) :
  let output_path := video_output_path s name in
  let job := process_video (world s) (video_filepath s name) (Some output_path)
                           5 (1 # 4) in
  let served := "processed_" +:+ upload_timestamp s +:+ "_" +:+ secure_filename s name in
  upload_filename req = Some name ->
  name <> "" ->
  allowed_file name = true ->
  save_raises s = false ->
  commit_raises s = false ->
  Str.contains "/" served = false ->
  job.1 = JobOk r ->
  processed_frames r <> 0 ->
  output_exists r = true ->
  exists_ (disk job.2) output_path = false ->
  exists body written,
    (upload_video s req).1 = Ok200 body
    /\ output_video r = Some written
    /\ written <> output_path
    /\ exists_ (disk job.2) written = true
    /\ output_file_exists body = true
    /\ processed_video_url body = Some ("/api/files/" +:+ served)
    /\ output_filename body = Some served
    /\ row_processed_image_path (video_detection_row body) = None
    /\ get_file (disk job.2) served = NotFound.
Proof.
  intros output_path job served Hname Hne Hok Hsave Hcommit Hslash Hr Hnz Hout Hmiss.
  destruct (join3_processed served Hslash) as [Hjoin Hbase].
  change (OsPath.join3 "uploads" "processed" served) with output_path in Hjoin, Hbase.
  destruct (job_ok_summary (world s) _ _ 5 (1 # 4) r ltac:(lia) Hr)
    as (_ & _ & _ & Hex).
  fold output_path job in Hex. rewrite Hout in Hex.
  destruct (output_video r) as [written|] eqn:Hw; [|discriminate].
  symmetry in Hex. apply andb_true_iff in Hex as [_ Hex].
  unfold upload_video. rewrite Hname.
  destruct (String.eqb_spec name "") as [|_]; [contradiction|].
  rewrite Hok, Hsave. cbn [negb]. fold output_path job. rewrite Hr.
  destruct (Z.eqb_spec (processed_frames r) 0) as [|_]; [contradiction|].
  rewrite Hcommit, Hout, Hmiss. cbn [orb fst]. rewrite Hbase.
  eexists. exists written.
  split; [reflexivity|]. split; [reflexivity|].
  split; [intros ->; congruence|]. split; [exact Hex|].
  cbn [output_file_exists processed_video_url output_filename video_detection_row
       row_processed_image_path].
  repeat (split; [reflexivity|]).
  unfold get_file.
  change (OsPath.join3 "uploads" "processed" served) with output_path.
  rewrite Hmiss. reflexivity.
Qed.

Lemma video_url_may_name_a_missing_file_witness :
  exists body,
    (upload_video mjpg_server (mkUpload (Some "in.mp4") (Some 1) None)).1
    = Ok200 body
    /\ processed_video_url body
       = Some "/api/files/processed_20240101_120000_in.mp4"
    /\ get_file
         (disk (process_video (world mjpg_server)
                  (video_filepath mjpg_server "in.mp4")
                  (Some (video_output_path mjpg_server "in.mp4")) 5 (1 # 4)).2)
         "processed_20240101_120000_in.mp4"
       = NotFound.
Proof.
  assert (exists r,
            (process_video (world mjpg_server)
               (video_filepath mjpg_server "in.mp4")
               (Some (video_output_path mjpg_server "in.mp4")) 5 (1 # 4)).1
            = JobOk r
            /\ processed_frames r <> 0
            /\ output_exists r = true) as (r & Hr & Hnz & Hout)
    by (eexists; vm_compute; repeat split; discriminate).
  destruct (video_url_may_name_a_missing_file mjpg_server
              (mkUpload (Some "in.mp4") (Some 1) None) "in.mp4" r
              eq_refl ltac:(discriminate) ltac:(vm_compute; reflexivity)
              eq_refl eq_refl ltac:(vm_compute; reflexivity) Hr Hnz Hout
              ltac:(vm_compute; reflexivity))
    as (body & written & Hb & _ & _ & _ & _ & Hurl & _ & _ & Hget).
  exists body. split; [exact Hb|]. split; [exact Hurl | exact Hget].
Defined.

(** ** Requests without an acceptable file *)

Ltac reply_cases :=
  cbn [fst snd];
  repeat match goal with
  | |- _ /\ _ => split
  | |- _ <-> _ => split
  | |- forall _, _ => intro
  | H : exists _, _ |- _ => destruct H
  | H : _ \/ _ |- _ => destruct H
  | H : _ /\ _ |- _ => destruct H
  end;
  try discriminate; try congruence; try reflexivity;
  try (left; congruence); try (right; congruence); eauto 7.

(** X25: both upload endpoints answer 400 exactly when the request has no file,
    an empty file name or a name [allowed_file] rejects; an error reply of
    [upload_video] has status 400 or 500 and leaves nothing behind, and an
    error reply of [upload_image] stores no detection and no alert. *)
Theorem requests_without_an_acceptable_file_get_400 (s : Server) (req : Upload) :
  let unacceptable :=
    upload_filename req = None
    \/ upload_filename req = Some ""
    \/ exists name, upload_filename req = Some name /\ allowed_file name = false in
  ((exists message, (upload_video s req).1 = Error 400 message) <-> unacceptable)
  /\ ((exists message, (upload_image s req).1 = Error 400 message) <-> unacceptable)
  /\ (forall status message,
        (upload_video s req).1 = Error status message ->
        status = 400 \/ status = 500)
  /\ (forall status message,
        (upload_video s req).1 = Error status message ->
        (upload_video s req).2 = nothing)
  /\ (forall status message,
        (upload_image s req).1 = Error status message ->
        detections_added (upload_image s req).2 = []
        /\ alerts_added (upload_image s req).2 = []).
Proof.
  intros unacceptable. subst unacceptable. unfold upload_video, upload_image.
  destruct (upload_filename req) as [name|]; [|reply_cases].
  destruct (String.eqb_spec name "") as [->|Hne]; [reply_cases|].
  destruct (allowed_file name) eqn:Hok; cbn [negb]; [|reply_cases].
  destruct (save_raises s); [reply_cases|].
  destruct ((process_video (world s) (video_filepath s name)
               (Some (video_output_path s name)) 5 (1 # 4)).1) as [r|e];
    [destruct (processed_frames r =? 0); [|destruct (commit_raises s) eqn:Hc]|];
    (destruct (has_error (detect_persons (imread s) (model (world s))
                 (OsPath.join3 "uploads" "images"
                    (upload_timestamp s +:+ "_" +:+ secure_filename s name)) (1 # 4)));
     [|destruct (annotated_frame (detect_persons (imread s) (model (world s))
                 (OsPath.join3 "uploads" "images"
                    (upload_timestamp s +:+ "_" +:+ secure_filename s name)) (1 # 4)));
       destruct (commit_raises s)]);
    reply_cases.
Qed.
